(** * GDM dashboard controller: a shallow embedding of [static/js/dashboard.js]

    The script renders two Chart.js charts from a JSON blob embedded in the
    page, refreshes four KPI counters from [/api/dashboard-data], wires click
    and search handlers, and defines a trailing-edge [debounce].

    Conventions of the embedding.
    - A JavaScript value is a [jsval].  The numbers that reach the dashboard
      are patient and assessment counts, so [JNum] carries an integer: a safe
      integer (below 2^53 in magnitude), which a double holds exactly and
      [ToString] prints digit by digit.  The arithmetic of the tooltip
      callback is binary64 arithmetic, as [SpecFloat] specifies it.
    - A string is the sequence of its characters ([string] holds the UTF-8
      bytes of a text, and on well-formed text one string occurs in another
      as bytes exactly when it does as characters).  [toLowerCase] and the
      grammar of selectors belong to the platform and are parameters of the
      search filter.
    - A statement that can throw returns a [completion].
    - The document is the record [page]: what [getElementById] and
      [querySelectorAll] answer, the charts constructed so far, the timers
      set, the console and [window.location.href].  Every selector has its
      own list of elements: an element that two selectors match is listed
      under each, and what is written through one is not seen through the
      other.  The statements below speak of one selector at a time.
    - Time (for [debounce]) is a count of milliseconds, and the event loop is
      idle between the calls: a timer fires when it is due. *)

From Stdlib Require Import ZArith QArith Qpower Qabs Qround Lqa String Ascii List Lia
  DecimalString SpecFloat.
From stdpp Require Import gmap strings list fin_maps.

#[local] Set Warnings "-register-all".
#[local] Open Scope Z_scope.

(** ** JavaScript values *)

Module JS.

Inductive jsval : Type :=
  | JUndefined
  | JNull
  | JBool (b : bool)
  | JNum (n : Z)
  | JStr (s : string)
  | JArr (l : list jsval)
  | JObj (o : gmap string jsval).

Inductive error : Type :=
  | TypeError
  | SyntaxError
  | NetworkError.

(** The outcome of running a statement: it completes, or it throws. *)
Inductive completion (A : Type) : Type :=
  | Normal (a : A)
  | Throw (e : error).
Arguments Normal {A} a.
Arguments Throw {A} e.

Definition bind {A B} (c : completion A) (k : A -> completion B) : completion B :=
  match c with
  | Normal a => k a
  | Throw e => Throw e
  end.

Notation "'let!' x ':=' c 'in' k" := (bind c (fun x => k))
  (at level 10, x name, c at level 100, k at level 200).

(** ToBoolean. *)
Definition truthy (v : jsval) : bool :=
  match v with
  | JUndefined | JNull => false
  | JBool b => b
  | JNum n => negb (n =? 0)
  | JStr s => negb (String.eqb s "")
  | JArr _ | JObj _ => true
  end.

(** [a || b] on already evaluated operands (both are side-effect free in this
    script). *)
Definition js_or (a b : jsval) : jsval := if truthy a then a else b.

(** [v.key] and [v[key]].  Reading a property of [undefined] or [null] throws a
    TypeError; an object answers its own property or [undefined].  None of the
    names the script reads ([low_risk], [moderate_risk], [high_risk], [labels],
    [counts], [stats], [riskDistribution], [assessmentTrends] and the four KPI
    keys) exists on a prototype, so every other value answers [undefined]. *)
Definition getProp (v : jsval) (key : string) : completion jsval :=
  match v with
  | JUndefined | JNull => Throw TypeError
  | JObj o => Normal (default JUndefined (o !! key))
  | _ => Normal JUndefined
  end.

Definition Z_to_string (n : Z) : string :=
  NilZero.string_of_int (Z.to_int n).

Definition sep_by (sep : string) (l : list string) : string :=
  match l with
  | [] => ""
  | x :: r => fold_left (fun acc y => acc +:+ sep +:+ y) r x
  end.

(** ToString, as applied by [element.textContent = v] and by template
    literals.  A number is printed in full, as a safe integer is. *)
Fixpoint ToString (v : jsval) : string :=
  match v with
  | JUndefined => "undefined"
  | JNull => "null"
  | JBool true => "true"
  | JBool false => "false"
  | JNum n => Z_to_string n
  | JStr s => s
  | JArr l =>
      sep_by "," (map (fun x => match x with
                                | JUndefined | JNull => ""
                                | _ => ToString x
                                end) l)
  | JObj _ => "[object Object]"
  end.

End JS.
Import JS.

(** ** The document *)

Record element : Type := mkElement {
  textContent : string;
  transform : string;   (* style.transform *)
  display : string;     (* style.display *)
  cursor : string       (* style.cursor *)
}.

(** An element of the page is named by the selector that found it and its
    position in that selector's result list. *)
Definition elemref : Type := (string * nat)%type.

Inductive callback : Type :=
  | SetTransform (target : elemref) (value : string)
  | RefreshDashboardData.

(** The functions the script registers with [addEventListener]. *)
Inductive handler : Type :=
  | KpiCardClick (index : nat)
  | DebouncedSearchFilter (wait : Z).

Record listener : Type := mkListener {
  target : elemref;
  eventType : string;
  onEvent : handler
}.

(** A Chart.js instance: the canvas it is bound to and the data part of its
    configuration (colours, fonts and animation settings are constants of the
    script and are left out). *)
Record chart : Type := mkChart {
  canvas : string;
  chartType : string;
  chartLabels : jsval;
  datasetData : jsval
}.

Record page : Type := mkPage {
  byId : gmap string element;              (* document.getElementById *)
  bySelector : gmap string (list element); (* document.querySelectorAll *)
  charts : list chart;                     (* every [new Chart] so far *)
  pending : list (Z * callback);           (* setTimeout (delay, callback) *)
  listeners : list listener;               (* addEventListener *)
  console : list string;
  href : string                            (* window.location.href *)
}.

(** What running a statement leaves behind: the page once it is done, or the
    exception it threw and the page at that point. *)
Inductive outcome : Type :=
  | Done (p : page)
  | Threw (e : error) (p : page).

Definition andThen (o : outcome) (k : page -> outcome) : outcome :=
  match o with
  | Done p => k p
  | Threw e p => Threw e p
  end.

(** Evaluate an expression on page [p] and go on with its value; an exception
    of the expression is thrown with the page as it is. *)
Definition eval {A} (c : completion A) (p : page) (k : A -> outcome) : outcome :=
  match c with
  | Normal a => k a
  | Throw e => Threw e p
  end.

(** [try { body } catch (error) { handler }] *)
Definition try_catch (body : outcome) (handler : error -> page -> outcome) : outcome :=
  match body with
  | Done p => Done p
  | Threw e p => handler e p
  end.

(** The page an outcome holds. *)
Definition pageOf (o : outcome) : page :=
  match o with
  | Done p => p
  | Threw _ p => p
  end.

Definition getElementById (p : page) (id : string) : option element :=
  byId p !! id.

Definition querySelectorAll (p : page) (sel : string) : list element :=
  default [] (bySelector p !! sel).

Definition querySelector (p : page) (sel : string) : option element :=
  head (querySelectorAll p sel).

Definition newChart (c : chart) (p : page) : page :=
  mkPage (byId p) (bySelector p) (charts p ++ [c]) (pending p) (listeners p)
         (console p) (href p).

Definition setTimeout (cb : callback) (delay : Z) (p : page) : page :=
  mkPage (byId p) (bySelector p) (charts p) (pending p ++ [(delay, cb)])
         (listeners p) (console p) (href p).

Definition addEventListener (r : elemref) (type : string) (h : handler) (p : page) : page :=
  mkPage (byId p) (bySelector p) (charts p) (pending p)
         (listeners p ++ [mkListener r type h]) (console p) (href p).

Definition console_log (line : string) (p : page) : page :=
  mkPage (byId p) (bySelector p) (charts p) (pending p) (listeners p)
         (console p ++ [line]) (href p).

Definition setHref (url : string) (p : page) : page :=
  mkPage (byId p) (bySelector p) (charts p) (pending p) (listeners p) (console p) url.

(** Assignment to a field of the element [r] names; a reference that no longer
    resolves leaves the page as it is. *)
Definition updateElement (r : elemref) (f : element -> element) (p : page) : page :=
  match bySelector p !! r.1 with
  | Some l =>
      match l !! r.2 with
      | Some e =>
          mkPage (byId p) (<[r.1 := <[r.2 := f e]> l]> (bySelector p))
                 (charts p) (pending p) (listeners p) (console p) (href p)
      | None => p
      end
  | None => p
  end.

Definition set_textContent (s : string) (e : element) : element :=
  mkElement s (transform e) (display e) (cursor e).
Definition set_transform (s : string) (e : element) : element :=
  mkElement (textContent e) s (display e) (cursor e).
Definition set_display (s : string) (e : element) : element :=
  mkElement (textContent e) (transform e) s (cursor e).
Definition set_cursor (s : string) (e : element) : element :=
  mkElement (textContent e) (transform e) (display e) s.

(** ** Chart renderers *)

Module Charts.

(** [initializeRiskDistributionChart(data)], lines 27-93. *)
Definition initializeRiskDistributionChart (data : jsval) (p : page) : outcome :=
  match getElementById p "riskDistributionChart" with
  | None => Done p
  | Some _ =>
      eval (let! low := getProp data "low_risk" in
            let! moderate := getProp data "moderate_risk" in
            let! high := getProp data "high_risk" in
            Normal (mkChart "riskDistributionChart" "doughnut"
                      (JArr [JStr "Low Risk"; JStr "Moderate Risk"; JStr "High Risk"])
                      (JArr [js_or low (JNum 0);
                             js_or moderate (JNum 0);
                             js_or high (JNum 0)])))
           p
           (fun config => Done (newChart config p))
  end.

Definition defaultLabels : jsval :=
  JArr [JStr "Mon"; JStr "Tue"; JStr "Wed"; JStr "Thu"; JStr "Fri"; JStr "Sat"; JStr "Sun"].

Definition defaultCounts : jsval :=
  JArr [JNum 0; JNum 0; JNum 0; JNum 0; JNum 0; JNum 0; JNum 0].

(** [initializeAssessmentTrendsChart(data)], lines 96-189. *)
Definition initializeAssessmentTrendsChart (data : jsval) (p : page) : outcome :=
  match getElementById p "assessmentTrendsChart" with
  | None => Done p
  | Some _ =>
      eval (let! l := getProp data "labels" in
            let labels := js_or l defaultLabels in
            let! c := getProp data "counts" in
            let assessmentCounts := js_or c defaultCounts in
            Normal (mkChart "assessmentTrendsChart" "line" labels assessmentCounts))
           p
           (fun config => Done (newChart config p))
  end.

End Charts.

(** ** IEEE-754 doubles

    A JavaScript number is a binary64 floating-point number.  The arithmetic
    is the Standard Library's [SpecFloat] (round to nearest, ties to even) at
    the binary64 format. *)

Module Binary64.

Definition prec : Z := 53.
Definition emax : Z := 1024.

(** The double nearest to an integer: what an integer literal of the JSON text
    parses to. *)
Definition ofZ (n : Z) : spec_float := binary_normalize prec emax n 0 false.

(** The absolute value of the finite double with mantissa [m] and exponent
    [e]. *)
Definition magnitude (m : positive) (e : Z) : Q := (inject_Z (Z.pos m) * 2 ^ e)%Q.

(** [Number.isSafeInteger]: the integers strictly between -2^53 and 2^53. *)
Definition isSafeInteger (n : Z) : bool := (- 2 ^ 53 <? n) && (n <? 2 ^ 53).

Definition safe (n : Z) : Prop := - 2 ^ 53 < n < 2 ^ 53.

End Binary64.

(** ** The doughnut chart's tooltip label callback (lines 69-75) *)

Module Tooltip.
Import Binary64.

(** The part of Chart.js's tooltip context the callback reads:
    [context.label], [context.parsed] and [context.dataset.data].  The
    dataset holds counts: integers, each read as the double [ofZ] gives. *)
Record context : Type := mkContext {
  label : string;
  parsed : Z;
  dataset : list Z
}.

(** A numeral with one fraction digit: a sign and a count of tenths. *)
Record fixed1 : Type := mkFixed1 {
  negative : bool;
  tenths : Z
}.

(** [x.toFixed(1)] (Number.prototype.toFixed with one fraction digit).  A
    negative [x] gives a minus sign and is negated; then [n] is the integer
    for which [n / 10 - x] is as close to zero as possible, the larger one
    when there are two.  [None] stands for the strings that are not such a
    numeral: "NaN", "Infinity", and the exponent notation from 10^21 on. *)
Definition toFixed1 (x : spec_float) : option fixed1 :=
  match x with
  | S754_zero _ => Some (mkFixed1 false 0)
  | S754_finite s m e =>
      if Qle_bool (inject_Z (10 ^ 21)) (magnitude m e) then None
      else Some (mkFixed1 s (Qfloor (10 * magnitude m e + (1 # 2))))
  | S754_infinity _ | S754_nan => None
  end.

Definition fixed1_to_string (f : fixed1) : string :=
  (if negative f then "-" else "") +:+ Z_to_string (tenths f / 10) +:+ "."
    +:+ Z_to_string (tenths f mod 10).

(** [percentage] is the string [toFixed] returns, or the number 0. *)
Inductive percentage : Type :=
  | PctFixed (f : fixed1)
  | PctNumber (n : Z).

Definition percentage_to_string (pc : percentage) : string :=
  match pc with
  | PctFixed f => fixed1_to_string f
  | PctNumber n => Z_to_string n
  end.

(** The number a percentage denotes, counted in tenths of a percent. *)
Definition percentage_tenths (pc : percentage) : Z :=
  match pc with
  | PctFixed f => if negative f then - tenths f else tenths f
  | PctNumber n => 10 * n
  end.

(** [context.dataset.data.reduce((a, b) => a + b, 0)] *)
Definition total (data : list Z) : spec_float :=
  fold_left (fun a b => SFadd prec emax a (ofZ b)) data (ofZ 0).

(** [total > 0 ? ((value / total) * 100).toFixed(1) : 0].  The answer is
    [None] when [toFixed] has no one-decimal numeral to give. *)
Definition tooltipPercentage (ctx : context) : option percentage :=
  let value := ofZ (parsed ctx) in
  let total := total (dataset ctx) in
  if SFltb (ofZ 0) total
  then match toFixed1 (SFmul prec emax (SFdiv prec emax value total) (ofZ 100)) with
       | Some f => Some (PctFixed f)
       | None => None
       end
  else Some (PctNumber 0).

(** The callback itself: [`${label}: ${value} patients (${percentage}%)`].
    The template literal prints a safe integer [value] digit by digit; the
    answer is [None] when the label holds a numeral that is not spelled out
    here: of a value that is not a safe integer, or of a percentage [toFixed]
    prints in another notation. *)
Definition tooltipLabel (ctx : context) : option string :=
  let label := ToString (js_or (JStr (label ctx)) (JStr "")) in
  let value := parsed ctx in
  match tooltipPercentage ctx with
  | Some pc =>
      if isSafeInteger value
      then Some (label +:+ ": " +:+ Z_to_string value +:+ " patients ("
                   +:+ percentage_to_string pc +:+ "%)")
      else None
  | None => None
  end.

(** The numbers of a dataset array, when it holds nothing but numbers. *)
Fixpoint numbers (l : list jsval) : option (list Z) :=
  match l with
  | [] => Some []
  | JNum n :: r =>
      match numbers r with
      | Some ns => Some (n :: ns)
      | None => None
      end
  | _ => None
  end.

Fixpoint strings (l : list jsval) : list string :=
  match l with
  | [] => []
  | x :: r => ToString x :: strings r
  end.

(** The contexts Chart.js hands to the callback, one per slice of a chart whose
    dataset is an array of numbers. *)
Definition sliceContexts (c : chart) : option (list context) :=
  match chartLabels c, datasetData c with
  | JArr ls, JArr ds =>
      match numbers ds with
      | Some ns =>
          Some (imap (fun i v => mkContext (default "" (strings ls !! i)) v ns) ns)
      | None => None
      end
  | _, _ => None
  end.

Fixpoint all_some {A} (l : list (option A)) : option (list A) :=
  match l with
  | [] => Some []
  | Some x :: r =>
      match all_some r with
      | Some xs => Some (x :: xs)
      | None => None
      end
  | None :: _ => None
  end.

(** The percentage shown for every slice of [c], in slice order. *)
Definition slicePercentages (c : chart) : option (list percentage) :=
  match sliceContexts c with
  | Some ctxs => all_some (map tooltipPercentage ctxs)
  | None => None
  end.

Definition sliceLabels (c : chart) : option (list string) :=
  match sliceContexts c with
  | Some ctxs => all_some (map tooltipLabel ctxs)
  | None => None
  end.

End Tooltip.

(** ** The refresh of the KPI cards (lines 207-248) *)

Module Refresh.

(** What [await fetch('/api/dashboard-data', ...)] can come to: the promise is
    rejected, or it yields a response with its [ok] flag and what
    [await response.json()] would give (a value, or a SyntaxError). *)
Inductive fetchResult : Type :=
  | FetchRejected
  | Response (ok : bool) (json : completion jsval).

(** The keys of [kpiElements], in insertion order, each with its selector. *)
Definition kpiSelectors : list (string * string) :=
  [ ("totalPatients", ".kpi-card:nth-child(1) h3");
    ("totalAssessments", ".kpi-card:nth-child(2) h3");
    ("highRiskCount", ".kpi-card:nth-child(3) h3");
    ("assessmentsThisWeek", ".kpi-card:nth-child(4) h3") ].

(** The object literal [kpiElements]: every key with the element
    [document.querySelector] found for it, or [None] for [null]. *)
Definition kpiElements (p : page) : list (string * option elemref) :=
  map (fun ks => (ks.1, match querySelector p ks.2 with
                        | Some _ => Some (ks.2, 0%nat)
                        | None => None
                        end)) kpiSelectors.

(** The body of the [forEach] callback for one key. *)
Definition updateKPICard (stats : jsval) (entry : string * option elemref) (p : page)
  : outcome :=
  match entry.2 with
  | None => Done p
  | Some element =>
      eval (getProp stats entry.1) p (fun v =>
        if truthy v
        then
          let p1 := updateElement element (set_transform "scale(1.1)") p in
          let p2 := updateElement element (set_textContent (ToString v)) p1 in
          Done (setTimeout (SetTransform element "scale(1)") 150 p2)
        else Done p)
  end.

Fixpoint forEach {A} (body : A -> page -> outcome) (l : list A) (p : page) : outcome :=
  match l with
  | [] => Done p
  | x :: r => andThen (body x p) (forEach body r)
  end.

(** [updateKPICards(stats)] *)
Definition updateKPICards (stats : jsval) (p : page) : outcome :=
  forEach (updateKPICard stats) (kpiElements p) p.

(** [refreshDashboardData()].  The function is [async]; its two [await]s are
    run in sequence here, and [Threw] would be a rejected promise. *)
Definition refreshDashboardData (net : fetchResult) (p : page) : outcome :=
  try_catch
    (match net with
     | FetchRejected => Threw NetworkError p
     | Response ok json =>
         if ok
         then
           eval json p (fun data =>
           eval (getProp data "stats") p (fun stats =>
           andThen (updateKPICards stats p) (fun p1 =>
           Done (console_log "Dashboard data refreshed" p1))))
         else Done p
     end)
    (fun error p' =>
       Done (console_log
               "Dashboard refresh failed (this is normal if API endpoint not implemented):"
               p')).

(** The counter a KPI card displays: the text of its heading. *)
Definition displayed (p : page) (sel : string) : option string :=
  textContent <$> querySelector p sel.

End Refresh.

(** ** KPI card clicks (lines 251-282) *)

Module Kpi.

(** The [switch (index)] of the click handler. *)
Definition navigate (index : nat) (p : page) : page :=
  match index with
  | 0%nat => setHref "/patients" p
  | 1%nat => setHref "/patients" p
  | 2%nat => setHref "/patients?filter=high_risk" p
  | 3%nat => setHref "/patients?filter=recent" p
  | _ => p
  end.

(** The click handler registered for the card at [index]; [this] is the card. *)
Definition kpiCardClick (this : elemref) (index : nat) (p : page) : page :=
  let p1 := updateElement this (set_transform "scale(0.98)") p in
  let p2 := setTimeout (SetTransform this "") 100 p1 in
  navigate index p2.

(** [kpiCards.forEach((card, index) => ...)], for the cards from [index] on. *)
Fixpoint forEachCard (cards : list element) (index : nat) (p : page) : page :=
  match cards with
  | [] => p
  | _ :: rest =>
      let card := (".kpi-card", index) in
      let p1 := addEventListener card "click" (KpiCardClick index) p in
      let p2 := updateElement card (set_cursor "pointer") p1 in
      forEachCard rest (S index) p2
  end.

(** [addKPICardInteractions()] *)
Definition addKPICardInteractions (p : page) : page :=
  forEachCard (querySelectorAll p ".kpi-card") 0 p.

Definition elemref_eqb (a b : elemref) : bool :=
  String.eqb a.1 b.1 && Nat.eqb a.2 b.2.

(** One round of the dispatch loop at element [r]: listener [l] runs when it
    was registered on [r] for the click event. *)
Definition clickStep (r : elemref) (acc : page) (l : listener) : page :=
  if elemref_eqb (target l) r && String.eqb (eventType l) "click"
  then match onEvent l with
       | KpiCardClick index => kpiCardClick r index acc
       | DebouncedSearchFilter _ => acc
       end
  else acc.

(** A click event arrives at element [r], where it was dispatched or where it
    has bubbled up to from an element inside [r]: the click listeners of [r]
    run in registration order.  (The listeners of the elements around [r] are
    the business of their own [click].) *)
Definition click (r : elemref) (p : page) : page :=
  fold_left (clickStep r) (listeners p) p.

End Kpi.

(** ** Search (lines 285-304) *)

Module Search.

(** [s.includes(t)]: [t] occurs in [s] at some position. *)
Fixpoint includes (s t : string) : bool :=
  String.prefix t s ||
  match s with
  | EmptyString => false
  | String _ r => includes r t
  end.

(** What the handler reads from the event: [e.target.value] and
    [e.target.getAttribute('data-search')] (a string: the inputs were selected
    by that attribute). *)
Record inputEvent : Type := mkInputEvent {
  value : string;
  dataSearch : string
}.

Fixpoint forEachItem (body : nat -> element -> page -> page) (items : list element)
    (i : nat) (p : page) : page :=
  match items with
  | [] => p
  | item :: rest => forEachItem body rest (S i) (body i item p)
  end.

Section Search.

(** [String.prototype.toLowerCase], the platform's Unicode lower-casing.  The
    script does not depend on how it maps any character: it is a parameter. *)
Variable toLowerCase : string -> string.

(** Whether a string parses as a selector list.  [document.querySelectorAll]
    throws a SyntaxError on one that does not (the empty string, for one). *)
Variable validSelector : string -> bool.

(** The body of [items.forEach(item => ...)]; [item] is the [i]-th match of the
    target selector. *)
Definition filterItem (targetSelector searchTerm : string) (i : nat) (item : element)
    (p : page) : page :=
  let text := toLowerCase (textContent item) in
  if includes text searchTerm
  then updateElement (targetSelector, i) (set_display "") p
  else updateElement (targetSelector, i) (set_display "none") p.

(** The function handed to [debounce]: the search filter. *)
Definition searchFilter (e : inputEvent) (p : page) : outcome :=
  let searchTerm := toLowerCase (value e) in
  let targetSelector := dataSearch e in
  if validSelector targetSelector
  then
    let items := querySelectorAll p targetSelector in
    Done (forEachItem (filterItem targetSelector searchTerm) items 0 p)
  else Threw SyntaxError p.

End Search.

Fixpoint forEachInput (inputs : list element) (i : nat) (p : page) : page :=
  match inputs with
  | [] => p
  | _ :: rest =>
      forEachInput rest (S i)
        (addEventListener ("[data-search]", i) "input" (DebouncedSearchFilter 300) p)
  end.

(** [addSearchFunctionality()] *)
Definition addSearchFunctionality (p : page) : page :=
  forEachInput (querySelectorAll p "[data-search]") 0 p.

End Search.

(** ** debounce (lines 315-325) *)

Module Debounce.
Section Debounce.

(** The arguments [func] takes, and the delay. *)
Context {A : Type}.
Variable wait : Z.

(** A [later] closure waiting in the timer queue: the id [setTimeout] returned
    for it, the time it is due and the [args] it captured. *)
Record timer : Type := mkTimer {
  timerId : nat;
  due : Z;
  args : A
}.

(** The event loop around one debounced function: the clock, the timer queue,
    the closure variable [timeout] ([None] for [undefined]) and the argument
    lists [func] has been called with, oldest first. *)
Record state : Type := mkState {
  now : Z;
  nextId : nat;
  queue : list timer;
  timeout : option nat;
  calls : list A
}.

Definition initial (t0 : Z) : state := mkState t0 1 [] None [].

Definition clearTimeout (id : option nat) (q : list timer) : list timer :=
  match id with
  | None => q
  | Some i => List.filter (fun t => negb (Nat.eqb (timerId t) i)) q
  end.

(** [executedFunction(...args)]: the function [debounce] returns.  A negative
    delay counts as 0. *)
Definition executedFunction (a : A) (s : state) : state :=
  let q := clearTimeout (timeout s) (queue s) in
  let id := nextId s in
  mkState (now s) (S id) (q ++ [mkTimer id (now s + Z.max 0 wait) a]) (Some id) (calls s).

(** [later]: [clearTimeout(timeout); func(...args)]. *)
Definition later (a : A) (s : state) : state :=
  mkState (now s) (nextId s) (clearTimeout (timeout s) (queue s)) (timeout s)
          (calls s ++ [a]).

(** The timer the loop runs next: the earliest due one, the oldest of them. *)
Fixpoint earliest (q : list timer) : option timer :=
  match q with
  | [] => None
  | t :: r =>
      match earliest r with
      | Some t' => if due t' <? due t then Some t' else Some t
      | None => Some t
      end
  end.

(** Run the timers due by [t], in due order.  A fired timer leaves the queue
    and [later] adds none, so the length of the queue bounds the number of
    rounds. *)
Fixpoint fire (rounds : nat) (t : Z) (s : state) : state :=
  match rounds with
  | O => s
  | S n =>
      match earliest (queue s) with
      | Some tm =>
          if due tm <=? t
          then
            let q := List.filter (fun x => negb (Nat.eqb (timerId x) (timerId tm))) (queue s) in
            fire n t (later (args tm)
                        (mkState (Z.max (now s) (due tm)) (nextId s) q (timeout s) (calls s)))
          else s
      | None => s
      end
  end.

(** The page is looked at at time [t], the loop idle: every timer due by then
    has fired. *)
Definition advance (t : Z) (s : state) : state :=
  let s' := fire (length (queue s)) t s in
  mkState (Z.max (now s') t) (nextId s') (queue s') (timeout s') (calls s').

(** The clock reaches [t], where the debounced function is about to be
    called: the timers due before [t] have fired.  A timer due at [t] itself
    has not run yet: a call made in the same turn as the call that set the
    timer (as happens with a delay of 0) always comes first, and between a
    timer and a call of another task at the same instant the event loop
    decides. *)
Definition arrive (t : Z) (s : state) : state :=
  let s' := fire (length (queue s)) (t - 1) s in
  mkState (Z.max (now s') t) (nextId s') (queue s') (timeout s') (calls s').

(** A run of the page: the debounced function is called at the given times
    with the given arguments.  Calls at different times come from different
    tasks (input events), between which the loop is idle; calls at the same
    time may share a turn. *)
Fixpoint play (events : list (Z * A)) (s : state) : state :=
  match events with
  | [] => s
  | (t, a) :: r => play r (executedFunction a (arrive t s))
  end.

End Debounce.
End Debounce.

(** ** Page load (lines 2-24, 192-204) *)

Module Load.
Import Charts.

(** [setInterval(callback, period)]: the repeating timer is kept in the same
    list as the one-shot ones, with its period; [RefreshDashboardData] is the
    only callback of the script that repeats. *)
Definition setInterval (cb : callback) (period : Z) (p : page) : page :=
  setTimeout cb period p.

(** [addInteractiveFeatures()].  [initializeTooltips] hands elements to
    Bootstrap and touches nothing of the page record. *)
Definition addInteractiveFeatures (p : page) : page :=
  let p1 := setInterval RefreshDashboardData (5 * 60 * 1000) p in
  let p2 := Kpi.addKPICardInteractions p1 in
  Search.addSearchFunctionality p2.

Section Load.

(** JSON.parse, a function of the text. *)
Variable JSON_parse : string -> completion jsval.

(** The [DOMContentLoaded] listener. *)
Definition onDOMContentLoaded (p : page) : outcome :=
  match getElementById p "chartData" with
  | None => Done (console_log "Chart data not found" p)
  | Some chartDataElement =>
      match JSON_parse (textContent chartDataElement) with
      | Throw e => Done (console_log "Error parsing chart data:" p)
      | Normal chartData =>
          eval (getProp chartData "riskDistribution") p (fun riskDistribution =>
          andThen (initializeRiskDistributionChart riskDistribution p) (fun p1 =>
          eval (getProp chartData "assessmentTrends") p1 (fun assessmentTrends =>
          andThen (initializeAssessmentTrendsChart assessmentTrends p1) (fun p2 =>
          Done (addInteractiveFeatures p2)))))
      end
  end.

End Load.
End Load.

(** * Vocabulary of the statements, and sample inputs *)

Definition nullish (v : jsval) : Prop := v = JUndefined \/ v = JNull.

(** [shown] is what [o[k] || dflt] leaves: the default when the key is
    missing or holds a falsy value ([undefined], [null], [false], 0, the empty
    string), the supplied value when it holds a truthy one. *)
Definition orDefault (o : gmap string jsval) (k : string) (dflt shown : jsval) : Prop :=
  match o !! k with
  | None => shown = dflt
  | Some v => if truthy v then shown = v else shown = dflt
  end.

(** The count a riskDistribution object supplies for key [k], a missing key
    taken as 0; [None] when the key holds something else than a number. *)
Definition countOf (o : gmap string jsval) (k : string) : option Z :=
  match o !! k with
  | None => Some 0
  | Some (JNum n) => Some n
  | Some _ => None
  end.

(** The percentage a tooltip shows, as a number. *)
Definition percentage_value (pc : Tooltip.percentage) : Q :=
  inject_Z (Tooltip.percentage_tenths pc) / 10.

Definition sum_tenths (l : list Tooltip.percentage) : Z :=
  fold_right (fun pc acc => Tooltip.percentage_tenths pc + acc) 0 l.


(** [pc] is a numeral with one fraction digit, at most 0.05 away from the
    exact percentage [v / t * 100]. *)
Definition oneDecimalOf (v t : Z) (pc : Tooltip.percentage) : Prop :=
  (exists f, pc = Tooltip.PctFixed f) /\
  let exact := (inject_Z v / inject_Z t * 100)%Q in
  (exact - (1 # 20) <= percentage_value pc <= exact + (1 # 20))%Q.

(** The percentages on the tooltips of the doughnut chart rendered from the
    riskDistribution object [o] on page [p]. *)
Definition riskPercentages (o : gmap string jsval) (p : page)
  : option (list Tooltip.percentage) :=
  match Charts.initializeRiskDistributionChart (JObj o) p with
  | Done p' =>
      match last (charts p') with
      | Some c => Tooltip.slicePercentages c
      | None => None
      end
  | Threw _ _ => None
  end.

Definition blank : element := mkElement "" "" "" "".

(** A page that has both canvases and nothing else. *)
Definition canvasPage : page :=
  mkPage (<["riskDistributionChart" := blank]> (<["assessmentTrendsChart" := blank]> ∅))
         ∅ [] [] [] [] "/dashboard".

(** A page without any canvas. *)
Definition barePage : page := mkPage ∅ ∅ [] [] [] [] "/dashboard".

(** [{ moderate_risk: 4, high_risk: 0 }]: [low_risk] is missing. *)
Definition twoKeys : gmap string jsval :=
  <["moderate_risk" := JNum 4]> (<["high_risk" := JNum 0]> ∅).

(** [{ low_risk: null, moderate_risk: 4 }]: [high_risk] is missing and
    [low_risk] is present, holding [null]. *)
Definition nullAndMissing : gmap string jsval :=
  <["low_risk" := JNull]> (<["moderate_risk" := JNum 4]> ∅).

(** [{ counts: [2, 0, 5] }]: [labels] is missing. *)
Definition onlyCounts : gmap string jsval :=
  <["counts" := JArr [JNum 2; JNum 0; JNum 5]]> ∅.

(** [{ low_risk: 1, moderate_risk: 1, high_risk: 1 }] *)
Definition equalThirds : gmap string jsval :=
  <["low_risk" := JNum 1]> (<["moderate_risk" := JNum 1]> (<["high_risk" := JNum 1]> ∅)).

(** [{ low_risk: 1, moderate_risk: 15 }] *)
Definition oneInSixteen : gmap string jsval :=
  <["low_risk" := JNum 1]> (<["moderate_risk" := JNum 15]> ∅).

(** A refresh attempt fails when the request is rejected (network error), the
    response is not OK, or the body does not parse. *)
Definition failedAttempt (net : Refresh.fetchResult) : Prop :=
  net = Refresh.FetchRejected \/
  (exists json, net = Refresh.Response false json) \/
  (exists e, net = Refresh.Response true (Throw e)).

Definition heading (text : string) : element := mkElement text "scale(1)" "" "".

(** A dashboard showing 120 patients, 45 assessments, 3 at high risk and 9
    assessments this week. *)
Definition kpiPage : page :=
  mkPage ∅
         (<[".kpi-card:nth-child(1) h3" := [heading "120"]]>
         (<[".kpi-card:nth-child(2) h3" := [heading "45"]]>
         (<[".kpi-card:nth-child(3) h3" := [heading "3"]]>
         (<[".kpi-card:nth-child(4) h3" := [heading "9"]]>
         (<[".kpi-card" := [blank; blank; blank; blank]]> ∅)))))
         [] [] [] [] "/dashboard".

(** [{ stats: { totalPatients: 121, totalAssessments: 46, highRiskCount: 0,
    assessmentsThisWeek: 10 } }]: the last patient at high risk is gone. *)
Definition snapshotNoHighRisk : jsval :=
  JObj (<["stats" :=
           JObj (<["totalPatients" := JNum 121]>
                (<["totalAssessments" := JNum 46]>
                (<["highRiskCount" := JNum 0]>
                (<["assessmentsThisWeek" := JNum 10]> ∅))))]> ∅).

(** Where a click on the card at [index] leads from [from]. *)
Definition destination (index : nat) (from : string) : string :=
  match index with
  | 0%nat | 1%nat => "/patients"
  | 2%nat => "/patients?filter=high_risk"
  | 3%nat => "/patients?filter=recent"
  | _ => from
  end.

(** [t] occurs in [s]. *)
Definition occursIn (t s : string) : Prop :=
  exists before after, s = (before +:+ t +:+ after)%string.

(** What the search filter leaves of one item for the query [query], under the
    lower-casing [lower]. *)
Definition filtered (lower : string -> string) (query : string) (item : element) : element :=
  set_display
    (if Search.includes (lower (textContent item)) (lower query) then "" else "none")
    item.

(** Lower-casing on the ASCII range ([A]-[Z] go to [a]-[z], every other
    character stays), and the selector grammar cut down to "not empty": what
    the sample runs below are made with. *)
Definition lower_ascii (c : ascii) : ascii :=
  let n := nat_of_ascii c in
  if (65 <=? n)%nat && (n <=? 90)%nat then ascii_of_nat (n + 32) else c.

Fixpoint asciiLowerCase (s : string) : string :=
  match s with
  | EmptyString => EmptyString
  | String c r => String (lower_ascii c) (asciiLowerCase r)
  end.

Definition notEmpty (sel : string) : bool := negb (String.eqb sel "").

(** Three rows of a patient table and a search box typed into. *)
Definition rowsPage : page :=
  mkPage ∅
         (<["tbody tr" := [mkElement "Amina Otieno" "" "" "";
                           mkElement "Brian KAMAU" "" "none" "";
                           mkElement "Carol Wanjiru" "" "" ""]]> ∅)
         [] [] [] [] "/patients".

Definition typedKam : Search.inputEvent := Search.mkInputEvent "Kam" "tbody tr".




(** The listener [addKPICardInteractions] registers on the card at [index]. *)
Definition cardListener (index : nat) : listener :=
  mkListener (".kpi-card", index) "click" (KpiCardClick index).

(** ** Timers of the page

    What the browser does with a timer of the page that has come due. *)

Module Timers.

(** A [setInterval] callback stays scheduled after it has run. *)
Definition repeats (cb : callback) : bool :=
  match cb with
  | RefreshDashboardData => true
  | SetTransform _ _ => false
  end.

Definition unschedule (i : nat) (p : page) : page :=
  mkPage (byId p) (bySelector p) (charts p) (delete i (pending p)) (listeners p)
         (console p) (href p).

(** The callbacks the script hands to [setTimeout] and [setInterval]:
    [() => { element.style.transform = value }] (lines 243-245 and 258-260)
    and [refreshDashboardData] (line 194), which meets the fetch result [net]. *)
Definition runCallback (cb : callback) (net : Refresh.fetchResult) (p : page) : outcome :=
  match cb with
  | SetTransform element value => Done (updateElement element (set_transform value) p)
  | RefreshDashboardData => Refresh.refreshDashboardData net p
  end.

(** The [i]-th pending timer fires. *)
Definition fireTimer (i : nat) (net : Refresh.fetchResult) (p : page) : outcome :=
  match pending p !! i with
  | Some (_, cb) => runCallback cb net (if repeats cb then p else unschedule i p)
  | None => Done p
  end.

End Timers.

(** ** More vocabulary *)


(** The calls a trailing-edge debounce lets through: a call followed by
    another one before its quiet window is over (or at the very instant it
    ends) is dropped, the last call always runs. *)
Fixpoint trailing {A} (wait : Z) (events : list (Z * A)) : list A :=
  match events with
  | [] => []
  | e :: rest =>
      match rest with
      | [] => [e.2]
      | e' :: _ =>
          if e.1 + Z.max 0 wait <? e'.1
          then e.2 :: trailing wait rest
          else trailing wait rest
      end
  end.



(** At most one [later] is pending, and [timeout] holds its id. *)
Definition singlePending {A} (s : Debounce.state (A := A)) : Prop :=
  Debounce.queue s = [] \/
  exists tm, Debounce.queue s = [tm] /\ Debounce.timeout s = Some (Debounce.timerId tm).




(** The page after the search filter has run for the event [e] on a valid
    target selector. *)
Definition searched (lower : string -> string) (e : Search.inputEvent) (p : page) : page :=
  match bySelector p !! Search.dataSearch e with
  | Some items =>
      mkPage (byId p)
             (<[Search.dataSearch e := map (filtered lower (Search.value e)) items]>
                (bySelector p))
             (charts p) (pending p) (listeners p) (console p) (href p)
  | None => p
  end.


Definition clearedSearch : Search.inputEvent := Search.mkInputEvent "" "tbody tr".

(** The page once [addKPICardInteractions] has gone over [cards], the elements
    [.kpi-card] selects. *)
Definition wired (cards : list element) (p : page) : page :=
  mkPage (byId p)
         (<[".kpi-card" := map (set_cursor "pointer") cards]> (bySelector p))
         (charts p) (pending p)
         (listeners p ++ map cardListener (seq 0 (length cards)))
         (console p) (href p).

(** The element a reference names on a page. *)
Definition resolve (r : elemref) (p : page) : option element :=
  match bySelector p !! r.1 with
  | Some l => l !! r.2
  | None => None
  end.

(** A selector of one of the four KPI headings. *)
Definition kpiSelector (sel : string) : Prop := In sel (map snd Refresh.kpiSelectors).

(** The timer [updateKPICards] sets to end the pulse of a card. *)
Definition pulseReset (t : Z * callback) : Prop :=
  exists element, t = (150, SetTransform element "scale(1)").

(** What a successful refresh makes of a KPI heading: when the snapshot holds a
    truthy value under the card's key the heading takes its text and is scaled
    up, otherwise it is left alone. *)
Definition kpiAfter (stats : gmap string jsval) (key : string) (old : element) : element :=
  let v := default JUndefined (stats !! key) in
  if truthy v
  then set_textContent (ToString v) (set_transform "scale(1.1)" old)
  else old.

(** What [updateKPICards] may change of the page record: nothing but the
    entries of the KPI heading selectors and the pulse timers it appends. *)
Definition kpiFrame (p p' : page) : Prop :=
  byId p' = byId p /\ charts p' = charts p /\ listeners p' = listeners p /\
  href p' = href p /\ console p' = console p /\
  (forall sel, ~ kpiSelector sel -> bySelector p' !! sel = bySelector p !! sel) /\
  exists new, pending p' = pending p ++ new /\ Forall pulseReset new.

Definition refreshedLine : string := "Dashboard data refreshed".
Definition failedLine : string :=
  "Dashboard refresh failed (this is normal if API endpoint not implemented):".

(** [{ stats: { totalPatients: 121, highRiskCount: 0 } }]: two keys are
    missing, one count is 0. *)
Definition partialSnapshot : gmap string jsval :=
  <["stats" := JObj (<["totalPatients" := JNum 121]> (<["highRiskCount" := JNum 0]> ∅))]> ∅.

(** [{ message: "maintenance" }]: an OK response without [stats]. *)
Definition noStats : jsval := JObj (<["message" := JStr "maintenance"]> ∅).

(** [{ totalPatients: 121 }] *)
Definition onlyPatients : gmap string jsval := <["totalPatients" := JNum 121]> ∅.

(** [shown] is what [o[k] || dflt] leaves when the key holds a falsy value. *)
Definition fallsBackTo (o : gmap string jsval) (k : string) (dflt shown : jsval) : Prop :=
  forall v, o !! k = Some v -> truthy v = false -> shown = dflt.

(** [{ low_risk: null, moderate_risk: false, high_risk: "" }] *)
Definition falsyCounts : gmap string jsval :=
  <["low_risk" := JNull]> (<["moderate_risk" := JBool false]> (<["high_risk" := JStr ""]> ∅)).

(** The listener [addSearchFunctionality] registers on the [i]-th search box. *)
Definition searchListener (i : nat) : listener :=
  mkListener ("[data-search]", i) "input" (DebouncedSearchFilter 300).

(** A parser that knows one document: [{ riskDistribution: { low_risk: 1,
    moderate_risk: 1, high_risk: 1 }, assessmentTrends: { counts: [2, 0, 5] } }]
    for the text [full], the same without [assessmentTrends] for [half], and
    a SyntaxError for every other text. *)
Definition sampleParse (text : string) : completion jsval :=
  if String.eqb text "full"
  then Normal (JObj (<["riskDistribution" := JObj equalThirds]>
                    (<["assessmentTrends" := JObj onlyCounts]> ∅)))
  else if String.eqb text "half"
  then Normal (JObj (<["riskDistribution" := JObj equalThirds]> ∅))
  else Throw SyntaxError.

(** A dashboard page as served: the embedded chart data with text [text], both
    canvases, four KPI cards and one search box. *)
Definition servedPage (text : string) : page :=
  mkPage (<["chartData" := mkElement text "" "" ""]>
          (<["riskDistributionChart" := blank]>
          (<["assessmentTrendsChart" := blank]> ∅)))
         (<[".kpi-card" := [blank; blank; blank; blank]]>
         (<["[data-search]" := [blank]]> ∅))
         [] [] [] [] "/dashboard".

(** ** Vocabulary of the rounding analysis *)

(** Where the scaled value [y] lies, as a shift record tells it: on the
    integer [shr_m], below, at or above the half-way point to the next one. *)
Definition position (y : Q) (mrs : shr_record) : Prop :=
  let m := inject_Z (shr_m mrs) in
  match shr_r mrs, shr_s mrs with
  | false, false => y == m
  | false, true => m < y /\ y < m + (1 # 2)
  | true, false => y == m + (1 # 2)
  | true, true => m + (1 # 2) < y /\ y < m + 1
  end%Q.

(** The double with mantissa [m] (of 53 bits, or 2^53 after a carry) and
    exponent [e]. *)
Definition normalised (s : bool) (m e : Z) : spec_float :=
  if m <? 2 ^ 53 then S754_finite s (Z.to_pos m) e
  else S754_finite s (Z.to_pos (2 ^ 52)) (e + 1).

(** The double that holds the positive integer [N] (below 2^53) exactly. *)
Definition canonical (s : bool) (N : positive) : spec_float :=
  let d := Z.pos (digits2_pos N) in
  S754_finite s (Z.to_pos (Z.pos N * 2 ^ (53 - d))) (d - 53).

(** The relative error of one rounding: 2^-53. *)
Definition eps : Q := 1 # 9007199254740992.

(** The sum of the counts, as an integer. *)
Definition sumZ (data : list Z) : Z := foldr Z.add 0 data.

(** Every count of the dataset and every running sum of [reduce] is a safe
    integer. *)
Definition safeCounts (data : list Z) : Prop :=
  Forall Binary64.safe data /\ forall k : nat, Binary64.safe (sumZ (take k data)).

(** * Properties *)

(** ** Chart renderers: absent container, absent data, defaults *)

Section Renderers.
Import Charts.

(** C9: without its container a renderer returns at once: no chart is
    constructed and the page is left exactly as it was, whatever the data
    argument is (also [undefined] or [null]). *)
Theorem renderer_without_container_is_noop (data : jsval) (p : page) :
  (getElementById p "riskDistributionChart" = None ->
   initializeRiskDistributionChart data p = Done p) /\
  (getElementById p "assessmentTrendsChart" = None ->
   initializeAssessmentTrendsChart data p = Done p).
Proof.
  split; intros Habsent.
  - unfold initializeRiskDistributionChart. now rewrite Habsent.
  - unfold initializeAssessmentTrendsChart. now rewrite Habsent.
Qed.

Lemma renderer_without_container_is_noop_witness :
  initializeRiskDistributionChart JUndefined barePage = Done barePage /\
  initializeAssessmentTrendsChart JUndefined barePage = Done barePage.
Proof.
  split.
  - apply (proj1 (renderer_without_container_is_noop JUndefined barePage)).
    reflexivity.
  - apply (proj2 (renderer_without_container_is_noop JUndefined barePage)).
    reflexivity.
Defined.

Lemma getProp_nullish (v : jsval) (key : string) :
  nullish v -> getProp v key = Throw TypeError.
Proof. intros [-> | ->]; reflexivity. Qed.

Lemma getProp_object (o : gmap string jsval) (key : string) :
  getProp (JObj o) key = Normal (default JUndefined (o !! key)).
Proof. reflexivity. Qed.

Lemma risk_chart_throws (data : jsval) (p : page) :
  is_Some (getElementById p "riskDistributionChart") -> nullish data ->
  initializeRiskDistributionChart data p = Threw TypeError p.
Proof.
  intros [ctx Hctx] Hdata. unfold initializeRiskDistributionChart.
  rewrite Hctx, (getProp_nullish data _ Hdata). reflexivity.
Qed.

Lemma trends_chart_throws (data : jsval) (p : page) :
  is_Some (getElementById p "assessmentTrendsChart") -> nullish data ->
  initializeAssessmentTrendsChart data p = Threw TypeError p.
Proof.
  intros [ctx Hctx] Hdata. unfold initializeAssessmentTrendsChart.
  rewrite Hctx, (getProp_nullish data _ Hdata). reflexivity.
Qed.

(** C10: with the container present, a data argument that is [undefined] or
    [null] makes either renderer throw a TypeError before any chart is
    constructed, while every object, whatever keys it lacks, gets its
    chart. *)
Theorem renderer_throws_on_absent_data (p : page) :
  (is_Some (getElementById p "riskDistributionChart") ->
   (forall data, nullish data ->
      initializeRiskDistributionChart data p = Threw TypeError p) /\
   (forall o, exists config,
      initializeRiskDistributionChart (JObj o) p = Done (newChart config p))) /\
  (is_Some (getElementById p "assessmentTrendsChart") ->
   (forall data, nullish data ->
      initializeAssessmentTrendsChart data p = Threw TypeError p) /\
   (forall o, exists config,
      initializeAssessmentTrendsChart (JObj o) p = Done (newChart config p))).
Proof.
  split; intros Hctx; split.
  - intros data Hdata. now apply risk_chart_throws.
  - intros o. destruct Hctx as [ctx Hctx]. unfold initializeRiskDistributionChart.
    rewrite Hctx, !getProp_object. cbn. eauto.
  - intros data Hdata. now apply trends_chart_throws.
  - intros o. destruct Hctx as [ctx Hctx]. unfold initializeAssessmentTrendsChart.
    rewrite Hctx, !getProp_object. cbn. eauto.
Qed.

Lemma renderer_throws_on_absent_data_witness :
  initializeRiskDistributionChart JUndefined canvasPage = Threw TypeError canvasPage /\
  initializeAssessmentTrendsChart JNull canvasPage = Threw TypeError canvasPage.
Proof.
  split.
  - apply (proj1 (renderer_throws_on_absent_data canvasPage)).
    + exists blank. reflexivity.
    + left. reflexivity.
  - apply (proj2 (renderer_throws_on_absent_data canvasPage)).
    + exists blank. reflexivity.
    + right. reflexivity.
Defined.

(** At page load, chart data without a [riskDistribution] section hands
    [undefined] to the renderer: the listener throws, and neither the trends
    chart nor the interactive features are set up. *)
Lemma load_throws_without_risk_section
    (JSON_parse : string -> completion jsval) (p : page) (chartDataElement : element)
    (o : gmap string jsval) :
  getElementById p "chartData" = Some chartDataElement ->
  JSON_parse (textContent chartDataElement) = Normal (JObj o) ->
  o !! "riskDistribution" = None ->
  is_Some (getElementById p "riskDistributionChart") ->
  Load.onDOMContentLoaded JSON_parse p = Threw TypeError p.
Proof.
  intros Hel Hparse Hmissing Hctx.
  unfold Load.onDOMContentLoaded.
  rewrite Hel, Hparse, getProp_object, Hmissing. cbn [eval default from_option].
  rewrite risk_chart_throws by (assumption || now left). reflexivity.
Qed.

Lemma js_or_number (n : Z) : js_or (JNum n) (JNum 0) = JNum n.
Proof.
  unfold js_or. cbn. destruct (Z.eqb_spec n 0) as [-> | _]; reflexivity.
Qed.

Lemma js_or_orDefault (o : gmap string jsval) (k : string) (dflt : jsval) :
  orDefault o k dflt (js_or (default JUndefined (o !! k)) dflt).
Proof.
  unfold orDefault, js_or. destruct (o !! k) as [v |]; cbn [default from_option id].
  - now destruct (truthy v).
  - reflexivity.
Qed.

(** C5, as the code has it: for a riskDistribution object the doughnut's
    dataset is [low, moderate, high], each 0 when its key is missing or holds
    a falsy value and the supplied value when it holds a truthy one; the
    trends chart takes the weekday labels and seven zeros when [labels] or
    [counts] is missing or falsy and the supplied value (an array, even an
    empty one, is truthy) otherwise. *)
Theorem missing_keys_are_defaulted (o : gmap string jsval) (p : page) :
  (is_Some (getElementById p "riskDistributionChart") ->
   exists low moderate high,
     initializeRiskDistributionChart (JObj o) p =
       Done (newChart
               (mkChart "riskDistributionChart" "doughnut"
                  (JArr [JStr "Low Risk"; JStr "Moderate Risk"; JStr "High Risk"])
                  (JArr [low; moderate; high])) p) /\
     orDefault o "low_risk" (JNum 0) low /\
     orDefault o "moderate_risk" (JNum 0) moderate /\
     orDefault o "high_risk" (JNum 0) high) /\
  (is_Some (getElementById p "assessmentTrendsChart") ->
   exists labels counts,
     initializeAssessmentTrendsChart (JObj o) p =
       Done (newChart (mkChart "assessmentTrendsChart" "line" labels counts) p) /\
     orDefault o "labels" defaultLabels labels /\
     orDefault o "counts" defaultCounts counts).
Proof.
  split; intros [ctx Hctx].
  - exists (js_or (default JUndefined (o !! "low_risk")) (JNum 0)),
           (js_or (default JUndefined (o !! "moderate_risk")) (JNum 0)),
           (js_or (default JUndefined (o !! "high_risk")) (JNum 0)).
    split; [| auto using js_or_orDefault].
    unfold initializeRiskDistributionChart.
    rewrite Hctx, !getProp_object. reflexivity.
  - exists (js_or (default JUndefined (o !! "labels")) defaultLabels),
           (js_or (default JUndefined (o !! "counts")) defaultCounts).
    split; [| auto using js_or_orDefault].
    unfold initializeAssessmentTrendsChart.
    rewrite Hctx, !getProp_object. reflexivity.
Qed.

Lemma missing_keys_are_defaulted_witness :
  initializeRiskDistributionChart (JObj twoKeys) canvasPage =
    Done (newChart
            (mkChart "riskDistributionChart" "doughnut"
               (JArr [JStr "Low Risk"; JStr "Moderate Risk"; JStr "High Risk"])
               (JArr [JNum 0; JNum 4; JNum 0])) canvasPage) /\
  initializeAssessmentTrendsChart (JObj onlyCounts) canvasPage =
    Done (newChart
            (mkChart "assessmentTrendsChart" "line" defaultLabels
               (JArr [JNum 2; JNum 0; JNum 5])) canvasPage).
Proof.
  split.
  - destruct (proj1 (missing_keys_are_defaulted twoKeys canvasPage))
      as (low & moderate & high & Hrun & Hlow & Hmoderate & Hhigh).
    + exists blank. reflexivity.
    + rewrite Hrun. vm_compute in Hlow, Hmoderate, Hhigh.
      rewrite Hlow, Hmoderate, Hhigh. reflexivity.
  - destruct (proj2 (missing_keys_are_defaulted onlyCounts canvasPage))
      as (labels & counts & Hrun & Hlabels & Hcounts).
    + exists blank. reflexivity.
    + rewrite Hrun. vm_compute in Hlabels, Hcounts.
      rewrite Hlabels, Hcounts. reflexivity.
Defined.

(** C5 as stated fails: in [{ low_risk: null, moderate_risk: 4 }] a key is
    missing and [low_risk] is present, yet the dataset is [0, 4, 0]: it holds 0
    for [low_risk], not the [null] that was supplied. *)
Lemma present_null_is_drawn_as_zero :
  nullAndMissing !! "high_risk" = None /\
  nullAndMissing !! "low_risk" = Some JNull /\
  initializeRiskDistributionChart (JObj nullAndMissing) canvasPage =
    Done (newChart
            (mkChart "riskDistributionChart" "doughnut"
               (JArr [JStr "Low Risk"; JStr "Moderate Risk"; JStr "High Risk"])
               (JArr [JNum 0; JNum 4; JNum 0])) canvasPage) /\
  ~ (forall (o : gmap string jsval) (p : page) (low moderate high supplied : jsval),
       o !! "low_risk" = None \/ o !! "moderate_risk" = None \/ o !! "high_risk" = None ->
       initializeRiskDistributionChart (JObj o) p =
         Done (newChart
                 (mkChart "riskDistributionChart" "doughnut"
                    (JArr [JStr "Low Risk"; JStr "Moderate Risk"; JStr "High Risk"])
                    (JArr [low; moderate; high])) p) ->
       o !! "low_risk" = Some supplied -> low = supplied).
Proof.
  assert (initializeRiskDistributionChart (JObj nullAndMissing) canvasPage =
            Done (newChart
                    (mkChart "riskDistributionChart" "doughnut"
                       (JArr [JStr "Low Risk"; JStr "Moderate Risk"; JStr "High Risk"])
                       (JArr [JNum 0; JNum 4; JNum 0])) canvasPage)) as Hrun
    by reflexivity.
  repeat split; try reflexivity; try exact Hrun.
  intros Hclaim.
  specialize (Hclaim nullAndMissing canvasPage (JNum 0) (JNum 4) (JNum 0) JNull
                (or_intror (or_intror eq_refl)) Hrun eq_refl).
  discriminate Hclaim.
Qed.

End Renderers.

(** ** Rounding of binary64 arithmetic

    What [SpecFloat]'s operations return on the doubles the tooltip callback
    meets: sums of safe integers are exact, a quotient and a product are
    within a relative 2^-53 of the exact result. *)

Lemma digits2_bounds (p : positive) :
  (2 ^ (Z.pos (digits2_pos p) - 1) <= Z.pos p < 2 ^ Z.pos (digits2_pos p))%Z.
Proof.
  induction p as [p IH | p IH |]; cbn [digits2_pos].
  - rewrite Pos2Z.inj_succ.
    replace (Z.succ (Z.pos (digits2_pos p)) - 1)%Z
      with (Z.succ (Z.pos (digits2_pos p) - 1)) by lia.
    rewrite !Z.pow_succ_r by lia. lia.
  - rewrite Pos2Z.inj_succ.
    replace (Z.succ (Z.pos (digits2_pos p)) - 1)%Z
      with (Z.succ (Z.pos (digits2_pos p) - 1)) by lia.
    rewrite !Z.pow_succ_r by lia. lia.
  - cbn. lia.
Qed.

Lemma digits2_unique (p : positive) (k : Z) :
  (2 ^ (k - 1) <= Z.pos p < 2 ^ k)%Z -> Z.pos (digits2_pos p) = k.
Proof.
  intros [Hlo Hhi]. pose proof (digits2_bounds p) as [Dlo Dhi].
  set (d := Z.pos (digits2_pos p)) in *.
  assert (0 < k)%Z.
  { destruct (Z_lt_le_dec 0 k) as [|Hk]; [assumption |].
    assert (2 ^ k <= 1)%Z.
    { destruct (Z.eq_dec k 0) as [-> | ?]; [cbn; lia |].
      rewrite Z.pow_neg_r by lia. lia. }
    lia. }
  destruct (Z_lt_le_dec d k) as [Hlt | Hge].
  - assert (2 ^ d <= 2 ^ (k - 1))%Z by (apply Z.pow_le_mono_r; lia). lia.
  - destruct (Z_lt_le_dec k d) as [Hlt' | Hge']; [| lia].
    assert (2 ^ k <= 2 ^ (d - 1))%Z by (apply Z.pow_le_mono_r; lia). lia.
Qed.

Section Rounding.
Import Binary64.
#[local] Open Scope Q_scope.

Lemma pow2_pos (e : Z) : 0 < 2 ^ e.
Proof. apply Qpower_0_lt. reflexivity. Qed.

Lemma pow2_add (a b : Z) : 2 ^ (a + b) == 2 ^ a * 2 ^ b.
Proof. apply Qpower_plus. discriminate. Qed.

Lemma pow2_succ (e : Z) : 2 ^ (e + 1) == 2 * 2 ^ e.
Proof. rewrite pow2_add. change (2 ^ 1) with 2. ring. Qed.

Lemma pow2_inject (n : Z) : (0 <= n)%Z -> inject_Z (2 ^ n) == 2 ^ n.
Proof. intros Hn. now rewrite Zpower_Qpower. Qed.

Lemma position_Qeq (y y' : Q) (mrs : shr_record) :
  y == y' -> position y mrs -> position y' mrs.
Proof.
  intros Hy. unfold position. destruct (shr_r mrs), (shr_s mrs); rewrite Hy; auto.
Qed.

Lemma shr_1_position (y : Q) (mrs : shr_record) :
  (0 <= shr_m mrs)%Z -> position y mrs ->
  position (y * (1 # 2)) (shr_1 mrs) /\ shr_m (shr_1 mrs) = (shr_m mrs / 2)%Z.
Proof.
  destruct mrs as [m r s]. cbn [shr_m]. intros Hm Hpos.
  destruct m as [| p | p]; [| | lia].
  - split; [| reflexivity].
    unfold position in *. cbn [shr_1 shr_m shr_r shr_s] in *.
    change (inject_Z 0) with 0 in *.
    destruct r, s; cbn [orb]; lra.
  - destruct p as [p | p |].
    + split; [| cbn [shr_1 shr_m]; rewrite (Pos2Z.inj_xI p);
                 apply Z.div_unique with 1%Z; lia].
      unfold position in *. cbn [shr_1 shr_m shr_r shr_s] in *.
      rewrite Pos2Z.inj_xI, inject_Z_plus, inject_Z_mult in Hpos.
      change (inject_Z 2) with 2 in Hpos. change (inject_Z 1) with 1 in Hpos.
      destruct r, s; cbn [orb]; lra.
    + split; [| cbn [shr_1 shr_m]; rewrite (Pos2Z.inj_xO p);
                 apply Z.div_unique with 0%Z; lia].
      unfold position in *. cbn [shr_1 shr_m shr_r shr_s] in *.
      rewrite Pos2Z.inj_xO, inject_Z_mult in Hpos.
      change (inject_Z 2) with 2 in Hpos.
      destruct r, s; cbn [orb]; lra.
    + split; [| reflexivity].
      unfold position in *. cbn [shr_1 shr_m shr_r shr_s] in *.
      change (inject_Z 1) with 1 in *. change (inject_Z 0) with 0.
      destruct r, s; cbn [orb]; lra.
Qed.

Lemma iter_shr_position (p : positive) :
  forall (y : Q) (mrs : shr_record),
    (0 <= shr_m mrs)%Z -> position y mrs ->
    position (y * 2 ^ (Z.neg p)) (SpecFloat.iter_pos shr_1 p mrs) /\
    shr_m (SpecFloat.iter_pos shr_1 p mrs) = (shr_m mrs / 2 ^ Z.pos p)%Z.
Proof.
  induction p as [p IH | p IH |]; intros y mrs Hm Hpos; cbn [SpecFloat.iter_pos].
  - destruct (shr_1_position y mrs Hm Hpos) as [P1 M1].
    assert (0 <= shr_m (shr_1 mrs))%Z as Hm1 by (rewrite M1; apply Z.div_pos; lia).
    destruct (IH _ _ Hm1 P1) as [P2 M2].
    assert (0 <= shr_m (SpecFloat.iter_pos shr_1 p (shr_1 mrs)))%Z as Hm2
      by (rewrite M2; apply Z.div_pos; lia).
    destruct (IH _ _ Hm2 P2) as [P3 M3].
    split.
    + eapply position_Qeq; [| exact P3].
      replace (Z.neg p~1) with (-1 + (Z.neg p + Z.neg p))%Z by lia.
      rewrite !pow2_add. change (2 ^ (-1)) with (1 # 2). ring.
    + rewrite M3, M2, M1, !Z.div_div by lia.
      f_equal. replace (Z.pos p~1) with (1 + (Z.pos p + Z.pos p))%Z by lia.
      rewrite !Z.pow_add_r by lia. change (2 ^ 1)%Z with 2%Z. ring.
  - destruct (IH _ _ Hm Hpos) as [P2 M2].
    assert (0 <= shr_m (SpecFloat.iter_pos shr_1 p mrs))%Z as Hm2
      by (rewrite M2; apply Z.div_pos; lia).
    destruct (IH _ _ Hm2 P2) as [P3 M3].
    split.
    + eapply position_Qeq; [| exact P3].
      replace (Z.neg p~0) with (Z.neg p + Z.neg p)%Z by lia.
      rewrite !pow2_add. ring.
    + rewrite M3, M2, !Z.div_div by lia.
      f_equal. replace (Z.pos p~0) with (Z.pos p + Z.pos p)%Z by lia.
      now rewrite Z.pow_add_r by lia.
  - destruct (shr_1_position y mrs Hm Hpos) as [P1 M1]. split.
    + eapply position_Qeq; [| exact P1]. reflexivity.
    + rewrite M1. reflexivity.
Qed.

Lemma round_position (y : Q) (mrs : shr_record) :
  position y mrs ->
  let m2 := round_nearest_even (shr_m mrs) (loc_of_shr_record mrs) in
  (shr_m mrs <= m2 <= shr_m mrs + 1)%Z /\
  - (1 # 2) <= y - inject_Z m2 <= 1 # 2 /\ inject_Z (shr_m mrs) <= y.
Proof.
  destruct mrs as [m r s]. unfold position. cbn [shr_m shr_r shr_s loc_of_shr_record].
  intros Hpos. cbn zeta.
  destruct r, s; cbn [round_nearest_even].
  - rewrite inject_Z_plus. change (inject_Z 1) with 1. split; [lia | lra].
  - destruct (Z.even m); [| rewrite inject_Z_plus; change (inject_Z 1) with 1];
      (split; [lia | lra]).
  - split; [lia | lra].
  - split; [lia | lra].
Qed.

Lemma fexp_normal (x : Z) : (-1021 <= x)%Z -> fexp prec emax x = (x - 53)%Z.
Proof. intros Hx. unfold fexp, emin, prec, emax. lia. Qed.

Lemma shr_m_of_loc (m : Z) (l : location) : shr_m (shr_record_of_loc m l) = m.
Proof. destruct l as [| []]; reflexivity. Qed.

Lemma div_pow2_digits (p : positive) :
  let d := Z.pos (digits2_pos p) in
  (53 <= d)%Z -> (2 ^ 52 <= Z.pos p / 2 ^ (d - 53) < 2 ^ 53)%Z.
Proof.
  intros d Hd. pose proof (digits2_bounds p) as [Dlo Dhi]. fold d in Dlo, Dhi.
  assert (0 < 2 ^ (d - 53))%Z as Hpos by (apply Z.pow_pos_nonneg; lia).
  assert (2 ^ (d - 1) = 2 ^ 52 * 2 ^ (d - 53))%Z as E1
    by (rewrite <- Z.pow_add_r by lia; f_equal; lia).
  assert (2 ^ d = 2 ^ 53 * 2 ^ (d - 53))%Z as E2
    by (rewrite <- Z.pow_add_r by lia; f_equal; lia).
  split.
  - apply Z.div_le_lower_bound; lia.
  - apply Z.div_lt_upper_bound; lia.
Qed.

Lemma shr_fexp_spec (p : positive) (e : Z) (l : location) (y0 : Q) :
  let d := Z.pos (digits2_pos p) in
  (53 <= d)%Z -> (-1021 <= d + e)%Z ->
  position y0 (shr_record_of_loc (Z.pos p) l) ->
  exists mrs,
    shr_fexp prec emax (Z.pos p) e l = (mrs, (e + (d - 53))%Z) /\
    position (y0 * 2 ^ (53 - d)) mrs /\
    shr_m mrs = (Z.pos p / 2 ^ (d - 53))%Z.
Proof.
  intros d Hd He Hpos. unfold shr_fexp. cbn [Zdigits2]. fold d.
  rewrite (fexp_normal (d + e)) by assumption.
  replace (d + e - 53 - e)%Z with (d - 53)%Z by lia.
  destruct (d - 53)%Z as [| k | k] eqn:Ek; [| | lia].
  - exists (shr_record_of_loc (Z.pos p) l). cbn [shr].
    replace (53 - d)%Z with 0%Z by lia. rewrite Z.add_0_r.
    split; [reflexivity |]. split.
    + eapply position_Qeq; [| exact Hpos]. change (2 ^ 0) with 1. ring.
    + rewrite shr_m_of_loc. change (2 ^ 0)%Z with 1%Z. now rewrite Z.div_1_r.
  - exists (SpecFloat.iter_pos shr_1 k (shr_record_of_loc (Z.pos p) l)). cbn [shr].
    split; [reflexivity |].
    replace (53 - d)%Z with (Z.neg k) by lia.
    destruct (iter_shr_position k y0 (shr_record_of_loc (Z.pos p) l)) as [P M];
      [rewrite shr_m_of_loc; lia | assumption |].
    rewrite shr_m_of_loc in M. now split.
Qed.

Lemma binary_round_aux_spec (s : bool) (p : positive) (e : Z) (l : location) (y0 : Q) :
  let d := Z.pos (digits2_pos p) in
  (53 <= d)%Z -> (-1021 <= d + e)%Z -> (d + e <= 1023)%Z ->
  position y0 (shr_record_of_loc (Z.pos p) l) ->
  exists m2 : Z,
    (2 ^ 52 <= m2 <= 2 ^ 53)%Z /\
    - (1 # 2) <= y0 * 2 ^ (53 - d) - inject_Z m2 <= 1 # 2 /\
    inject_Z (2 ^ 52) <= y0 * 2 ^ (53 - d) /\
    binary_round_aux prec emax s (Z.pos p) e l = normalised s m2 (e + (d - 53)).
Proof.
  intros d Hd Hlo Hhi Hpos.
  destruct (shr_fexp_spec p e l y0 Hd Hlo Hpos) as (mrs & E1 & P1 & M1).
  fold d in E1, P1, M1.
  pose proof (div_pow2_digits p Hd) as Hm. fold d in Hm. rewrite <- M1 in Hm.
  pose proof (round_position _ _ P1) as (R1 & R2 & R3). cbn zeta in R1, R2, R3.
  set (m2 := round_nearest_even (shr_m mrs) (loc_of_shr_record mrs)) in *.
  exists m2. split; [lia |]. split; [exact R2 |]. split.
  { apply Qle_trans with (inject_Z (shr_m mrs)); [| exact R3].
    rewrite <- Zle_Qle. lia. }
  unfold binary_round_aux. rewrite E1. fold m2.
  destruct m2 as [| p2 | p2] eqn:Em2; [lia | | lia].
  unfold normalised.
  destruct (Z.ltb_spec (Z.pos p2) (2 ^ 53)) as [Hlt | Hge].
  - assert (Z.pos (digits2_pos p2) = 53%Z) as D2
      by (apply digits2_unique; change (53 - 1)%Z with 52%Z; lia).
    unfold shr_fexp. cbn [Zdigits2]. rewrite D2.
    rewrite fexp_normal by lia.
    replace (53 + (e + (d - 53)) - 53 - (e + (d - 53)))%Z with 0%Z by lia.
    cbn [shr shr_record_of_loc shr_m].
    destruct (Z.leb_spec (e + (d - 53)) (emax - prec)) as [_ | Hover];
      [reflexivity | unfold emax, prec in Hover; lia].
  - assert (Z.pos p2 = 2 ^ 53)%Z as -> by lia.
    change (2 ^ 53)%Z with (Z.pos (Z.to_pos (2 ^ 53))).
    unfold shr_fexp. cbn [Zdigits2].
    change (Z.pos (digits2_pos (Z.to_pos (2 ^ 53)))) with 54%Z.
    rewrite fexp_normal by lia.
    replace (54 + (e + (d - 53)) - 53 - (e + (d - 53)))%Z with 1%Z by lia.
    cbn [shr SpecFloat.iter_pos shr_record_of_loc].
    change (shr_1 _) with (Build_shr_record (2 ^ 52) false false). cbn [shr_m].
    change (2 ^ 52)%Z with (Z.pos (Z.to_pos (2 ^ 52))).
    destruct (Z.leb_spec (e + (d - 53) + 1) (emax - prec)) as [_ | Hover];
      [reflexivity | unfold emax, prec in Hover; lia].
Qed.

Lemma normalised_finite (s : bool) (m e : Z) :
  (2 ^ 52 <= m <= 2 ^ 53)%Z ->
  exists (mm : positive) (ee : Z),
    normalised s m e = S754_finite s mm ee /\
    (2 ^ 52 <= Z.pos mm < 2 ^ 53)%Z /\ (e <= ee <= e + 1)%Z /\
    inject_Z (Z.pos mm) * 2 ^ ee == inject_Z m * 2 ^ e.
Proof.
  intros Hm. unfold normalised.
  destruct (Z.ltb_spec m (2 ^ 53)) as [Hlt | Hge].
  - exists (Z.to_pos m), e. rewrite Z2Pos.id by lia.
    split; [reflexivity |]. split; [lia |]. split; [lia | reflexivity].
  - exists (Z.to_pos (2 ^ 52)), (e + 1)%Z. rewrite Z2Pos.id by lia.
    split; [reflexivity |]. split; [lia |]. split; [lia |].
    assert (m = 2 ^ 53)%Z as -> by lia. rewrite pow2_succ.
    change (inject_Z (2 ^ 52)) with (4503599627370496 # 1).
    change (inject_Z (2 ^ 53)) with (9007199254740992 # 1).
    ring.
Qed.

Lemma binary_round_aux_value (s : bool) (p : positive) (e : Z) (l : location) (y0 : Q) :
  let d := Z.pos (digits2_pos p) in
  (53 <= d)%Z -> (-1021 <= d + e)%Z -> (d + e <= 1023)%Z ->
  position y0 (shr_record_of_loc (Z.pos p) l) ->
  exists m2 : Z,
    (2 ^ 52 <= m2 <= 2 ^ 53)%Z /\
    binary_round_aux prec emax s (Z.pos p) e l = normalised s m2 (e + (d - 53)) /\
    y0 * 2 ^ e * (1 - eps) <= inject_Z m2 * 2 ^ (e + (d - 53)) <= y0 * 2 ^ e * (1 + eps).
Proof.
  intros d Hd Hlo Hhi Hpos.
  destruct (binary_round_aux_spec s p e l y0 Hd Hlo Hhi Hpos) as (m2 & Hm & Hnear & Hy & E).
  fold d in Hnear, Hy, E.
  exists m2. split; [exact Hm |]. split; [exact E |].
  set (y := y0 * 2 ^ (53 - d)) in *.
  set (P := 2 ^ (e + (d - 53))).
  assert (0 < P) as HP by apply pow2_pos.
  assert (y0 * 2 ^ e == y * P) as ->.
  { unfold y, P. rewrite <- Qmult_assoc, <- pow2_add.
    replace (53 - d + (e + (d - 53)))%Z with e by lia. reflexivity. }
  change (inject_Z (2 ^ 52)) with (4503599627370496 # 1) in Hy.
  unfold eps. clearbody y P. clear E Hpos.
  set (M := inject_Z m2) in *. clearbody M.
  split.
  - apply Qle_trans with (y * (1 - (1 # 9007199254740992)) * P); [lra |].
    apply Qmult_le_compat_r; lra.
  - apply Qle_trans with (y * (1 + (1 # 9007199254740992)) * P); [| lra].
    apply Qmult_le_compat_r; lra.
Qed.

Lemma near_integer (a b : Z) : - (1 # 2) <= inject_Z a - inject_Z b <= 1 # 2 -> a = b.
Proof.
  intros [H1 H2]. destruct (Z.lt_trichotomy a b) as [Hlt | [-> | Hgt]]; [| reflexivity |].
  - assert (a + 1 <= b)%Z as H by lia.
    rewrite Zle_Qle, inject_Z_plus in H. change (inject_Z 1) with 1 in H. lra.
  - assert (b + 1 <= a)%Z as H by lia.
    rewrite Zle_Qle, inject_Z_plus in H. change (inject_Z 1) with 1 in H. lra.
Qed.

Lemma digits_le (p : positive) (k : Z) :
  (0 <= k)%Z -> (Z.pos p < 2 ^ k)%Z -> (Z.pos (digits2_pos p) <= k)%Z.
Proof.
  intros Hk Hp. pose proof (digits2_bounds p) as [Dlo _].
  destruct (Z_lt_le_dec k (Z.pos (digits2_pos p))) as [Hlt | ?]; [| assumption].
  assert (2 ^ k <= 2 ^ (Z.pos (digits2_pos p) - 1))%Z by (apply Z.pow_le_mono_r; lia).
  lia.
Qed.

Lemma digits_gt (p : positive) (k : Z) :
  (2 ^ k <= Z.pos p)%Z -> (k < Z.pos (digits2_pos p))%Z.
Proof.
  intros Hp. pose proof (digits2_bounds p) as [_ Dhi].
  destruct (Z_lt_le_dec k (Z.pos (digits2_pos p))) as [? | Hge]; [assumption |].
  assert (2 ^ Z.pos (digits2_pos p) <= 2 ^ k)%Z by (apply Z.pow_le_mono_r; lia).
  lia.
Qed.

Lemma digits_scaled (N m : positive) (k : Z) :
  (0 <= k)%Z -> (Z.pos m = Z.pos N * 2 ^ k)%Z ->
  (Z.pos (digits2_pos m) = Z.pos (digits2_pos N) + k)%Z.
Proof.
  intros Hk Hm. apply digits2_unique. pose proof (digits2_bounds N) as [Dlo Dhi].
  assert (0 < 2 ^ k)%Z by (apply Z.pow_pos_nonneg; lia).
  replace (Z.pos (digits2_pos N) + k - 1)%Z with (Z.pos (digits2_pos N) - 1 + k)%Z by lia.
  rewrite !Z.pow_add_r by lia. rewrite Hm. split; nia.
Qed.

Lemma binary_round_aux_exact (s : bool) (p : positive) (e I : Z) :
  let d := Z.pos (digits2_pos p) in
  (53 <= d)%Z -> (-1021 <= d + e)%Z -> (d + e <= 1023)%Z ->
  (Z.pos p = I * 2 ^ (d - 53))%Z ->
  binary_round_aux prec emax s (Z.pos p) e loc_Exact =
    S754_finite s (Z.to_pos I) (e + (d - 53)).
Proof.
  intros d Hd Hlo Hhi HI.
  assert (position (inject_Z (Z.pos p)) (shr_record_of_loc (Z.pos p) loc_Exact)) as Hpos
    by (unfold position; cbn; reflexivity).
  destruct (binary_round_aux_spec s p e loc_Exact _ Hd Hlo Hhi Hpos)
    as (m2 & Hm & Hnear & _ & E).
  fold d in Hnear, E. rewrite E.
  assert (0 < 2 ^ (d - 53))%Z as Hpow by (apply Z.pow_pos_nonneg; lia).
  assert (inject_Z (Z.pos p) * 2 ^ (53 - d) == inject_Z I) as HQ.
  { rewrite HI, inject_Z_mult, pow2_inject by lia.
    rewrite <- Qmult_assoc, <- pow2_add.
    replace (d - 53 + (53 - d))%Z with 0%Z by lia. change (2 ^ 0) with 1. ring. }
  rewrite HQ in Hnear. apply near_integer in Hnear. subst m2.
  pose proof (digits2_bounds p) as [_ Dhi]. fold d in Dhi.
  assert (2 ^ d = 2 ^ 53 * 2 ^ (d - 53))%Z as E2
    by (rewrite <- Z.pow_add_r by lia; f_equal; lia).
  unfold normalised. destruct (Z.ltb_spec I (2 ^ 53)) as [_ | Hge]; [reflexivity | nia].
Qed.

Lemma Pos_iter_xO (p d : positive) : (Z.pos (Pos.iter xO p d) = Z.pos p * 2 ^ Z.pos d)%Z.
Proof.
  induction d as [| d IH] using Pos.peano_ind.
  - cbn [Pos.iter]. rewrite Pos2Z.inj_xO. change (2 ^ 1)%Z with 2%Z. lia.
  - rewrite Pos.iter_succ, Pos2Z.inj_xO, IH, Pos2Z.inj_succ, Z.pow_succ_r by lia. ring.
Qed.

Lemma binary_round_integer (s : bool) (m N : positive) (k : Z) :
  (0 <= k <= 900)%Z -> (Z.pos m = Z.pos N * 2 ^ k)%Z -> (Z.pos N < 2 ^ 53)%Z ->
  binary_round prec emax s m (- k) = canonical s N.
Proof.
  intros Hk Hm HN. unfold binary_round, canonical.
  pose proof (digits_scaled N m k ltac:(lia) Hm) as Dm.
  pose proof (digits_le N 53 ltac:(lia) HN) as DN.
  set (dN := Z.pos (digits2_pos N)) in *.
  rewrite Dm. rewrite fexp_normal by lia.
  unfold shl_align.
  destruct (dN + k + - k - 53 - - k)%Z as [| j | j] eqn:Ej.
  - rewrite (binary_round_aux_exact s m (- k) (Z.pos N * 2 ^ (53 - dN))).
    + rewrite Dm. f_equal. lia.
    + lia.
    + lia.
    + lia.
    + rewrite Dm, Hm, <- Z.mul_assoc, <- Z.pow_add_r by lia. do 2 f_equal. lia.
  - rewrite (binary_round_aux_exact s m (- k) (Z.pos N * 2 ^ (53 - dN))).
    + rewrite Dm. f_equal. lia.
    + lia.
    + lia.
    + lia.
    + rewrite Dm, Hm, <- Z.mul_assoc, <- Z.pow_add_r by lia. do 2 f_equal. lia.
  - pose proof (Pos_iter_xO m j) as Hz.
    assert (Z.pos (Pos.iter xO m j) = Z.pos N * 2 ^ (53 - dN))%Z as Hz'.
    { rewrite Hz, Hm, <- Z.mul_assoc, <- Z.pow_add_r by lia. do 2 f_equal. lia. }
    pose proof (digits_scaled N _ (53 - dN) ltac:(lia) Hz') as Dz. fold dN in Dz.
    rewrite (binary_round_aux_exact s _ _ (Z.pos N * 2 ^ (53 - dN))).
    + rewrite Dz. f_equal. lia.
    + lia.
    + lia.
    + lia.
    + rewrite Dz, Hz'. replace (dN + (53 - dN) - 53)%Z with 0%Z by lia.
      change (2 ^ 0)%Z with 1%Z. lia.
Qed.

Lemma ofZ_0 : ofZ 0 = S754_zero false.
Proof. reflexivity. Qed.

Lemma ofZ_pos (N : positive) : (Z.pos N < 2 ^ 53)%Z -> ofZ (Z.pos N) = canonical false N.
Proof.
  intros HN. unfold ofZ. cbn [binary_normalize]. change 0%Z with (- 0)%Z.
  apply binary_round_integer; [lia | change (2 ^ 0)%Z with 1%Z; lia | assumption].
Qed.

Lemma ofZ_neg (N : positive) : (Z.pos N < 2 ^ 53)%Z -> ofZ (Z.neg N) = canonical true N.
Proof.
  intros HN. unfold ofZ. cbn [binary_normalize]. change 0%Z with (- 0)%Z.
  apply binary_round_integer; [lia | change (2 ^ 0)%Z with 1%Z; lia | assumption].
Qed.

Lemma binary_normalize_scaled (n k : Z) :
  (0 <= k <= 900)%Z -> safe n ->
  binary_normalize prec emax (n * 2 ^ k) (- k) false = ofZ n.
Proof.
  intros Hk [Hlo Hhi].
  assert (0 < 2 ^ k)%Z as Hpow by (apply Z.pow_pos_nonneg; lia).
  destruct n as [| N | N].
  - reflexivity.
  - rewrite ofZ_pos by lia.
    destruct (Z.pos N * 2 ^ k)%Z as [| m | m] eqn:E; [lia | | lia].
    cbn [binary_normalize]. apply binary_round_integer; [lia | lia | lia].
  - rewrite ofZ_neg by lia.
    destruct (Z.neg N * 2 ^ k)%Z as [| m | m] eqn:E; [lia | lia |].
    cbn [binary_normalize]. apply binary_round_integer; [lia | lia | lia].
Qed.

Lemma canonical_finite (s : bool) (N : positive) :
  (Z.pos N < 2 ^ 53)%Z ->
  exists (m : positive) (e : Z),
    canonical s N = S754_finite s m e /\
    (2 ^ 52 <= Z.pos m < 2 ^ 53)%Z /\ (-52 <= e <= 0)%Z /\
    (Z.pos m = Z.pos N * 2 ^ (- e))%Z.
Proof.
  intros HN. unfold canonical.
  pose proof (digits_le N 53 ltac:(lia) HN) as DN.
  pose proof (digits2_bounds N) as [Dlo Dhi].
  set (d := Z.pos (digits2_pos N)) in *.
  assert (0 < d)%Z as Hd by (unfold d; lia).
  assert (0 < 2 ^ (53 - d))%Z as Hpow by (apply Z.pow_pos_nonneg; lia).
  exists (Z.to_pos (Z.pos N * 2 ^ (53 - d))), (d - 53)%Z.
  rewrite Z2Pos.id by lia.
  replace (- (d - 53))%Z with (53 - d)%Z by lia.
  split; [reflexivity |]. split; [| split; [lia | reflexivity]].
  assert (2 ^ 52 = 2 ^ (d - 1) * 2 ^ (53 - d))%Z as ->
    by (rewrite <- Z.pow_add_r by lia; f_equal; lia).
  assert (2 ^ 53 = 2 ^ d * 2 ^ (53 - d))%Z as ->
    by (rewrite <- Z.pow_add_r by lia; f_equal; lia).
  split; nia.
Qed.

Lemma ofZ_finite (n : Z) :
  n <> 0%Z -> safe n ->
  exists (m : positive) (e : Z),
    ofZ n = S754_finite (n <? 0)%Z m e /\
    (2 ^ 52 <= Z.pos m < 2 ^ 53)%Z /\ (-52 <= e <= 0)%Z /\
    (cond_Zopp (n <? 0)%Z (Z.pos m) = n * 2 ^ (- e))%Z.
Proof.
  intros Hn [Hlo Hhi]. destruct n as [| N | N]; [congruence | |].
  - rewrite ofZ_pos by lia.
    destruct (canonical_finite false N ltac:(lia)) as (m & e & E & Hm & He & Hv).
    exists m, e. cbn [Z.ltb Z.compare cond_Zopp]. auto.
  - rewrite ofZ_neg by lia.
    destruct (canonical_finite true N ltac:(lia)) as (m & e & E & Hm & He & Hv).
    exists m, e. cbn [Z.ltb Z.compare cond_Zopp]. repeat split; try assumption; lia.
Qed.

Lemma shl_align_fst (m : positive) (e ez : Z) :
  (ez <= e)%Z -> (Z.pos (fst (shl_align m e ez)) = Z.pos m * 2 ^ (e - ez))%Z.
Proof.
  intros Hle. unfold shl_align. destruct (ez - e)%Z as [| j | j] eqn:Ej; cbn [fst].
  - replace (e - ez)%Z with 0%Z by lia. change (2 ^ 0)%Z with 1%Z. lia.
  - lia.
  - rewrite Pos_iter_xO. do 2 f_equal. lia.
Qed.

Lemma cond_Zopp_mul (s : bool) (x c : Z) : (cond_Zopp s (x * c) = cond_Zopp s x * c)%Z.
Proof. destruct s; cbn [cond_Zopp]; lia. Qed.

(** Doubles add safe integers exactly, as long as the sum is safe too. *)
Lemma ofZ_add (a b : Z) :
  safe a -> safe b -> safe (a + b) ->
  SFadd prec emax (ofZ a) (ofZ b) = ofZ (a + b).
Proof.
  intros Sa Sb Sab.
  destruct (Z.eq_dec a 0%Z) as [-> | Ha].
  { rewrite ofZ_0, Z.add_0_l. destruct (Z.eq_dec b 0%Z) as [-> | Hb]; [reflexivity |].
    destruct (ofZ_finite b Hb Sb) as (m & e & -> & _). reflexivity. }
  destruct (ofZ_finite a Ha Sa) as (ma & ea & Ea & Hma & Hea & Va).
  destruct (Z.eq_dec b 0%Z) as [-> | Hb].
  { rewrite Z.add_0_r, ofZ_0, Ea. reflexivity. }
  destruct (ofZ_finite b Hb Sb) as (mb & eb & Eb & Hmb & Heb & Vb).
  rewrite Ea, Eb. cbn [SFadd].
  set (ez := Z.min ea eb).
  rewrite !shl_align_fst by (unfold ez; lia).
  rewrite !cond_Zopp_mul, Va, Vb.
  rewrite <- !Z.mul_assoc, <- !Z.pow_add_r by (unfold ez; lia).
  replace (- ea + (ea - ez))%Z with (- ez)%Z by lia.
  replace (- eb + (eb - ez))%Z with (- ez)%Z by lia.
  rewrite <- Z.mul_add_distr_r.
  rewrite <- (Z.opp_involutive ez) at 2.
  apply binary_normalize_scaled; [unfold ez; lia | assumption].
Qed.

Lemma digits_normal (m : positive) :
  (2 ^ 52 <= Z.pos m < 2 ^ 53)%Z -> Z.pos (digits2_pos m) = 53%Z.
Proof. intros Hm. apply digits2_unique. change (53 - 1)%Z with 52%Z. assumption. Qed.

Lemma new_location_position (q r my : Z) :
  (0 <= r < my)%Z ->
  position (inject_Z q + inject_Z r / inject_Z my)
           (shr_record_of_loc q (new_location my r)).
Proof.
  intros [Hr0 Hr].
  assert (0 < inject_Z my) as HM by (change 0 with (inject_Z 0); rewrite <- Zlt_Qlt; lia).
  assert (inject_Z r / inject_Z my * inject_Z my == inject_Z r) as Hrho
    by (field; lra).
  assert (0 <= inject_Z r) as HR0
    by (change 0 with (inject_Z 0); rewrite <- Zle_Qle; lia).
  assert (inject_Z r < inject_Z my) as HR by (rewrite <- Zlt_Qlt; lia).
  set (rho := inject_Z r / inject_Z my) in *.
  assert (forall c : Q, c * inject_Z my < inject_Z r -> c < rho) as Above.
  { intros c Hc. rewrite <- Hrho in Hc.
    apply Qmult_lt_r in Hc; assumption. }
  assert (forall c : Q, inject_Z r < c * inject_Z my -> rho < c) as Below.
  { intros c Hc. rewrite <- Hrho in Hc.
    apply Qmult_lt_r in Hc; assumption. }
  assert (forall c : Q, inject_Z r == c * inject_Z my -> rho == c) as Equal.
  { intros c Hc. rewrite <- Hrho in Hc.
    apply Qmult_inj_r in Hc; [assumption | lra]. }
  assert (rho < 1) as H1 by (apply Below; lra).
  assert (forall k : Z, inject_Z (2 * k) == 2 * inject_Z k) as Two
    by (intros k; rewrite inject_Z_mult; reflexivity).
  unfold new_location, new_location_even, new_location_odd.
  destruct (Z.even my) eqn:Ev; destruct (Z.eqb_spec r 0) as [-> | Hnz].
  - unfold position. cbn. assert (rho == 0) as -> by (apply Equal; change (inject_Z 0) with 0; lra). lra.
  - assert (0 < rho) as Hpos.
    { apply Above. assert (0 < inject_Z r)
        by (change 0 with (inject_Z 0); rewrite <- Zlt_Qlt; lia). lra. }
    destruct (Z.compare_spec (2 * r) my) as [He | Hl | Hg]; unfold position; cbn.
    + assert (rho == 1 # 2) as ->; [| lra].
      apply Equal. rewrite <- He, Two. lra.
    + assert (rho < 1 # 2); [| lra].
      apply Below. rewrite Zlt_Qlt, Two in Hl. lra.
    + assert ((1 # 2) < rho); [| lra].
      apply Above. rewrite Zlt_Qlt, Two in Hg. lra.
  - unfold position. cbn. assert (rho == 0) as -> by (apply Equal; change (inject_Z 0) with 0; lra). lra.
  - assert (0 < rho) as Hpos.
    { apply Above. assert (0 < inject_Z r)
        by (change 0 with (inject_Z 0); rewrite <- Zlt_Qlt; lia). lra. }
    assert (Z.odd my = true) as Hodd by (rewrite <- Z.negb_even, Ev; reflexivity).
    apply Z.odd_spec in Hodd as [k Hk].
    destruct (Z.compare_spec (2 * r + 1) my) as [He | Hl | Hg]; unfold position; cbn.
    + assert (rho < 1 # 2); [| lra].
      apply Below. assert (2 * r < my)%Z as Hl by lia.
      rewrite Zlt_Qlt, Two in Hl. lra.
    + assert (rho < 1 # 2); [| lra].
      apply Below. assert (2 * r < my)%Z as Hl' by lia.
      rewrite Zlt_Qlt, Two in Hl'. lra.
    + assert ((1 # 2) < rho); [| lra].
      apply Above. assert (my < 2 * r)%Z as Hg' by lia.
      rewrite Zlt_Qlt, Two in Hg'. lra.
Qed.

Lemma SFdiv_core_normal (mx my : positive) (ex ey : Z) :
  (2 ^ 52 <= Z.pos mx < 2 ^ 53)%Z -> (2 ^ 52 <= Z.pos my < 2 ^ 53)%Z ->
  (-900 <= ex - ey <= 900)%Z ->
  SFdiv_core_binary prec emax (Z.pos mx) ex (Z.pos my) ey =
    ((Z.pos mx * 2 ^ 53 / Z.pos my)%Z, (ex - ey - 53)%Z,
     new_location (Z.pos my) (Z.pos mx * 2 ^ 53 mod Z.pos my)%Z).
Proof.
  intros Hx Hy He. unfold SFdiv_core_binary. cbn [Zdigits2].
  rewrite !digits_normal by assumption.
  rewrite fexp_normal by lia.
  replace (Z.min (53 + ex - (53 + ey) - 53) (ex - ey))%Z with (ex - ey - 53)%Z by lia.
  replace (ex - ey - (ex - ey - 53))%Z with 53%Z by lia.
  cbv beta iota. rewrite Z.shiftl_mul_pow2 by lia.
  unfold Z.div, Z.modulo.
  destruct (Z.div_eucl (Z.pos mx * 2 ^ 53) (Z.pos my)) as [q r]. reflexivity.
Qed.

Lemma SFdiv_value (sx sy : bool) (mx my : positive) (ex ey : Z) :
  (2 ^ 52 <= Z.pos mx < 2 ^ 53)%Z -> (2 ^ 52 <= Z.pos my < 2 ^ 53)%Z ->
  (-900 <= ex - ey <= 900)%Z ->
  exists m2 e2 : Z,
    (2 ^ 52 <= m2 <= 2 ^ 53)%Z /\ (ex - ey - 53 <= e2 <= ex - ey - 52)%Z /\
    SFdiv prec emax (S754_finite sx mx ex) (S754_finite sy my ey) =
      normalised (xorb sx sy) m2 e2 /\
    let X := (inject_Z (Z.pos mx) * 2 ^ ex) / (inject_Z (Z.pos my) * 2 ^ ey) in
    X * (1 - eps) <= inject_Z m2 * 2 ^ e2 <= X * (1 + eps).
Proof.
  intros Hx Hy He. cbn [SFdiv]. rewrite SFdiv_core_normal by assumption.
  set (q := (Z.pos mx * 2 ^ 53 / Z.pos my)%Z).
  set (r := (Z.pos mx * 2 ^ 53 mod Z.pos my)%Z).
  pose proof (Z.div_mod (Z.pos mx * 2 ^ 53) (Z.pos my) ltac:(lia)) as Hqr.
  fold q r in Hqr.
  pose proof (Z.mod_pos_bound (Z.pos mx * 2 ^ 53) (Z.pos my) ltac:(lia)) as Hr.
  fold r in Hr.
  assert (2 ^ 52 <= q)%Z as Hq1 by (apply Z.div_le_lower_bound; lia).
  assert (q < 2 ^ 54)%Z as Hq2 by (apply Z.div_lt_upper_bound; lia).
  destruct q as [| pq | pq] eqn:Eq; [lia | | lia].
  pose proof (digits_gt pq 52 Hq1) as D1.
  pose proof (digits_le pq 54 ltac:(lia) Hq2) as D2.
  pose proof (new_location_position (Z.pos pq) r (Z.pos my) Hr) as Hpos.
  destruct (binary_round_aux_value (xorb sx sy) pq (ex - ey - 53)
              (new_location (Z.pos my) r) _ ltac:(lia) ltac:(lia) ltac:(lia) Hpos)
    as (m2 & Hm2 & E & Hv).
  set (d := Z.pos (digits2_pos pq)) in *.
  exists m2, (ex - ey - 53 + (d - 53))%Z.
  split; [exact Hm2 |]. split; [lia |]. split; [exact E |].
  cbn zeta.
  assert ((inject_Z (Z.pos pq) + inject_Z r / inject_Z (Z.pos my)) * 2 ^ (ex - ey - 53)
          == inject_Z (Z.pos mx) * 2 ^ ex / (inject_Z (Z.pos my) * 2 ^ ey)) as HX.
  { assert (inject_Z (Z.pos mx) * inject_Z (2 ^ 53)
            == inject_Z (Z.pos my) * inject_Z (Z.pos pq) + inject_Z r) as HQ
      by (rewrite <- !inject_Z_mult, <- inject_Z_plus, Hqr; reflexivity).
    replace (ex - ey - 53)%Z with (ex + (- ey + -53))%Z by lia.
    rewrite !pow2_add.
    assert (2 ^ (- ey) == / 2 ^ ey) as -> by (rewrite Qpower_opp; reflexivity).
    change (2 ^ (-53)) with (/ inject_Z (2 ^ 53)).
    assert (0 < 2 ^ ey) as HB by apply pow2_pos.
    assert (0 < inject_Z (Z.pos my)) as HM by reflexivity.
    assert (inject_Z (Z.pos pq) + inject_Z r / inject_Z (Z.pos my)
            == inject_Z (Z.pos mx) * inject_Z (2 ^ 53) / inject_Z (Z.pos my)) as ->.
    { rewrite HQ. field. lra. }
    field. split; [lra |]. split; [lra | discriminate]. }
  rewrite <- HX. exact Hv.
Qed.

Lemma SFmul_value (sx sy : bool) (mx my : positive) (ex ey : Z) :
  (2 ^ 52 <= Z.pos mx < 2 ^ 53)%Z -> (2 ^ 52 <= Z.pos my < 2 ^ 53)%Z ->
  (-900 <= ex + ey <= 900)%Z ->
  exists m2 e2 : Z,
    (2 ^ 52 <= m2 <= 2 ^ 53)%Z /\ (ex + ey + 52 <= e2 <= ex + ey + 53)%Z /\
    SFmul prec emax (S754_finite sx mx ex) (S754_finite sy my ey) =
      normalised (xorb sx sy) m2 e2 /\
    let X := (inject_Z (Z.pos mx) * 2 ^ ex) * (inject_Z (Z.pos my) * 2 ^ ey) in
    X * (1 - eps) <= inject_Z m2 * 2 ^ e2 <= X * (1 + eps).
Proof.
  intros Hx Hy He. cbn [SFmul].
  assert (2 ^ 104 <= Z.pos (mx * my))%Z as P1 by (rewrite Pos2Z.inj_mul; nia).
  assert (Z.pos (mx * my) < 2 ^ 106)%Z as P2 by (rewrite Pos2Z.inj_mul; nia).
  pose proof (digits_gt (mx * my) 104 P1) as D1.
  pose proof (digits_le (mx * my) 106 ltac:(lia) P2) as D2.
  assert (position (inject_Z (Z.pos (mx * my)))
            (shr_record_of_loc (Z.pos (mx * my)) loc_Exact)) as Hpos
    by (unfold position; cbn; reflexivity).
  destruct (binary_round_aux_value (xorb sx sy) (mx * my) (ex + ey) loc_Exact _
              ltac:(lia) ltac:(lia) ltac:(lia) Hpos) as (m2 & Hm2 & E & Hv).
  set (d := Z.pos (digits2_pos (mx * my))) in *.
  exists m2, (ex + ey + (d - 53))%Z.
  split; [exact Hm2 |]. split; [lia |]. split; [exact E |].
  cbn zeta.
  assert (inject_Z (Z.pos (mx * my)) * 2 ^ (ex + ey)
          == inject_Z (Z.pos mx) * 2 ^ ex * (inject_Z (Z.pos my) * 2 ^ ey)) as HX
    by (rewrite Pos2Z.inj_mul, inject_Z_mult, pow2_add; ring).
  rewrite <- HX. exact Hv.
Qed.

Lemma ofZ_magnitude (n : Z) (s : bool) (m : positive) (e : Z) :
  (e <= 0)%Z -> (cond_Zopp s (Z.pos m) = n * 2 ^ (- e))%Z ->
  inject_Z (Z.pos m) * 2 ^ e == inject_Z (Z.abs n).
Proof.
  intros He Hv.
  assert (0 < 2 ^ (- e))%Z as Hpow by (apply Z.pow_pos_nonneg; lia).
  assert (Z.pos m = Z.abs n * 2 ^ (- e))%Z as ->.
  { destruct s; cbn [cond_Zopp] in Hv; nia. }
  rewrite inject_Z_mult, pow2_inject by lia.
  rewrite <- Qmult_assoc, <- pow2_add.
  replace (- e + e)%Z with 0%Z by lia. change (2 ^ 0) with 1. ring.
Qed.

Lemma ofZ_100 : ofZ 100 = S754_finite false 7036874417766400 (-46).
Proof. reflexivity. Qed.

(** [value / total * 100] on doubles, for a non-zero safe [value] and a
    positive safe [total]: a finite double with the sign of [value], whose
    magnitude is the exact percentage up to two roundings. *)
Lemma scaled_percentage (v t : Z) :
  v <> 0%Z -> safe v -> (0 < t)%Z -> safe t ->
  exists (m : positive) (e : Z),
    SFmul prec emax (SFdiv prec emax (ofZ v) (ofZ t)) (ofZ 100)
      = S754_finite (v <? 0)%Z m e /\
    let X := inject_Z (Z.abs v) / inject_Z t * 100 in
    X * (1 - eps) * (1 - eps) <= inject_Z (Z.pos m) * 2 ^ e
      <= X * (1 + eps) * (1 + eps).
Proof.
  intros Hv Sv Ht St.
  destruct (ofZ_finite v Hv Sv) as (mv & ev & Ev & Hmv & Hev & Vv).
  destruct (ofZ_finite t ltac:(lia) St) as (mt & et & Et & Hmt & Het & Vt).
  assert ((t <? 0)%Z = false) as Hpos by lia. rewrite Hpos in Et, Vt.
  rewrite Ev, Et.
  destruct (SFdiv_value (v <? 0)%Z false mv mt ev et Hmv Hmt ltac:(lia))
    as (m2 & e2 & Hm2 & He2 & Eq & Hq).
  rewrite Eq, xorb_false_r.
  destruct (normalised_finite (v <? 0)%Z m2 e2 Hm2) as (mm & ee & En & Hmm & Hee & Hval).
  rewrite En, ofZ_100.
  destruct (SFmul_value (v <? 0)%Z false mm 7036874417766400 ee (-46) Hmm
              ltac:(lia) ltac:(lia))
    as (m3 & e3 & Hm3 & He3 & Em & Hx).
  rewrite Em, xorb_false_r.
  destruct (normalised_finite (v <? 0)%Z m3 e3 Hm3) as (m & e & En' & Hm & He & Hval').
  exists m, e. split; [exact En' |].
  cbn zeta in *.
  rewrite (ofZ_magnitude v _ mv ev ltac:(lia) Vv) in Hq.
  rewrite (ofZ_magnitude t _ mt et ltac:(lia) Vt) in Hq.
  rewrite (Z.abs_eq t) in Hq by lia.
  assert (inject_Z 7036874417766400 * 2 ^ (-46) == 100) as H100 by reflexivity.
  rewrite H100, Hval in Hx. rewrite Hval'.
  set (Xq := inject_Z (Z.abs v) / inject_Z t) in *.
  set (Vq := inject_Z m2 * 2 ^ e2) in *.
  set (Vx := inject_Z m3 * 2 ^ e3) in *.
  clearbody Xq Vq Vx. unfold eps in *. split; lra.
Qed.

End Rounding.

(** ** The tooltip percentages *)

Section TooltipPercentages.
Import Charts Tooltip Binary64.
#[local] Open Scope Q_scope.

Lemma inject_Z_pos (t : Z) : (0 < t)%Z -> 0 < inject_Z t.
Proof. intros Ht. change 0 with (inject_Z 0). now rewrite <- Zlt_Qlt. Qed.

Lemma inject_Z_nonneg (a : Z) : (0 <= a)%Z -> 0 <= inject_Z a.
Proof. intros Ha. change 0 with (inject_Z 0). now rewrite <- Zle_Qle. Qed.

(** [reduce] adds safe counts exactly. *)
Lemma fold_total (data : list Z) (acc : Z) :
  Forall safe data -> (forall k : nat, safe (acc + sumZ (take k data))) ->
  fold_left (fun a b => SFadd prec emax a (ofZ b)) data (ofZ acc) = ofZ (acc + sumZ data).
Proof.
  revert acc. induction data as [| b r IH]; intros acc Hel Hrun.
  - cbn. now rewrite Z.add_0_r.
  - cbn [fold_left]. apply Forall_cons in Hel as [Hb Hr].
    pose proof (Hrun 0%nat) as H0. cbn in H0. rewrite Z.add_0_r in H0.
    pose proof (Hrun 1%nat) as H1. cbn in H1. rewrite Z.add_0_r in H1.
    rewrite ofZ_add by assumption.
    rewrite IH.
    + cbn [sumZ foldr]. f_equal. unfold sumZ. lia.
    + exact Hr.
    + intros k. specialize (Hrun (S k)). cbn [take sumZ foldr] in Hrun.
      unfold sumZ. rewrite <- Z.add_assoc. exact Hrun.
Qed.

Lemma total_exact (data : list Z) : safeCounts data -> total data = ofZ (sumZ data).
Proof.
  intros [Hel Hrun]. unfold total. rewrite fold_total; [reflexivity | exact Hel |].
  intros k. rewrite Z.add_0_l. apply Hrun.
Qed.

Lemma safeCounts_total (data : list Z) : safeCounts data -> safe (sumZ data).
Proof.
  intros [_ Hrun]. specialize (Hrun (length data)). now rewrite firstn_all in Hrun.
Qed.

(** [total > 0] on the double of a safe integer. *)
Lemma positive_double (t : Z) : safe t -> SFltb (ofZ 0) (ofZ t) = (0 <? t)%Z.
Proof.
  intros St. destruct (Z.eq_dec t 0%Z) as [-> | Ht]; [reflexivity |].
  destruct (ofZ_finite t Ht St) as (m & e & -> & _).
  rewrite ofZ_0. cbn [SFltb SFcompare].
  destruct (Z.ltb_spec t 0), (Z.ltb_spec 0 t); try reflexivity; lia.
Qed.

Lemma tooltipPercentage_not_positive (ctx : context) :
  safeCounts (dataset ctx) -> (sumZ (dataset ctx) <= 0)%Z ->
  tooltipPercentage ctx = Some (PctNumber 0).
Proof.
  intros Hsafe Hle. unfold tooltipPercentage. cbn zeta.
  rewrite total_exact, positive_double by auto using safeCounts_total.
  destruct (Z.ltb_spec 0 (sumZ (dataset ctx))) as [Hlt | _]; [lia | reflexivity].
Qed.

Lemma tooltipPercentage_positive (ctx : context) :
  safeCounts (dataset ctx) -> (0 < sumZ (dataset ctx))%Z ->
  tooltipPercentage ctx =
    match toFixed1 (SFmul prec emax
                      (SFdiv prec emax (ofZ (parsed ctx)) (ofZ (sumZ (dataset ctx))))
                      (ofZ 100)) with
    | Some f => Some (PctFixed f)
    | None => None
    end.
Proof.
  intros Hsafe Hpos. unfold tooltipPercentage. cbn zeta.
  rewrite total_exact, positive_double by auto using safeCounts_total.
  destruct (Z.ltb_spec 0 (sumZ (dataset ctx))) as [_ | Hle]; [reflexivity | lia].
Qed.

Lemma toFixed1_finite (s : bool) (m : positive) (e : Z) :
  magnitude m e < inject_Z (10 ^ 21) ->
  toFixed1 (S754_finite s m e) = Some (mkFixed1 s (Qfloor (10 * magnitude m e + (1 # 2)))).
Proof.
  intros Hlt. cbn [toFixed1].
  destruct (Qle_bool (inject_Z (10 ^ 21)) (magnitude m e)) eqn:Hle; [| reflexivity].
  apply Qle_bool_iff in Hle. lra.
Qed.

(** [((value / total) * 100).toFixed(1)] on a safe value and a positive safe
    total: a numeral with the sign of the value, whose tenths are the nearest
    integer to ten times a double within two roundings of the exact
    percentage. *)
Lemma percentage_fixed (v t : Z) :
  safe v -> (0 < t)%Z -> safe t ->
  exists n : Z,
    toFixed1 (SFmul prec emax (SFdiv prec emax (ofZ v) (ofZ t)) (ofZ 100))
      = Some (mkFixed1 (v <? 0)%Z n) /\
    let X := inject_Z (Z.abs v) / inject_Z t * 100 in
    10 * (X * (1 - eps) * (1 - eps)) - (1 # 2) < inject_Z n /\
    inject_Z n <= 10 * (X * (1 + eps) * (1 + eps)) + (1 # 2).
Proof.
  intros Sv Ht St.
  pose proof (inject_Z_pos t Ht) as HT.
  destruct (Z.eq_dec v 0%Z) as [-> | Hv].
  - destruct (ofZ_finite t ltac:(lia) St) as (m & e & -> & _).
    exists 0%Z. split; [reflexivity |]. cbn zeta.
    change (inject_Z (Z.abs 0)) with 0.
    assert (0 / inject_Z t * 100 == 0) as -> by (field; lra).
    change (inject_Z 0) with 0. unfold eps. lra.
  - destruct (scaled_percentage v t Hv Sv Ht St) as (m & e & -> & Hlo & Hhi).
    fold (magnitude m e) in Hlo, Hhi.
    assert (inject_Z (Z.abs v) / inject_Z t <= 9007199254740992) as Hq.
    { apply Qle_shift_div_r; [exact HT |].
      assert (inject_Z (Z.abs v) <= inject_Z (2 ^ 53)) as Hv'
        by (rewrite <- Zle_Qle; destruct Sv; lia).
      assert (inject_Z 1 <= inject_Z t) as Ht' by (rewrite <- Zle_Qle; lia).
      change (inject_Z (2 ^ 53)) with 9007199254740992 in Hv'.
      change (inject_Z 1) with 1 in Ht'. lra. }
    assert (0 <= inject_Z (Z.abs v) / inject_Z t) as Hq0.
    { apply Qle_shift_div_l; [exact HT |].
      pose proof (inject_Z_nonneg (Z.abs v) ltac:(lia)). lra. }
    set (Xq := inject_Z (Z.abs v) / inject_Z t) in *.
    rewrite toFixed1_finite.
    + eexists. split; [reflexivity |]. cbn zeta.
      pose proof (Qfloor_le (10 * magnitude m e + (1 # 2))) as Fl.
      pose proof (Qlt_floor (10 * magnitude m e + (1 # 2))) as Fh.
      rewrite inject_Z_plus in Fh. change (inject_Z 1) with 1 in Fh.
      set (N := inject_Z (Qfloor (10 * magnitude m e + (1 # 2)))) in *.
      set (V := magnitude m e) in *. clearbody N V Xq. split; lra.
    + change (inject_Z (10 ^ 21)) with 1000000000000000000000.
      set (V := magnitude m e) in *. clearbody V Xq. unfold eps in *. lra.
Qed.

(** Below 10^12 the two roundings cannot carry the double across a half-way
    point between two tenths: the tenths shown are nearest to the exact
    percentage. *)
Lemma nearest_tenth (a t n : Z) :
  (0 <= a <= 10 ^ 12)%Z -> (0 < t)%Z ->
  let X := inject_Z a / inject_Z t * 100 in
  10 * (X * (1 - eps) * (1 - eps)) - (1 # 2) < inject_Z n ->
  inject_Z n <= 10 * (X * (1 + eps) * (1 + eps)) + (1 # 2) ->
  X - (1 # 20) <= inject_Z n / 10 <= X + (1 # 20).
Proof.
  intros Ha Ht X Hlo Hhi.
  pose proof (inject_Z_pos t Ht) as HT.
  pose proof (inject_Z_nonneg a ltac:(lia)) as HA0.
  assert (inject_Z a <= inject_Z (10 ^ 12)) as HA1 by (rewrite <- Zle_Qle; lia).
  change (inject_Z (10 ^ 12)) with 1000000000000 in HA1.
  assert (inject_Z a / inject_Z t * inject_Z t == inject_Z a) as HXq by (field; lra).
  unfold X in *. clear X.
  set (Xq := inject_Z a / inject_Z t) in *. clearbody Xq.
  unfold eps in *.
  assert (inject_Z (2 * n * t) < inject_Z (2000 * a + t + 1)) as U.
  { rewrite !inject_Z_plus, !inject_Z_mult.
    change (inject_Z 2) with 2. change (inject_Z 2000) with 2000.
    change (inject_Z 1) with 1.
    apply Qle_lt_trans
      with (2 * ((10 * (Xq * 100 * (1 + (1 # 9007199254740992))
                           * (1 + (1 # 9007199254740992))) + (1 # 2)) * inject_Z t)).
    - assert (inject_Z n * inject_Z t
              <= (10 * (Xq * 100 * (1 + (1 # 9007199254740992))
                           * (1 + (1 # 9007199254740992))) + (1 # 2)) * inject_Z t)
        by (apply Qmult_le_compat_r; lra).
      lra.
    - lra. }
  assert (inject_Z (2000 * a - t - 1) < inject_Z (2 * n * t)) as L.
  { unfold Z.sub. rewrite !inject_Z_plus, !inject_Z_mult, !inject_Z_opp.
    change (inject_Z 2) with 2. change (inject_Z 2000) with 2000.
    change (inject_Z 1) with 1.
    apply Qlt_le_trans
      with (2 * ((10 * (Xq * 100 * (1 - (1 # 9007199254740992))
                           * (1 - (1 # 9007199254740992))) - (1 # 2)) * inject_Z t)).
    - lra.
    - assert ((10 * (Xq * 100 * (1 - (1 # 9007199254740992))
                           * (1 - (1 # 9007199254740992))) - (1 # 2)) * inject_Z t
              <= inject_Z n * inject_Z t)
        by (apply Qmult_le_compat_r; lra).
      lra. }
  rewrite <- Zlt_Qlt in U, L.
  assert (2 * n * t <= 2000 * a + t)%Z as U' by lia.
  assert (2000 * a - t <= 2 * n * t)%Z as L' by lia.
  rewrite Zle_Qle in U', L'. unfold Z.sub in L'.
  rewrite !inject_Z_plus, !inject_Z_mult in U', L'. rewrite inject_Z_opp in L'.
  change (inject_Z 2) with 2 in U', L'. change (inject_Z 2000) with 2000 in U', L'.
  unfold Qdiv. change (/ 10) with (1 # 10).
  split.
  - apply (Qmult_le_r _ _ (inject_Z t)); [exact HT |]. lra.
  - apply (Qmult_le_r _ _ (inject_Z t)); [exact HT |]. lra.
Qed.


(** The percentage shown for a count of at most 10^12 out of a positive safe
    total is a one-decimal numeral within 0.05 of the exact percentage. *)
Lemma percentage_nearest (v t : Z) :
  (Z.abs v <= 10 ^ 12)%Z -> (0 < t)%Z -> safe t ->
  exists f,
    toFixed1 (SFmul prec emax (SFdiv prec emax (ofZ v) (ofZ t)) (ofZ 100)) = Some f /\
    oneDecimalOf v t (PctFixed f).
Proof.
  intros Hv Ht St.
  assert (safe v) as Sv by (unfold safe; lia).
  destruct (percentage_fixed v t Sv Ht St) as (n & E & Hlo & Hhi).
  pose proof (nearest_tenth (Z.abs v) t n ltac:(lia) Ht Hlo Hhi) as [Nl Nh].
  exists (mkFixed1 (v <? 0)%Z n). split; [exact E |].
  split; [eexists; reflexivity |].
  pose proof (inject_Z_pos t Ht) as HT.
  unfold percentage_value, percentage_tenths. cbn [negative tenths].
  unfold Qdiv in *. change (/ 10) with (1 # 10) in *.
  destruct (Z.ltb_spec v 0) as [Hneg | Hnn].
  - rewrite Z.abs_neq, inject_Z_opp in Nl, Nh by lia. rewrite inject_Z_opp.
    set (qv := inject_Z v * / inject_Z t) in *.
    assert (- inject_Z v * / inject_Z t == - qv) as Eq by (unfold qv; ring).
    rewrite Eq in Nl, Nh. clearbody qv. split; lra.
  - rewrite Z.abs_eq in Nl, Nh by lia. split; lra.
Qed.


Lemma safeCounts_nonneg (data : list Z) :
  Forall (fun n => (0 <= n)%Z) data -> (sumZ data < 2 ^ 53)%Z -> safeCounts data.
Proof.
  intros Hnn Hsum.
  assert (forall l : list Z, Forall (fun n => (0 <= n)%Z) l -> (0 <= sumZ l)%Z) as Hpos.
  { induction 1 as [| x l Hx _ IH]; cbn [sumZ foldr]; [lia |]. unfold sumZ in IH. lia. }
  assert (forall (l : list Z) (k : nat), Forall (fun n => (0 <= n)%Z) l ->
            (0 <= sumZ (take k l) <= sumZ l)%Z) as Hrun.
  { induction l as [| x l IH]; intros k Hl.
    - rewrite take_nil. cbn. lia.
    - apply Forall_cons in Hl as [Hx Hl]. destruct k as [| k].
      + cbn [take]. pose proof (Hpos (x :: l) ltac:(now constructor)). cbn in *. lia.
      + specialize (IH k Hl). cbn [take sumZ foldr]. unfold sumZ in IH. lia. }
  split.
  - clear Hrun. induction Hnn as [| x l Hx Hl IH]; constructor.
    + pose proof (Hpos l Hl). cbn [sumZ foldr] in Hsum. unfold sumZ, safe in *. lia.
    + apply IH. pose proof (Hpos l Hl). cbn [sumZ foldr] in Hsum. unfold sumZ in *. lia.
  - intros k. specialize (Hrun data k Hnn). unfold safe. lia.
Qed.


(** Percentages that lie half-way between two tenths: 23 of 80 is 28.75
    exactly and 57 of 80 is 71.25.  The double 23 / 80 * 100 is just below
    28.75 and the tooltip shows 28.7; the double 57 / 80 * 100 is 71.25 and
    the tooltip shows 71.3. *)
Lemma tie_shows_lower_tenth :
  map tooltipPercentage
      [mkContext "Low Risk" 23 [23; 57; 0]%Z;
       mkContext "Moderate Risk" 57 [23; 57; 0]%Z;
       mkContext "High Risk" 0 [23; 57; 0]%Z]
    = [Some (PctFixed (mkFixed1 false 287)); Some (PctFixed (mkFixed1 false 713));
       Some (PctFixed (mkFixed1 false 0))] /\
  inject_Z 23 / inject_Z (sumZ [23; 57; 0]%Z) * 100 == 115 # 4.
Proof. split; [vm_compute; reflexivity | reflexivity]. Qed.

Lemma countOf_rendered (o : gmap string jsval) (k : string) (n : Z) :
  countOf o k = Some n ->
  js_or (default JUndefined (o !! k)) (JNum 0) = JNum n.
Proof.
  unfold countOf. destruct (o !! k) as [[] |] eqn:Hk; try discriminate.
  - intros [= ->]. apply js_or_number.
  - intros [= <-]. reflexivity.
Qed.

(** The percentages of the chart rendered from three counts. *)
Lemma riskPercentages_counts (o : gmap string jsval) (p : page) (a b c : Z) :
  is_Some (getElementById p "riskDistributionChart") ->
  countOf o "low_risk" = Some a ->
  countOf o "moderate_risk" = Some b ->
  countOf o "high_risk" = Some c ->
  riskPercentages o p =
    all_some [tooltipPercentage (mkContext "Low Risk" a [a; b; c]);
              tooltipPercentage (mkContext "Moderate Risk" b [a; b; c]);
              tooltipPercentage (mkContext "High Risk" c [a; b; c])].
Proof.
  intros [ctx Hctx] Ha Hb Hc.
  unfold riskPercentages, initializeRiskDistributionChart.
  rewrite Hctx, !getProp_object. cbn [bind eval].
  rewrite (countOf_rendered _ _ _ Ha), (countOf_rendered _ _ _ Hb),
    (countOf_rendered _ _ _ Hc).
  unfold newChart. cbn [charts]. rewrite last_snoc.
  reflexivity.
Qed.

Lemma safeCounts_three (a b c : Z) :
  (Z.abs a <= 10 ^ 12)%Z -> (Z.abs b <= 10 ^ 12)%Z -> (Z.abs c <= 10 ^ 12)%Z ->
  safeCounts [a; b; c].
Proof.
  intros Ha Hb Hc. split.
  - repeat constructor; unfold safe; lia.
  - intros [| [| [| k]]]; unfold sumZ; cbn [take foldr]; rewrite ?take_nil;
      cbn [foldr]; unfold safe; lia.
Qed.

Lemma shares_sum (a b c t : Z) :
  (0 < t)%Z -> (a + b + c = t)%Z ->
  inject_Z a / inject_Z t * 100 + inject_Z b / inject_Z t * 100
    + inject_Z c / inject_Z t * 100 == 100.
Proof.
  intros Ht Hs. subst t.
  rewrite !inject_Z_plus.
  assert (0 < inject_Z a + inject_Z b + inject_Z c) as Hpos.
  { rewrite <- !inject_Z_plus. change 0 with (inject_Z 0). now rewrite <- Zlt_Qlt. }
  field. lra.
Qed.

(** C1, as the code has it: for a riskDistribution object whose three counts
    (missing keys taken as 0; integers of at most 10^12) have a positive
    total, every tooltip percentage is rounded on its own: it is a one-decimal
    numeral within 0.05 of its exact share value / total * 100.  So the three
    sum to 99.9, 100.0 or 100.1, not always to 100.  When the total is 0,
    every percentage is the number 0. *)
Theorem risk_percentages_sum_within_rounding
    (o : gmap string jsval) (p : page) (a b c : Z) :
  is_Some (getElementById p "riskDistributionChart") ->
  countOf o "low_risk" = Some a ->
  countOf o "moderate_risk" = Some b ->
  countOf o "high_risk" = Some c ->
  (Z.abs a <= 10 ^ 12)%Z -> (Z.abs b <= 10 ^ 12)%Z -> (Z.abs c <= 10 ^ 12)%Z ->
  ((0 < a + b + c)%Z ->
   exists pa pb pc,
     riskPercentages o p = Some [pa; pb; pc] /\
     oneDecimalOf a (a + b + c) pa /\
     oneDecimalOf b (a + b + c) pb /\
     oneDecimalOf c (a + b + c) pc /\
     (999 <= sum_tenths [pa; pb; pc] <= 1001)%Z) /\
  ((a + b + c = 0)%Z ->
   riskPercentages o p = Some [PctNumber 0; PctNumber 0; PctNumber 0]).
Proof.
  intros Hctx Ha Hb Hc Ba Bb Bc.
  rewrite (riskPercentages_counts o p a b c Hctx Ha Hb Hc).
  pose proof (safeCounts_three a b c Ba Bb Bc) as Hsafe.
  assert (sumZ [a; b; c] = a + b + c)%Z as Hsum by (cbn; lia).
  split.
  - intros Hpos.
    rewrite !tooltipPercentage_positive by (cbn [dataset]; (assumption || lia)).
    cbn [dataset parsed]. rewrite Hsum.
    set (t := (a + b + c)%Z) in *.
    assert (safe t) as St by (unfold safe, t; lia).
    destruct (percentage_nearest a t Ba Hpos St) as (fa & -> & Hfa).
    destruct (percentage_nearest b t Bb Hpos St) as (fb & -> & Hfb).
    destruct (percentage_nearest c t Bc Hpos St) as (fc & -> & Hfc).
    cbn [all_some].
    exists (PctFixed fa), (PctFixed fb), (PctFixed fc).
    split; [reflexivity |]. do 3 (split; [assumption |]).
    destruct Hfa as [_ [Hal Hah]], Hfb as [_ [Hbl Hbh]], Hfc as [_ [Hcl Hch]].
    pose proof (shares_sum a b c t Hpos eq_refl) as Hshares.
    unfold sum_tenths. cbn [fold_right].
    unfold percentage_value, Qdiv in Hal, Hah, Hbl, Hbh, Hcl, Hch.
    change (/ 10) with (1 # 10) in Hal, Hah, Hbl, Hbh, Hcl, Hch.
    unfold Qdiv in Hshares.
    set (xa := inject_Z a * / inject_Z t * 100) in *.
    set (xb := inject_Z b * / inject_Z t * 100) in *.
    set (xc := inject_Z c * / inject_Z t * 100) in *.
    set (na := percentage_tenths (PctFixed fa)) in *.
    set (nb := percentage_tenths (PctFixed fb)) in *.
    set (nc := percentage_tenths (PctFixed fc)) in *.
    clearbody na nb nc xa xb xc.
    assert (inject_Z 998 < inject_Z (na + (nb + (nc + 0))) < inject_Z 1002) as [Hl Hh].
    { rewrite !inject_Z_plus. change (inject_Z 0) with 0.
      change (inject_Z 998) with 998. change (inject_Z 1002) with 1002.
      split; lra. }
    rewrite <- Zlt_Qlt in Hl, Hh. lia.
  - intros Hz.
    rewrite !tooltipPercentage_not_positive by (cbn [dataset]; (assumption || lia)).
    reflexivity.
Qed.

Lemma risk_percentages_sum_within_rounding_witness :
  exists pa pb pc,
    riskPercentages oneInSixteen canvasPage = Some [pa; pb; pc] /\
    oneDecimalOf 1 16 pa /\ oneDecimalOf 15 16 pb /\ oneDecimalOf 0 16 pc /\
    (999 <= sum_tenths [pa; pb; pc] <= 1001)%Z.
Proof.
  apply (proj1 (risk_percentages_sum_within_rounding oneInSixteen canvasPage 1 15 0
                  (ex_intro _ blank eq_refl) eq_refl eq_refl eq_refl
                  ltac:(cbn; lia) ltac:(cbn; lia) ltac:(cbn; lia))).
  reflexivity.
Defined.

(** C1 as stated fails: three equal counts of 1 have total 3 > 0, each tooltip
    shows 33.3, and the three percentages sum to 99.9. *)
Lemma equal_thirds_sum_to_99_9 :
  countOf equalThirds "low_risk" = Some 1%Z /\
  countOf equalThirds "moderate_risk" = Some 1%Z /\
  countOf equalThirds "high_risk" = Some 1%Z /\
  riskPercentages equalThirds canvasPage =
    Some [PctFixed (mkFixed1 false 333); PctFixed (mkFixed1 false 333);
          PctFixed (mkFixed1 false 333)] /\
  sum_tenths [PctFixed (mkFixed1 false 333); PctFixed (mkFixed1 false 333);
              PctFixed (mkFixed1 false 333)] = 999%Z /\
  ~ (forall (o : gmap string jsval) (p : page) (a b c : Z) pcs,
       countOf o "low_risk" = Some a ->
       countOf o "moderate_risk" = Some b ->
       countOf o "high_risk" = Some c ->
       (0 < a + b + c)%Z ->
       riskPercentages o p = Some pcs ->
       sum_tenths pcs = 1000%Z).
Proof.
  assert (riskPercentages equalThirds canvasPage =
            Some [PctFixed (mkFixed1 false 333); PctFixed (mkFixed1 false 333);
                  PctFixed (mkFixed1 false 333)]) as Hshown
    by (vm_compute; reflexivity).
  repeat split; try reflexivity; try exact Hshown.
  intros Hclaim.
  specialize (Hclaim equalThirds canvasPage 1%Z 1%Z 1%Z _
                eq_refl eq_refl eq_refl eq_refl Hshown).
  discriminate Hclaim.
Qed.

(** One count in sixteen: 6.25 and 93.75 are exact doubles and print 6.3 and
    93.8, which sum with 0.0 to 100.1. *)
Lemma one_in_sixteen_sums_to_100_1 :
  riskPercentages oneInSixteen canvasPage =
    Some [PctFixed (mkFixed1 false 63); PctFixed (mkFixed1 false 938);
          PctFixed (mkFixed1 false 0)].
Proof. vm_compute. reflexivity. Qed.

(** What the tooltips of the two sample charts read. *)
Lemma sample_tooltip_labels :
  tooltipLabel (mkContext "Low Risk" 1 [1; 1; 1]%Z) = Some "Low Risk: 1 patients (33.3%)" /\
  tooltipLabel (mkContext "Moderate Risk" 15 [1; 15; 0]%Z)
    = Some "Moderate Risk: 15 patients (93.8%)" /\
  tooltipLabel (mkContext "High Risk" 0 [0; 0; 0]%Z) = Some "High Risk: 0 patients (0%)".
Proof. repeat split; vm_compute; reflexivity. Qed.

End TooltipPercentages.

(** ** Refresh *)

Section RefreshFacts.
Import Refresh.

(** [refreshDashboardData] catches whatever its body throws. *)
Lemma refresh_never_throws (net : fetchResult) (p : page) :
  exists p', refreshDashboardData net p = Done p'.
Proof.
  unfold refreshDashboardData, try_catch.
  match goal with |- exists _, match ?b with _ => _ end = _ => destruct b end; eauto.
Qed.

(** C3: a failing attempt (network error, non-OK status, body that does not
    parse) ends normally, nothing is thrown to the caller, and every selector
    still finds the elements it found before, with the same text: the KPI
    counters are as they were. *)
Theorem failed_refresh_keeps_counters (net : fetchResult) (p : page) :
  failedAttempt net ->
  exists p', refreshDashboardData net p = Done p' /\
    bySelector p' = bySelector p /\
    forall sel, displayed p' sel = displayed p sel.
Proof.
  intros [-> | [[json ->] | [e ->]]]; cbn; eauto.
Qed.

Lemma failed_refresh_keeps_counters_witness :
  exists p', refreshDashboardData FetchRejected kpiPage = Done p' /\
    bySelector p' = bySelector kpiPage /\
    forall sel, displayed p' sel = displayed kpiPage sel.
Proof.
  apply (failed_refresh_keeps_counters FetchRejected kpiPage).
  left. reflexivity.
Defined.

(** The guard [element && stats[key]] skips a key whose value is falsy, 0
    included: the card is left as it is. *)
Lemma updateKPICard_skips_falsy (stats : jsval) (entry : string * option elemref)
    (v : jsval) (p : page) :
  getProp stats entry.1 = Normal v -> truthy v = false ->
  updateKPICard stats entry p = Done p.
Proof.
  intros Hv Hfalsy. unfold updateKPICard.
  destruct entry.2; [| reflexivity].
  rewrite Hv. cbn. now rewrite Hfalsy.
Qed.

(** A truthy value is written into the card, with the pulse. *)
Lemma updateKPICard_truthy (stats : jsval) (key sel : string) (v : jsval)
    (e : element) (rest : list element) (p : page) :
  bySelector p !! sel = Some (e :: rest) ->
  getProp stats key = Normal v -> truthy v = true ->
  exists p', updateKPICard stats (key, Some (sel, 0%nat)) p = Done p' /\
    bySelector p' =
      <[sel := set_textContent (ToString v) (set_transform "scale(1.1)" e) :: rest]>
        (bySelector p).
Proof.
  intros Hsel Hv Htruthy. unfold updateKPICard. cbn [fst snd].
  rewrite Hv. cbn [eval]. rewrite Htruthy.
  eexists. split; [reflexivity |].
  unfold updateElement. cbn [fst snd]. rewrite Hsel. cbn.
  rewrite lookup_insert_eq. cbn.
  now rewrite insert_insert_eq.
Qed.

Lemma displayed_head (p : page) (sel text : string) (e : element) (rest : list element) :
  bySelector p !! sel = Some (e :: rest) -> textContent e = text ->
  displayed p sel = Some text.
Proof.
  intros Hsel <-. unfold displayed, querySelector, querySelectorAll. now rewrite Hsel.
Qed.

(** What does hold of C2: on a page that shows the four cards, a successful
    refresh whose snapshot has a truthy value (a count other than 0) under
    every key sets every card to its value. *)
Lemma refresh_updates_truthy_counts (p : page) (o : gmap string jsval)
    (patients assessments highRisk thisWeek : jsval) :
  is_Some (querySelector p ".kpi-card:nth-child(1) h3") ->
  is_Some (querySelector p ".kpi-card:nth-child(2) h3") ->
  is_Some (querySelector p ".kpi-card:nth-child(3) h3") ->
  is_Some (querySelector p ".kpi-card:nth-child(4) h3") ->
  o !! "totalPatients" = Some patients -> truthy patients = true ->
  o !! "totalAssessments" = Some assessments -> truthy assessments = true ->
  o !! "highRiskCount" = Some highRisk -> truthy highRisk = true ->
  o !! "assessmentsThisWeek" = Some thisWeek -> truthy thisWeek = true ->
  exists p',
    refreshDashboardData (Response true (Normal (JObj (<["stats" := JObj o]> ∅)))) p
      = Done p' /\
    displayed p' ".kpi-card:nth-child(1) h3" = Some (ToString patients) /\
    displayed p' ".kpi-card:nth-child(2) h3" = Some (ToString assessments) /\
    displayed p' ".kpi-card:nth-child(3) h3" = Some (ToString highRisk) /\
    displayed p' ".kpi-card:nth-child(4) h3" = Some (ToString thisWeek).
Proof.
  intros [e1 H1] [e2 H2] [e3 H3] [e4 H4] Hp Tp Ha Ta Hh Th Hw Tw.
  unfold refreshDashboardData, updateKPICards, kpiElements, kpiSelectors.
  cbn [map fst snd]. rewrite H1, H2, H3, H4.
  unfold querySelector, querySelectorAll in H1, H2, H3, H4.
  destruct (bySelector p !! ".kpi-card:nth-child(1) h3") as [[| h1 r1] |] eqn:S1;
    try discriminate.
  destruct (bySelector p !! ".kpi-card:nth-child(2) h3") as [[| h2 r2] |] eqn:S2;
    try discriminate.
  destruct (bySelector p !! ".kpi-card:nth-child(3) h3") as [[| h3 r3] |] eqn:S3;
    try discriminate.
  destruct (bySelector p !! ".kpi-card:nth-child(4) h3") as [[| h4 r4] |] eqn:S4;
    try discriminate.
  cbn [eval getProp]. rewrite lookup_insert_eq. cbn [default from_option id eval forEach].
  destruct (updateKPICard_truthy (JObj o) "totalPatients" _ patients h1 r1 p S1)
    as (p1 & -> & B1); [cbn; now rewrite Hp | exact Tp |].
  cbn [andThen].
  destruct (updateKPICard_truthy (JObj o) "totalAssessments" ".kpi-card:nth-child(2) h3"
              assessments h2 r2 p1) as (p2 & -> & B2);
    [rewrite B1, lookup_insert_ne by done; exact S2 | cbn; now rewrite Ha | exact Ta |].
  cbn [andThen].
  destruct (updateKPICard_truthy (JObj o) "highRiskCount" ".kpi-card:nth-child(3) h3"
              highRisk h3 r3 p2) as (p3 & -> & B3);
    [rewrite B2, B1, !lookup_insert_ne by done; exact S3 | cbn; now rewrite Hh
    | exact Th |].
  cbn [andThen].
  destruct (updateKPICard_truthy (JObj o) "assessmentsThisWeek" ".kpi-card:nth-child(4) h3"
              thisWeek h4 r4 p3) as (p4 & -> & B4);
    [rewrite B3, B2, B1, !lookup_insert_ne by done; exact S4 | cbn; now rewrite Hw
    | exact Tw |].
  cbn [andThen try_catch].
  eexists. split; [reflexivity |].
  repeat split.
  - eapply displayed_head.
    + cbn [console_log bySelector].
      rewrite B4, B3, B2, B1, !lookup_insert_ne by done. apply lookup_insert_eq.
    + reflexivity.
  - eapply displayed_head.
    + cbn [console_log bySelector].
      rewrite B4, B3, B2, !lookup_insert_ne by done. apply lookup_insert_eq.
    + reflexivity.
  - eapply displayed_head.
    + cbn [console_log bySelector].
      rewrite B4, B3, !lookup_insert_ne by done. apply lookup_insert_eq.
    + reflexivity.
  - eapply displayed_head.
    + cbn [console_log bySelector].
      rewrite B4. apply lookup_insert_eq.
    + reflexivity.
Qed.

(** C2 fails on a count of 0: the snapshot says no patient is at high risk,
    the refresh succeeds and updates the three other cards, and the high-risk
    card goes on showing 3. *)
Theorem refresh_leaves_zero_count_stale :
  exists p',
    refreshDashboardData (Response true (Normal snapshotNoHighRisk)) kpiPage = Done p' /\
    displayed p' ".kpi-card:nth-child(1) h3" = Some "121" /\
    displayed p' ".kpi-card:nth-child(2) h3" = Some "46" /\
    displayed p' ".kpi-card:nth-child(3) h3" = Some "3" /\
    displayed p' ".kpi-card:nth-child(4) h3" = Some "10" /\
    bind (getProp snapshotNoHighRisk "stats") (fun stats => getProp stats "highRiskCount")
      = Normal (JNum 0).
Proof.
  eexists. split; [vm_compute; reflexivity |].
  repeat split; vm_compute; reflexivity.
Qed.

End RefreshFacts.

(** ** KPI card clicks *)

Section KpiFacts.
Import Kpi.

Lemma listeners_updateElement (r : elemref) (f : element -> element) (p : page) :
  listeners (updateElement r f p) = listeners p.
Proof. unfold updateElement. repeat case_match; reflexivity. Qed.

Lemma href_updateElement (r : elemref) (f : element -> element) (p : page) :
  href (updateElement r f p) = href p.
Proof. unfold updateElement. repeat case_match; reflexivity. Qed.

Lemma href_kpiCardClick (this : elemref) (index : nat) (p : page) :
  href (kpiCardClick this index p) = destination index (href p).
Proof.
  unfold kpiCardClick, navigate, destination.
  destruct index as [| [| [| [| n]]]]; cbn [href setHref setTimeout];
    try reflexivity.
  apply href_updateElement.
Qed.

Lemma forEachCard_listeners (cards : list element) (k : nat) (p : page) :
  listeners (forEachCard cards k p) =
    listeners p ++ map cardListener (seq k (length cards)).
Proof.
  revert k p. induction cards as [| card rest IH]; intros k p; cbn [forEachCard].
  - cbn. now rewrite app_nil_r.
  - rewrite IH, listeners_updateElement. cbn [listeners addEventListener length seq map].
    now rewrite <- app_assoc.
Qed.

Lemma forEachCard_href (cards : list element) (k : nat) (p : page) :
  href (forEachCard cards k p) = href p.
Proof.
  revert k p. induction cards as [| card rest IH]; intros k p; cbn [forEachCard].
  - reflexivity.
  - now rewrite IH, href_updateElement.
Qed.

Lemma clickStep_cardListener (i k : nat) (acc : page) :
  clickStep (".kpi-card", i) acc (cardListener k) =
    if Nat.eqb k i then kpiCardClick (".kpi-card", i) i acc else acc.
Proof.
  unfold clickStep, cardListener, elemref_eqb. cbn.
  destruct (Nat.eqb_spec k i) as [-> | _]; reflexivity.
Qed.

Lemma click_cardListeners (i k n : nat) (acc : page) :
  fold_left (clickStep (".kpi-card", i)) (map cardListener (seq k n)) acc =
    if (k <=? i)%nat && (i <? k + n)%nat
    then kpiCardClick (".kpi-card", i) i acc
    else acc.
Proof.
  revert k acc. induction n as [| n IH]; intros k acc; cbn [seq map fold_left].
  - destruct (Nat.leb_spec k i), (Nat.ltb_spec i (k + 0)); cbn; try reflexivity; lia.
  - rewrite clickStep_cardListener, IH.
    destruct (Nat.eqb_spec k i) as [-> | Hne].
    + replace (S i <=? i)%nat with false by (symmetry; apply Nat.leb_gt; lia).
      replace (i <=? i)%nat with true by (symmetry; apply Nat.leb_le; lia).
      replace (i <? i + S n)%nat with true by (symmetry; apply Nat.ltb_lt; lia).
      reflexivity.
    + destruct (Nat.leb_spec (S k) i), (Nat.ltb_spec i (S k + n)),
        (Nat.leb_spec k i), (Nat.ltb_spec i (k + S n)); cbn; try reflexivity; lia.
Qed.

(** A click on the card at [index], once the handlers are wired on a freshly
    loaded page, leads where [switch (index)] says. *)
Lemma click_after_wiring (p : page) (index : nat) :
  listeners p = [] ->
  (index < length (querySelectorAll p ".kpi-card"))%nat ->
  href (click (".kpi-card", index) (addKPICardInteractions p)) =
    destination index (href p).
Proof.
  intros Hfresh Hindex.
  unfold click.
  unfold addKPICardInteractions at 1.
  rewrite forEachCard_listeners, Hfresh. cbn [app].
  rewrite click_cardListeners.
  replace (0 <=? index)%nat with true by (symmetry; apply Nat.leb_le; lia).
  replace (index <? 0 + _)%nat with true by (symmetry; apply Nat.ltb_lt; lia).
  cbn [andb]. rewrite href_kpiCardClick.
  unfold addKPICardInteractions. now rewrite forEachCard_href.
Qed.

(** C8: once [addKPICardInteractions] has wired a freshly loaded page, a click
    on the card at index 0 or 1 sets the location to /patients, at index 2 to
    /patients?filter=high_risk, at index 3 to /patients?filter=recent; a card
    further down navigates nowhere. *)
Theorem kpi_card_click_targets (p : page) :
  listeners p = [] ->
  let cards := length (querySelectorAll p ".kpi-card") in
  let clicked index := href (click (".kpi-card", index) (addKPICardInteractions p)) in
  ((0 < cards)%nat -> clicked 0%nat = "/patients") /\
  ((1 < cards)%nat -> clicked 1%nat = "/patients") /\
  ((2 < cards)%nat -> clicked 2%nat = "/patients?filter=high_risk") /\
  ((3 < cards)%nat -> clicked 3%nat = "/patients?filter=recent") /\
  (forall index, (4 <= index < cards)%nat -> clicked index = href p).
Proof.
  intros Hfresh cards clicked. subst clicked. cbn beta.
  repeat split; intros.
  1-4: now rewrite click_after_wiring.
  rewrite click_after_wiring by (assumption || (fold cards; lia)).
  do 4 (destruct index as [| index]; [lia |]). reflexivity.
Qed.

Lemma kpi_card_click_targets_witness :
  href (click (".kpi-card", 2%nat) (addKPICardInteractions kpiPage)) =
    "/patients?filter=high_risk".
Proof.
  apply (proj1 (proj2 (proj2 (kpi_card_click_targets kpiPage eq_refl)))).
  vm_compute. lia.
Defined.

End KpiFacts.

(** ** Search *)

Section SearchFacts.
Import Search.
Variable toLowerCase : string -> string.
Variable validSelector : string -> bool.

Lemma prefix_occurs (t s : string) :
  String.prefix t s = true <-> exists after, s = t +:+ after.
Proof.
  revert s. induction t as [| c t IH]; intros s.
  - split; [intros _; now exists s | intros _; now destruct s].
  - destruct s as [| d s]; cbn.
    + split; [discriminate | intros [after Habs]; discriminate].
    + destruct (Ascii.ascii_dec c d) as [-> | Hne].
      * rewrite IH. split; intros [after Hafter]; exists after.
        -- now rewrite Hafter.
        -- now injection Hafter.
      * split; [discriminate |].
        intros [after Hafter]. injection Hafter as Hd _. congruence.
Qed.

Lemma includes_occursIn (s t : string) :
  includes s t = true <-> occursIn t s.
Proof.
  unfold occursIn. induction s as [| c s IH]; cbn [includes].
  - rewrite orb_false_r, prefix_occurs. split.
    + intros [after Hafter]. now exists "", after.
    + intros (before & after & Hocc).
      destruct before; [now exists after | discriminate].
  - rewrite orb_true_iff, prefix_occurs, IH. split.
    + intros [[after Hafter] | (before & after & Hocc)].
      * now exists "", after.
      * exists (String c before), after. cbn. now rewrite Hocc.
    + intros (before & after & Hocc). destruct before as [| d before].
      * left. now exists after.
      * right. injection Hocc as _ Hocc. now exists before, after.
Qed.

Lemma page_eta (p : page) :
  mkPage (byId p) (bySelector p) (charts p) (pending p) (listeners p) (console p) (href p) = p.
Proof. now destruct p. Qed.

(** The loop, one item at a time: the items before position [i] are done, the
    others follow. *)
Lemma forEachItem_page (sel query : string) (rest done : list element) (p : page) :
  bySelector p !! sel = Some (done ++ rest) ->
  forEachItem (filterItem toLowerCase sel (toLowerCase query)) rest (length done) p =
    mkPage (byId p) (<[sel := done ++ map (filtered toLowerCase query) rest]> (bySelector p))
           (charts p) (pending p) (listeners p) (console p) (href p).
Proof.
  revert done p. induction rest as [| item rest IH]; intros done p Hsel;
    cbn [forEachItem map].
  - rewrite insert_id by exact Hsel. symmetry. apply page_eta.
  - assert (filterItem toLowerCase sel (toLowerCase query) (length done) item p =
              mkPage (byId p)
                     (<[sel := (done ++ [filtered toLowerCase query item]) ++ rest]>
                        (bySelector p))
                     (charts p) (pending p) (listeners p) (console p) (href p)) as Hstep.
    { unfold filterItem, filtered, updateElement. cbn [fst snd].
      assert ((done ++ item :: rest) !! length done = Some item) as Hitem
        by now rewrite list_lookup_middle.
      destruct (includes _ _); rewrite Hsel, Hitem;
        rewrite insert_app_r_alt, Nat.sub_diag by lia;
        cbn; now rewrite <- app_assoc. }
    rewrite Hstep.
    pose proof (IH (done ++ [filtered toLowerCase query item])
                  (mkPage (byId p)
                     (<[sel := (done ++ [filtered toLowerCase query item]) ++ rest]>
                        (bySelector p))
                     (charts p) (pending p) (listeners p) (console p) (href p))) as IH'.
    cbn [bySelector byId charts pending listeners console href] in IH'.
    rewrite lookup_insert_eq in IH'. specialize (IH' eq_refl).
    rewrite length_app, Nat.add_1_r in IH'. cbn [length] in IH'.
    rewrite IH', insert_insert_eq, <- app_assoc. reflexivity.
Qed.

(** The whole effect of one run of the filter. *)
Lemma searchFilter_searched (e : inputEvent) (p : page) :
  searchFilter toLowerCase validSelector e p =
    if validSelector (dataSearch e) then Done (searched toLowerCase e p)
    else Threw SyntaxError p.
Proof.
  unfold searchFilter, searched, querySelectorAll.
  destruct (validSelector (dataSearch e)); [| reflexivity]. f_equal.
  destruct (bySelector p !! dataSearch e) as [items |] eqn:Hsel;
    cbn [default from_option id].
  - exact (forEachItem_page (dataSearch e) (value e) items [] p Hsel).
  - reflexivity.
Qed.

Lemma searched_items (e : inputEvent) (p : page) :
  querySelectorAll (searched toLowerCase e p) (dataSearch e) =
    map (filtered toLowerCase (value e)) (querySelectorAll p (dataSearch e)).
Proof.
  unfold searched, querySelectorAll.
  destruct (bySelector p !! dataSearch e) as [items |] eqn:Hsel.
  - cbn [bySelector]. now rewrite lookup_insert_eq.
  - now rewrite Hsel.
Qed.

(** C7: the filter lower-cases the query and the text of every target item
    and compares by substring, whatever lower-casing the platform implements:
    the run completes, every target item keeps its place and its text, and
    its display is restored to the empty string when the lower-cased query
    occurs in the lower-cased text and set to none when it does not. *)
Theorem search_filter_shows_matches (e : inputEvent) (p : page) (i : nat) (item : element) :
  validSelector (dataSearch e) = true ->
  querySelectorAll p (dataSearch e) !! i = Some item ->
  exists p' item',
    searchFilter toLowerCase validSelector e p = Done p' /\
    querySelectorAll p' (dataSearch e) !! i = Some item' /\
    textContent item' = textContent item /\
    (occursIn (toLowerCase (value e)) (toLowerCase (textContent item)) ->
     display item' = "") /\
    (~ occursIn (toLowerCase (value e)) (toLowerCase (textContent item)) ->
     display item' = "none").
Proof.
  intros Hvalid Hitem.
  exists (searched toLowerCase e p), (filtered toLowerCase (value e) item).
  rewrite searchFilter_searched, Hvalid. split; [reflexivity |].
  rewrite searched_items, list_lookup_fmap, Hitem.
  split; [reflexivity |]. split; [reflexivity |].
  unfold filtered. cbn [display set_display].
  rewrite <- includes_occursIn.
  destruct (includes _ _); split; intros; congruence.
Qed.

End SearchFacts.

Lemma search_filter_shows_matches_witness :
  exists p' item',
    Search.searchFilter asciiLowerCase notEmpty typedKam rowsPage = Done p' /\
    querySelectorAll p' "tbody tr" !! 1%nat = Some item' /\
    textContent item' = "Brian KAMAU" /\
    display item' = "".
Proof.
  destruct (search_filter_shows_matches asciiLowerCase notEmpty typedKam rowsPage 1
              (mkElement "Brian KAMAU" "" "none" "") eq_refl eq_refl)
    as (p' & item' & Hrun & Hat & Htext & Hshown & _).
  exists p', item'. split; [exact Hrun |]. split; [exact Hat |]. split; [exact Htext |].
  apply Hshown. exists "brian ", "au". reflexivity.
Defined.

(** ** debounce *)

Section DebounceFacts.
Import Debounce.
Context {A : Type}.
Variable wait : Z.

Lemma fire_not_due (n : nat) (t : Z) (s : state (A := A)) (tm : timer) :
  queue s = [tm] -> t < due tm -> fire n t s = s.
Proof.
  intros Hq Hdue. destruct n as [| n]; [reflexivity |].
  cbn [fire]. rewrite Hq. cbn [earliest].
  destruct (Z.leb_spec (due tm) t); [lia | reflexivity].
Qed.





(** The event loop is run long enough: after [advance t] no timer that was due
    by [t] is left in the queue, whatever the queue held. *)
Lemma earliest_spec (q : list (timer (A := A))) :
  match earliest q with
  | Some tm => In tm q /\ Forall (fun x => due tm <= due x) q
  | None => q = []
  end.
Proof.
  induction q as [| x q IH]; cbn [earliest]; [reflexivity |].
  destruct (earliest q) as [tm |].
  - destruct IH as [Hin Hmin]. destruct (Z.ltb_spec (due tm) (due x)).
    + split; [now right |]. constructor; [lia | exact Hmin].
    + split; [now left |]. constructor; [lia |].
      eapply Forall_impl; [exact Hmin |]. cbn. intros y Hy. lia.
  - subst q. split; [now left |]. constructor; [lia | constructor].
Qed.

Lemma filter_drops_fired (q : list (timer (A := A))) (tm : timer) :
  In tm q ->
  (length (List.filter (fun x => negb (Nat.eqb (timerId x) (timerId tm))) q)
     < length q)%nat.
Proof.
  induction q as [| x q IH]; intros Hin; [destruct Hin |].
  cbn [List.filter length].
  pose proof (List.filter_length_le
                (fun x => negb (Nat.eqb (timerId x) (timerId tm))) q) as Hle.
  destruct Hin as [-> | Hin].
  - rewrite Nat.eqb_refl. cbn [negb]. lia.
  - specialize (IH Hin). destruct (negb _); cbn [length]; lia.
Qed.

Lemma clearTimeout_length (id : option nat) (q : list (timer (A := A))) :
  (length (clearTimeout id q) <= length q)%nat.
Proof.
  destruct id as [i |]; cbn [clearTimeout]; [apply List.filter_length_le | lia].
Qed.

Lemma fire_complete (n : nat) (t : Z) (s : state (A := A)) :
  (length (queue s) <= n)%nat ->
  Forall (fun tm => t < due tm) (queue (fire n t s)).
Proof.
  revert s. induction n as [| n IH]; intros s Hlen; cbn [fire].
  - destruct (queue s); [constructor | cbn in Hlen; lia].
  - pose proof (earliest_spec (queue s)) as Hearliest.
    destruct (earliest (queue s)) as [tm |].
    + destruct Hearliest as [Hin Hmin].
      destruct (Z.leb_spec (due tm) t) as [Hdue | Hlater].
      * apply IH. unfold later. cbn [queue timeout].
        pose proof (filter_drops_fired (queue s) tm Hin) as Hdrop.
        pose proof (clearTimeout_length (timeout s)
                      (List.filter (fun x => negb (Nat.eqb (timerId x) (timerId tm)))
                         (queue s))) as Hclear.
        lia.
      * eapply Forall_impl; [exact Hmin |]. cbn. intros y Hy. lia.
    + rewrite Hearliest. constructor.
Qed.

Lemma advance_fires_all_due (t : Z) (s : state (A := A)) :
  Forall (fun tm => t < due tm) (queue (advance t s)).
Proof. unfold advance. cbn [queue]. now apply fire_complete. Qed.


End DebounceFacts.


(** ** debounce, in general *)

Section DebounceInGeneral.
Import Debounce.
Context {A : Type}.
Variable wait : Z.

Lemma fire_single_due (n : nat) (t : Z) (s : state (A := A)) (tm : timer) :
  queue s = [tm] -> timeout s = Some (timerId tm) -> due tm <= t ->
  fire (S n) t s =
    mkState (Z.max (now s) (due tm)) (nextId s) [] (timeout s) (calls s ++ [args tm]).
Proof.
  intros Hq Hto Hdue. cbn [fire]. rewrite Hq. cbn [earliest].
  destruct (Z.leb_spec (due tm) t); [| lia].
  cbn [List.filter]. rewrite Nat.eqb_refl. cbn [negb].
  unfold later. cbn [now nextId queue timeout calls].
  rewrite Hto. cbn [clearTimeout List.filter].
  destruct n; reflexivity.
Qed.



Lemma trailing_last (events : list (Z * A)) (e : Z * A) :
  last events = Some e ->
  exists before, trailing wait events = before ++ [e.2].
Proof.
  revert e. induction events as [| x rest IH]; intros e Hlast; [discriminate |].
  destruct rest as [| y rest].
  - injection Hlast as <-. now exists [].
  - destruct (IH e) as [before Hbefore]; [exact Hlast |].
    cbn [trailing] in *. rewrite Hbefore.
    destruct (_ <? _); [exists (x.2 :: before) | exists before]; reflexivity.
Qed.






Lemma clearTimeout_nil (id : option nat) : clearTimeout id ([] : list (timer (A := A))) = [].
Proof. now destruct id. Qed.

Lemma fire_singlePending (n : nat) (t : Z) (s : state (A := A)) :
  singlePending s ->
  singlePending (fire n t s) /\
  (length (calls (fire n t s)) + length (queue (fire n t s))
     = length (calls s) + length (queue s))%nat.
Proof.
  intros [Hq | (tm & Hq & Hto)].
  - assert (fire n t s = s) as ->.
    { destruct n; [reflexivity |]. cbn [fire]. now rewrite Hq. }
    split; [now left | reflexivity].
  - destruct n as [| n]; [split; [right; eauto | reflexivity] |].
    destruct (Z.leb_spec (due tm) t) as [Hdue | Hearly].
    + rewrite (fire_single_due n t s tm Hq Hto Hdue).
      split; [now left |]. cbn [calls queue]. rewrite Hq, length_app. cbn. lia.
    + rewrite (fire_not_due (S n) t s tm Hq Hearly).
      split; [right; eauto | reflexivity].
Qed.

Lemma executedFunction_singlePending (a : A) (s : state) :
  singlePending s ->
  singlePending (executedFunction wait a s) /\
  (length (calls (executedFunction wait a s)) + length (queue (executedFunction wait a s))
     <= S (length (calls s) + length (queue s)))%nat.
Proof.
  intros Hs. unfold executedFunction. cbn [queue timeout calls].
  assert (clearTimeout (timeout s) (queue s) = []) as ->.
  { destruct Hs as [-> | (tm & -> & ->)]; [apply clearTimeout_nil |].
    cbn. now rewrite Nat.eqb_refl. }
  split.
  - right. eexists. split; reflexivity.
  - cbn. lia.
Qed.

Lemma play_singlePending (events : list (Z * A)) (s : state) :
  singlePending s ->
  singlePending (play wait events s) /\
  (length (calls (play wait events s)) + length (queue (play wait events s))
     <= length events + (length (calls s) + length (queue s)))%nat.
Proof.
  revert s. induction events as [| [t a] events IH]; intros s Hs; cbn [play].
  - split; [exact Hs | cbn; lia].
  - assert (singlePending (arrive t s) /\
            (length (calls (arrive t s)) + length (queue (arrive t s))
               = length (calls s) + length (queue s))%nat) as [Hadv Hcount].
    { unfold arrive.
      destruct (fire_singlePending (length (queue s)) (t - 1) s Hs) as [H1 H2].
      split; [| exact H2].
      destruct H1 as [H1 | (tm & H1 & H1')]; [now left | right; eauto]. }
    destruct (executedFunction_singlePending a (arrive t s) Hadv) as [Hcall Hcount'].
    destruct (IH _ Hcall) as [Hend Hcount''].
    split; [exact Hend |]. cbn [length]. lia.
Qed.

(** X3: whatever the times of the calls (in order or not), the debounced
    function keeps at most one timer pending, and [func] has run at most as
    many times as the debounced function was called. *)
Theorem debounce_keeps_one_timer (t0 : Z) (events : list (Z * A)) (T : Z) :
  let s := advance T (play wait events (initial t0)) in
  (length (queue s) <= 1)%nat /\ (length (calls s) <= length events)%nat.
Proof.
  cbn zeta.
  destruct (play_singlePending events (initial t0)) as [Hplay Hcount]; [now left |].
  destruct (fire_singlePending (length (queue (play wait events (initial t0)))) T _ Hplay)
    as [Hfire Hcount'].
  unfold advance. cbn [queue calls]. cbn [initial calls queue length] in Hcount.
  split.
  - destruct Hfire as [-> | (tm & -> & _)]; cbn; lia.
  - lia.
Qed.

End DebounceInGeneral.



(** ** Search, as a whole *)

Section SearchInGeneral.
Import Search.
Variable toLowerCase : string -> string.
Variable validSelector : string -> bool.

Lemma includes_empty (s : string) : includes s "" = true.
Proof. destruct s; reflexivity. Qed.

(** X4: an empty query shows every target item again (the empty string has
    nothing to lower-case). *)
Theorem empty_search_shows_all (e : inputEvent) (p : page) :
  value e = "" -> toLowerCase "" = "" -> validSelector (dataSearch e) = true ->
  querySelectorAll (pageOf (searchFilter toLowerCase validSelector e p)) (dataSearch e) =
    map (set_display "") (querySelectorAll p (dataSearch e)).
Proof.
  intros Hempty Hlower Hvalid. rewrite searchFilter_searched, Hvalid. cbn [pageOf].
  rewrite searched_items. apply map_ext. intros item.
  unfold filtered. rewrite Hempty, Hlower. now rewrite includes_empty.
Qed.




(** X7: what a run of the filter changes and what it leaves.  On a target
    selector that does not parse it throws a SyntaxError before touching
    anything.  Otherwise it completes; the charts, timers, listeners, console
    and location are as before, and the target items are the same in number
    and order, each with its text, transform and cursor: only their display
    is set. *)
Theorem search_filter_only_sets_display (e : inputEvent) (p : page) :
  (validSelector (dataSearch e) = false ->
   searchFilter toLowerCase validSelector e p = Threw SyntaxError p) /\
  (validSelector (dataSearch e) = true ->
   exists p',
     searchFilter toLowerCase validSelector e p = Done p' /\
     charts p' = charts p /\ pending p' = pending p /\
     listeners p' = listeners p /\ console p' = console p /\ href p' = href p /\
     length (querySelectorAll p' (dataSearch e)) = length (querySelectorAll p (dataSearch e)) /\
     (forall i item', querySelectorAll p' (dataSearch e) !! i = Some item' ->
        exists item, querySelectorAll p (dataSearch e) !! i = Some item /\
          textContent item' = textContent item /\
          transform item' = transform item /\
          cursor item' = cursor item)).
Proof.
  rewrite searchFilter_searched. split; intros ->; [reflexivity |].
  exists (searched toLowerCase e p). split; [reflexivity |].
  rewrite searched_items, length_map.
  assert (charts (searched toLowerCase e p) = charts p /\
          pending (searched toLowerCase e p) = pending p /\
          listeners (searched toLowerCase e p) = listeners p /\
          console (searched toLowerCase e p) = console p /\
          href (searched toLowerCase e p) = href p)
    as (H1 & H2 & H3 & H4 & H5).
  { unfold searched. destruct (bySelector p !! dataSearch e); cbn; repeat split. }
  repeat (split; [assumption |]). split; [reflexivity |].
  intros i item' Hitem'. rewrite list_lookup_fmap in Hitem'.
  destruct (querySelectorAll p (dataSearch e) !! i) as [item |]; [| discriminate].
  injection Hitem' as <-. exists item. repeat split.
Qed.




End SearchInGeneral.

Lemma empty_search_shows_all_witness :
  querySelectorAll (pageOf (Search.searchFilter asciiLowerCase notEmpty clearedSearch rowsPage))
                   "tbody tr" =
    map (set_display "") (querySelectorAll rowsPage "tbody tr").
Proof.
  apply (empty_search_shows_all asciiLowerCase notEmpty clearedSearch rowsPage);
    reflexivity.
Defined.


Lemma search_filter_only_sets_display_witness :
  Search.searchFilter asciiLowerCase notEmpty (Search.mkInputEvent "kam" "") rowsPage
    = Threw SyntaxError rowsPage /\
  exists p',
    Search.searchFilter asciiLowerCase notEmpty typedKam rowsPage = Done p' /\
    length (querySelectorAll p' "tbody tr") = 3%nat.
Proof.
  split.
  - apply (proj1 (search_filter_only_sets_display asciiLowerCase notEmpty
                    (Search.mkInputEvent "kam" "") rowsPage)).
    reflexivity.
  - destruct (proj2 (search_filter_only_sets_display asciiLowerCase notEmpty
                       typedKam rowsPage) eq_refl)
      as (p' & Hrun & _ & _ & _ & _ & _ & Hlen & _).
    exists p'. split; [exact Hrun | exact Hlen].
Defined.


(** ** KPI cards: wiring and the click effect *)

Section KpiInGeneral.
Import Kpi.

Lemma forEachCard_page (rest done : list element) (p : page) :
  bySelector p !! ".kpi-card" = Some (done ++ rest) ->
  forEachCard rest (length done) p =
    mkPage (byId p)
           (<[".kpi-card" := done ++ map (set_cursor "pointer") rest]> (bySelector p))
           (charts p) (pending p)
           (listeners p ++ map cardListener (seq (length done) (length rest)))
           (console p) (href p).
Proof.
  revert done p. induction rest as [| card rest IH]; intros done p Hsel;
    cbn [forEachCard map length seq].
  - rewrite insert_id by exact Hsel. rewrite !app_nil_r. symmetry. apply page_eta.
  - set (p1 := addEventListener (".kpi-card", length done) "click"
                 (KpiCardClick (length done)) p).
    assert (updateElement (".kpi-card", length done) (set_cursor "pointer") p1 =
              mkPage (byId p)
                (<[".kpi-card" := (done ++ [set_cursor "pointer" card]) ++ rest]> (bySelector p))
                (charts p) (pending p) (listeners p ++ [cardListener (length done)])
                (console p) (href p)) as Hstep.
    { unfold updateElement, p1. cbn [fst snd addEventListener bySelector].
      assert ((done ++ card :: rest) !! length done = Some card) as Hcard
        by now rewrite list_lookup_middle.
      rewrite Hsel, Hcard.
      rewrite insert_app_r_alt, Nat.sub_diag by lia.
      cbn. now rewrite <- app_assoc. }
    rewrite Hstep.
    pose proof (IH (done ++ [set_cursor "pointer" card])
                  (mkPage (byId p)
                     (<[".kpi-card" := (done ++ [set_cursor "pointer" card]) ++ rest]>
                        (bySelector p))
                     (charts p) (pending p) (listeners p ++ [cardListener (length done)])
                     (console p) (href p))) as IH'.
    cbn [bySelector byId charts pending listeners console href] in IH'.
    rewrite lookup_insert_eq in IH'. specialize (IH' eq_refl).
    rewrite length_app, Nat.add_1_r in IH'. cbn [length] in IH'.
    rewrite IH', insert_insert_eq, <- !app_assoc. reflexivity.
Qed.

Lemma addKPICardInteractions_wired (p : page) :
  addKPICardInteractions p =
    match bySelector p !! ".kpi-card" with
    | Some cards => wired cards p
    | None => p
    end.
Proof.
  unfold addKPICardInteractions, querySelectorAll.
  destruct (bySelector p !! ".kpi-card") as [cards |] eqn:Hsel;
    cbn [default from_option id forEachCard]; [| reflexivity].
  exact (forEachCard_page cards [] p Hsel).
Qed.

(** X9: [addKPICardInteractions] gives every KPI card the pointer cursor and
    one click listener carrying the card's index, in card order; the cards
    keep their text and style otherwise, and it builds no chart, sets no
    timer, writes nothing to the console and leaves the location. *)
Theorem kpi_wiring_sets_cursor_and_listeners (p : page) :
  let cards := querySelectorAll p ".kpi-card" in
  let p' := addKPICardInteractions p in
  querySelectorAll p' ".kpi-card" = map (set_cursor "pointer") cards /\
  listeners p' = listeners p ++ map cardListener (seq 0 (length cards)) /\
  charts p' = charts p /\ pending p' = pending p /\
  console p' = console p /\ href p' = href p.
Proof.
  cbn zeta. rewrite addKPICardInteractions_wired. unfold querySelectorAll.
  destruct (bySelector p !! ".kpi-card") as [cards |] eqn:Hsel.
  - unfold wired. cbn [bySelector byId charts pending listeners console href].
    rewrite lookup_insert_eq. cbn [default from_option id].
    repeat split.
  - rewrite Hsel. cbn. rewrite app_nil_r. repeat split.
Qed.

(** X10: a click presses the card in (transform scale(0.98)) and sets one
    100 ms timer; when that timer fires the transform is cleared again and no
    timer of the click is left.  The card's text, display and cursor are not
    touched. *)
Theorem kpi_click_presses_then_releases
    (this : elemref) (index : nat) (p : page) (l : list element) (e : element)
    (net : Refresh.fetchResult) :
  bySelector p !! this.1 = Some l -> l !! this.2 = Some e ->
  let p' := kpiCardClick this index p in
  resolve this p' = Some (set_transform "scale(0.98)" e) /\
  pending p' = pending p ++ [(100, SetTransform this "")] /\
  exists p'',
    Timers.fireTimer (length (pending p)) net p' = Done p'' /\
    resolve this p'' = Some (set_transform "" e) /\
    pending p'' = pending p.
Proof.
  intros Hl He. cbn zeta.
  assert (exists url,
            kpiCardClick this index p =
              mkPage (byId p) (<[this.1 := <[this.2 := set_transform "scale(0.98)" e]> l]>
                                 (bySelector p))
                     (charts p) (pending p ++ [(100, SetTransform this "")]) (listeners p)
                     (console p) url) as [url ->].
  { unfold kpiCardClick, navigate, updateElement. rewrite Hl, He.
    destruct index as [| [| [| [| n]]]]; cbn; eauto. }
  assert (this.2 < length l)%nat as Hlt by (eapply lookup_lt_Some; eassumption).
  unfold resolve. cbn [bySelector pending].
  rewrite lookup_insert_eq, list_lookup_insert_eq by exact Hlt.
  split; [reflexivity |]. split; [reflexivity |].
  unfold Timers.fireTimer. cbn [pending].
  rewrite list_lookup_middle by reflexivity.
  cbn [Timers.repeats Timers.runCallback].
  eexists. split; [reflexivity |].
  unfold Timers.unschedule, updateElement.
  cbn [fst snd bySelector byId charts pending listeners console href].
  rewrite lookup_insert_eq, list_lookup_insert_eq by exact Hlt.
  cbn [bySelector pending].
  rewrite lookup_insert_eq, list_insert_insert_eq, list_lookup_insert_eq by exact Hlt.
  split; [reflexivity |].
  rewrite delete_middle. apply app_nil_r.
Qed.

Lemma kpi_click_presses_then_releases_witness :
  resolve (".kpi-card", 2%nat) (kpiCardClick (".kpi-card", 2%nat) 2 kpiPage)
    = Some (set_transform "scale(0.98)" blank).
Proof.
  apply (proj1 (kpi_click_presses_then_releases (".kpi-card", 2%nat) 2 kpiPage
                  [blank; blank; blank; blank] blank Refresh.FetchRejected
                  eq_refl eq_refl)).
Defined.

End KpiInGeneral.

(** ** Refresh, as a whole *)

Section RefreshInGeneral.
Import Refresh.

Lemma kpiFrame_refl (p : page) : kpiFrame p p.
Proof.
  repeat split. exists []. split; [now rewrite app_nil_r | constructor].
Qed.

Lemma kpiFrame_trans (p q r : page) : kpiFrame p q -> kpiFrame q r -> kpiFrame p r.
Proof.
  intros (A1 & A2 & A3 & A4 & A5 & A6 & new1 & A7 & A8)
         (B1 & B2 & B3 & B4 & B5 & B6 & new2 & B7 & B8).
  repeat split; try congruence.
  - intros sel Hsel. now rewrite B6, A6.
  - exists (new1 ++ new2). split.
    + now rewrite B7, A7, app_assoc.
    + now apply Forall_app.
Qed.

Lemma kpiFrame_updateElement (sel : string) (i : nat) (f : element -> element) (p : page) :
  kpiSelector sel -> kpiFrame p (updateElement (sel, i) f p).
Proof.
  intros Hsel. unfold updateElement. cbn [fst snd].
  destruct (bySelector p !! sel) as [l |]; [| apply kpiFrame_refl].
  destruct (l !! i); [| apply kpiFrame_refl].
  repeat split; cbn.
  - intros sel' Hsel'. apply lookup_insert_ne. intros ->. contradiction.
  - exists []. split; [now rewrite app_nil_r | constructor].
Qed.

Lemma kpiFrame_pulse (element : elemref) (p : page) :
  kpiFrame p (setTimeout (SetTransform element "scale(1)") 150 p).
Proof.
  repeat split. eexists. split; [reflexivity |].
  constructor; [now exists element | constructor].
Qed.

(** One round of the loop keeps the frame, thrown or not. *)
Lemma updateKPICard_frame (stats : jsval) (entry : string * option elemref) (p : page) :
  (forall r, entry.2 = Some r -> kpiSelector r.1) ->
  kpiFrame p (pageOf (updateKPICard stats entry p)).
Proof.
  intros Hentry. unfold updateKPICard.
  destruct entry.2 as [[sel i] |] eqn:He; [| apply kpiFrame_refl].
  specialize (Hentry _ eq_refl). cbn [fst] in Hentry.
  destruct (getProp stats entry.1) as [v | e]; cbn [eval pageOf]; [| apply kpiFrame_refl].
  destruct (truthy v); cbn [pageOf]; [| apply kpiFrame_refl].
  eapply kpiFrame_trans; [| apply kpiFrame_pulse].
  eapply kpiFrame_trans; apply kpiFrame_updateElement; exact Hentry.
Qed.

Lemma forEach_frame (stats : jsval) (entries : list (string * option elemref)) (p : page) :
  Forall (fun entry => forall r, entry.2 = Some r -> kpiSelector r.1) entries ->
  kpiFrame p (pageOf (forEach (updateKPICard stats) entries p)).
Proof.
  revert p. induction entries as [| entry entries IH]; intros p Hall; cbn [forEach].
  - apply kpiFrame_refl.
  - inversion Hall as [| ? ? Hentry Hrest]; subst.
    pose proof (updateKPICard_frame stats entry p Hentry) as Hstep.
    destruct (updateKPICard stats entry p) as [p1 | e p1]; cbn [andThen pageOf] in *.
    + eapply kpiFrame_trans; [exact Hstep | now apply IH].
    + exact Hstep.
Qed.

Lemma kpiElements_selectors (p : page) :
  Forall (fun entry => forall r, entry.2 = Some r -> kpiSelector r.1) (kpiElements p).
Proof.
  unfold kpiElements, kpiSelectors, kpiSelector. cbn [map fst snd].
  repeat (apply Forall_cons_2; [cbn [fst snd]; intros r;
    destruct (querySelector p _); intros [= <-]; cbn; tauto |]).
  apply Forall_nil_2.
Qed.

Lemma updateKPICards_frame (stats : jsval) (p : page) :
  kpiFrame p (pageOf (updateKPICards stats p)).
Proof. apply forEach_frame, kpiElements_selectors. Qed.

(** How a refresh ends, whatever the fetch gave: normally, with the page
    [updateKPICards] left (or the page as it was) and at most one more console
    line. *)
Lemma refresh_outcome (net : fetchResult) (p : page) :
  exists p1 lines,
    refreshDashboardData net p =
      Done (mkPage (byId p1) (bySelector p1) (charts p1) (pending p1) (listeners p1)
                   (console p1 ++ lines) (href p1)) /\
    kpiFrame p p1 /\
    match net with
    | Response false _ => lines = []
    | _ => lines = [refreshedLine] \/ lines = [failedLine]
    end.
Proof.
  unfold refreshDashboardData.
  destruct net as [| [|] [data | e]]; cbn [try_catch eval].
  - exists p, [failedLine]. split; [reflexivity |]. split; [apply kpiFrame_refl | now right].
  - destruct (getProp data "stats") as [stats | e]; cbn [eval try_catch].
    + pose proof (updateKPICards_frame stats p) as Hframe.
      destruct (updateKPICards stats p) as [p1 | e p1]; cbn [andThen try_catch pageOf] in *.
      * exists p1, [refreshedLine]. split; [reflexivity |]. split; [exact Hframe | now left].
      * exists p1, [failedLine]. split; [reflexivity |]. split; [exact Hframe | now right].
    + exists p, [failedLine]. split; [reflexivity |].
      split; [apply kpiFrame_refl | now right].
  - exists p, [failedLine]. split; [reflexivity |]. split; [apply kpiFrame_refl | now right].
  - exists p, []. split; [now rewrite app_nil_r, page_eta |].
    split; [apply kpiFrame_refl | reflexivity].
  - exists p, []. split; [now rewrite app_nil_r, page_eta |].
    split; [apply kpiFrame_refl | reflexivity].
Qed.

(** X12: whatever the fetch gives, a refresh ends normally; it builds no
    chart, registers no listener and leaves the location, and the only timers
    it adds are the 150 ms pulse resets, never another refresh. *)
Theorem refresh_adds_only_pulse_timers (net : fetchResult) (p : page) :
  exists p',
    refreshDashboardData net p = Done p' /\
    charts p' = charts p /\ listeners p' = listeners p /\ href p' = href p /\
    exists new, pending p' = pending p ++ new /\ Forall pulseReset new.
Proof.
  destruct (refresh_outcome net p)
    as (p1 & lines & -> & (H1 & H2 & H3 & H4 & _ & H6 & H7) & _).
  eexists. split; [reflexivity |]. cbn. auto 10.
Qed.

(** X13: a refresh writes exactly one console line, "refreshed" or "failed",
    except on a non-OK response, which it passes over without a word. *)
Theorem refresh_logs_one_line_unless_not_ok (net : fetchResult) (p : page) :
  exists p',
    refreshDashboardData net p = Done p' /\
    match net with
    | Response false _ => console p' = console p
    | _ => console p' = console p ++ [refreshedLine] \/
           console p' = console p ++ [failedLine]
    end.
Proof.
  destruct (refresh_outcome net p)
    as (p1 & lines & -> & (_ & _ & _ & _ & H5 & _) & Hlines).
  eexists. split; [reflexivity |]. cbn [console]. rewrite H5.
  destruct net as [| [|] json].
  - destruct Hlines as [-> | ->]; auto.
  - destruct Hlines as [-> | ->]; auto.
  - rewrite Hlines. apply app_nil_r.
Qed.

End RefreshInGeneral.

Section RefreshCards.
Import Refresh.

Lemma querySelector_frame (p p' : page) (sel : string) :
  bySelector p' !! sel = bySelector p !! sel -> querySelector p' sel = querySelector p sel.
Proof. intros Hsel. unfold querySelector, querySelectorAll. now rewrite Hsel. Qed.

(** One round of the loop for an object snapshot, on the heading its entry
    names. *)
Lemma updateKPICard_object (o : gmap string jsval) (key sel : string) (q p : page) :
  bySelector q !! sel = bySelector p !! sel ->
  exists p',
    updateKPICard (JObj o)
      (key, match querySelector q sel with
            | Some _ => Some (sel, 0%nat)
            | None => None
            end) p = Done p' /\
    querySelector p' sel = kpiAfter o key <$> querySelector p sel /\
    (forall sel', sel' <> sel -> bySelector p' !! sel' = bySelector p !! sel').
Proof.
  intros Hsame. rewrite (querySelector_frame p q sel Hsame).
  unfold updateKPICard, kpiAfter, querySelector, querySelectorAll. cbn [fst snd getProp eval].
  destruct (bySelector p !! sel) as [[| e rest] |] eqn:Hsel; cbn [default from_option id head].
  - exists p. rewrite Hsel. repeat split.
  - destruct (truthy (default JUndefined (o !! key))) eqn:Htruthy.
    + eexists. split; [reflexivity |].
      unfold updateElement. cbn [fst snd]. rewrite Hsel. cbn.
      rewrite lookup_insert_eq. cbn. rewrite !lookup_insert_eq. cbn.
      split; [reflexivity |].
      intros sel' Hne. now rewrite !lookup_insert_ne by congruence.
    + exists p. rewrite Hsel. repeat split.
  - exists p. rewrite Hsel. repeat split.
Qed.

(** X14: a successful refresh sets each KPI card from its own key of the
    snapshot: a card whose key holds a truthy value shows that value (and is
    scaled up for the pulse); a card whose key is missing, or holds 0 or
    another falsy value, is left exactly as it was; a card that is not on the
    page stays absent. *)
Theorem refresh_sets_each_card_from_its_key
    (p : page) (data stats : gmap string jsval) :
  data !! "stats" = Some (JObj stats) ->
  exists p',
    refreshDashboardData (Response true (Normal (JObj data))) p = Done p' /\
    Forall (fun ks => querySelector p' ks.2 = kpiAfter stats ks.1 <$> querySelector p ks.2)
           kpiSelectors.
Proof.
  intros Hstats.
  unfold refreshDashboardData, updateKPICards, kpiElements, kpiSelectors.
  cbn [eval getProp map fst snd]. rewrite Hstats. cbn [default from_option id eval forEach].
  destruct (updateKPICard_object stats "totalPatients" ".kpi-card:nth-child(1) h3" p p eq_refl)
    as (p1 & -> & Q1 & F1).
  cbn [andThen].
  destruct (updateKPICard_object stats "totalAssessments" ".kpi-card:nth-child(2) h3" p p1)
    as (p2 & -> & Q2 & F2); [now rewrite F1 |].
  cbn [andThen].
  destruct (updateKPICard_object stats "highRiskCount" ".kpi-card:nth-child(3) h3" p p2)
    as (p3 & -> & Q3 & F3); [now rewrite F2, F1 |].
  cbn [andThen].
  destruct (updateKPICard_object stats "assessmentsThisWeek" ".kpi-card:nth-child(4) h3" p p3)
    as (p4 & -> & Q4 & F4); [now rewrite F3, F2, F1 |].
  cbn [andThen try_catch].
  eexists. split; [reflexivity |].
  assert (forall sel, querySelector (console_log "Dashboard data refreshed" p4) sel
                      = querySelector p4 sel) as Hlog by reflexivity.
  repeat apply Forall_cons_2; [| | | | apply Forall_nil_2]; cbn [fst snd]; rewrite Hlog.
  - rewrite (querySelector_frame p3 p4), (querySelector_frame p2 p3),
      (querySelector_frame p1 p2), Q1 by (apply F4 || apply F3 || apply F2; done).
    reflexivity.
  - rewrite (querySelector_frame p3 p4), (querySelector_frame p2 p3), Q2
      by (apply F4 || apply F3; done).
    f_equal. apply querySelector_frame. now apply F1.
  - rewrite (querySelector_frame p3 p4), Q3 by (apply F4; done).
    f_equal. apply querySelector_frame. now rewrite F2, F1.
  - rewrite Q4. f_equal. apply querySelector_frame. now rewrite F3, F2, F1.
Qed.

Lemma refresh_sets_each_card_from_its_key_witness :
  exists p',
    refreshDashboardData (Response true (Normal (JObj partialSnapshot))) kpiPage = Done p' /\
    displayed p' ".kpi-card:nth-child(1) h3" = Some "121" /\
    displayed p' ".kpi-card:nth-child(2) h3" = Some "45" /\
    displayed p' ".kpi-card:nth-child(3) h3" = Some "3".
Proof.
  destruct (refresh_sets_each_card_from_its_key kpiPage partialSnapshot
              (<["totalPatients" := JNum 121]> (<["highRiskCount" := JNum 0]> ∅)) eq_refl)
    as (p' & Hrun & Hcards).
  exists p'. split; [exact Hrun |].
  apply Forall_cons in Hcards as [H1 Hcards].
  apply Forall_cons in Hcards as [H2 Hcards].
  apply Forall_cons in Hcards as [H3 _].
  unfold displayed. cbn [fst snd] in H1, H2, H3. rewrite H1, H2, H3.
  repeat split.
Defined.

Lemma forEach_nullish (stats : jsval) (entries : list (string * option elemref)) (p : page) :
  nullish stats ->
  forEach (updateKPICard stats) entries p =
    if forallb (fun entry => match entry.2 with Some _ => false | None => true end) entries
    then Done p
    else Threw TypeError p.
Proof.
  intros Hstats. induction entries as [| entry entries IH]; cbn [forEach forallb];
    [reflexivity |].
  unfold updateKPICard at 1.
  destruct entry.2; cbn [andb andThen].
  - now rewrite (getProp_nullish stats _ Hstats).
  - exact IH.
Qed.

(** X15: an OK response whose body has no usable [stats] ([undefined] or
    [null]) changes no card.  When at least one KPI heading is on the page the
    read of [stats[key]] throws, the refresh catches it and logs the failure;
    on a page without any KPI heading nothing is read and the refresh logs
    success. *)
Theorem refresh_without_stats_changes_nothing (data stats : jsval) (p : page) :
  getProp data "stats" = Normal stats -> nullish stats ->
  (Exists (fun ks => is_Some (querySelector p ks.2)) kpiSelectors ->
   refreshDashboardData (Response true (Normal data)) p = Done (console_log failedLine p)) /\
  (Forall (fun ks => querySelector p ks.2 = None) kpiSelectors ->
   refreshDashboardData (Response true (Normal data)) p = Done (console_log refreshedLine p)).
Proof.
  intros Hdata Hstats.
  unfold refreshDashboardData. cbn [eval]. rewrite Hdata. cbn [eval].
  unfold updateKPICards. rewrite (forEach_nullish stats _ p Hstats).
  unfold kpiElements, kpiSelectors. cbn [map forallb fst snd].
  split.
  - intros Hsome.
    repeat (apply Exists_cons in Hsome as [[e He] | Hsome];
            [cbn [snd] in He; rewrite He;
             repeat (destruct (querySelector p _)); reflexivity |]).
    inversion Hsome.
  - intros Hnone.
    repeat (apply Forall_cons in Hnone as [He Hnone]; cbn [snd] in He; rewrite He;
            clear He).
    reflexivity.
Qed.

Lemma refresh_without_stats_changes_nothing_witness :
  refreshDashboardData (Response true (Normal noStats)) kpiPage
    = Done (console_log failedLine kpiPage) /\
  refreshDashboardData (Response true (Normal noStats)) barePage
    = Done (console_log refreshedLine barePage).
Proof.
  split.
  - apply (proj1 (refresh_without_stats_changes_nothing noStats JUndefined kpiPage
                    eq_refl (or_introl eq_refl))).
    apply Exists_cons_hd. exists (heading "120"). reflexivity.
  - apply (proj2 (refresh_without_stats_changes_nothing noStats JUndefined barePage
                    eq_refl (or_introl eq_refl))).
    repeat apply Forall_cons_2; try apply Forall_nil_2; reflexivity.
Defined.

(** X16: the pulse of one card.  Writing a truthy value scales the heading up,
    sets its text and schedules one 150 ms timer; when that timer fires the
    heading is back at scale(1) with the new text, and the timer is gone. *)
Theorem kpi_update_pulses_then_settles
    (stats : jsval) (key sel : string) (v : jsval) (e : element) (rest : list element)
    (p : page) (net : fetchResult) :
  bySelector p !! sel = Some (e :: rest) ->
  getProp stats key = Normal v -> truthy v = true ->
  exists p' p'',
    updateKPICard stats (key, Some (sel, 0%nat)) p = Done p' /\
    querySelector p' sel =
      Some (set_textContent (ToString v) (set_transform "scale(1.1)" e)) /\
    pending p' = pending p ++ [(150, SetTransform (sel, 0%nat) "scale(1)")] /\
    Timers.fireTimer (length (pending p)) net p' = Done p'' /\
    querySelector p'' sel =
      Some (set_textContent (ToString v) (set_transform "scale(1)" e)) /\
    pending p'' = pending p.
Proof.
  intros Hsel Hv Htruthy.
  assert (updateKPICard stats (key, Some (sel, 0%nat)) p =
            Done (mkPage (byId p)
                    (<[sel := set_textContent (ToString v) (set_transform "scale(1.1)" e)
                                :: rest]> (bySelector p))
                    (charts p) (pending p ++ [(150, SetTransform (sel, 0%nat) "scale(1)")])
                    (listeners p) (console p) (href p))) as Hrun.
  { unfold updateKPICard. cbn [fst snd]. rewrite Hv. cbn [eval]. rewrite Htruthy.
    unfold updateElement. cbn [fst snd]. rewrite Hsel.
    cbn [lookup list_lookup bySelector]. rewrite lookup_insert_eq.
    cbn [lookup list_lookup insert list_insert].
    unfold setTimeout. cbn [byId bySelector charts pending listeners console href].
    now rewrite insert_insert_eq. }
  rewrite Hrun. eexists. eexists. split; [reflexivity |].
  unfold querySelector, querySelectorAll. cbn [bySelector pending].
  rewrite lookup_insert_eq. split; [reflexivity |]. split; [reflexivity |].
  unfold Timers.fireTimer. cbn [pending].
  rewrite list_lookup_middle by reflexivity.
  cbn [Timers.repeats Timers.runCallback].
  unfold Timers.unschedule, updateElement.
  cbn [fst snd bySelector byId charts pending listeners console href].
  rewrite lookup_insert_eq. cbn [lookup list_lookup insert list_insert].
  split; [reflexivity |]. cbn [bySelector pending].
  rewrite lookup_insert_eq. split; [reflexivity |].
  rewrite delete_middle. apply app_nil_r.
Qed.

Lemma kpi_update_pulses_then_settles_witness :
  exists p' p'',
    updateKPICard (JObj onlyPatients)
      ("totalPatients", Some (".kpi-card:nth-child(1) h3", 0%nat)) kpiPage = Done p' /\
    Timers.fireTimer 0 FetchRejected p' = Done p'' /\
    querySelector p'' ".kpi-card:nth-child(1) h3" = Some (mkElement "121" "scale(1)" "" "").
Proof.
  destruct (kpi_update_pulses_then_settles (JObj onlyPatients)
              "totalPatients" ".kpi-card:nth-child(1) h3" (JNum 121) (heading "120") []
              kpiPage FetchRejected eq_refl eq_refl eq_refl)
    as (p' & p'' & Hrun & _ & _ & Hfire & Hsettled & _).
  exists p', p''. split; [exact Hrun |]. split; [exact Hfire |]. exact Hsettled.
Defined.

End RefreshCards.

(** ** Tooltip percentages: range and wording *)

Section TooltipInGeneral.
Import Charts Tooltip Binary64.
#[local] Open Scope Q_scope.

Lemma sumZ_nonneg (data : list Z) :
  Forall (fun n => (0 <= n)%Z) data -> (0 <= sumZ data)%Z.
Proof.
  induction 1 as [| x l Hx _ IH]; cbn [sumZ foldr]; [lia |]. unfold sumZ in IH. lia.
Qed.

Lemma member_le_sum (data : list Z) (v : Z) :
  Forall (fun n => (0 <= n)%Z) data -> In v data -> (0 <= v <= sumZ data)%Z.
Proof.
  induction 1 as [| x l Hx Hl IH]; intros Hin; [destruct Hin |].
  cbn [sumZ foldr]. pose proof (sumZ_nonneg l Hl) as Hnn. unfold sumZ in *.
  destruct Hin as [-> | Hin]; [lia |]. specialize (IH Hin). lia.
Qed.

Lemma share_bounds (v t : Z) :
  (0 < t)%Z -> (0 <= v <= t)%Z -> 0 <= inject_Z v / inject_Z t * 100 <= 100.
Proof.
  intros Ht [Hv Hvt].
  pose proof (inject_Z_pos t Ht) as Hqt.
  pose proof (inject_Z_nonneg v Hv) as Hqv.
  assert (inject_Z v <= inject_Z t) as Hqvt by now rewrite <- Zle_Qle.
  assert (0 <= inject_Z v / inject_Z t) as Hlo.
  { apply Qle_shift_div_l; [exact Hqt | lra]. }
  assert (inject_Z v / inject_Z t <= 1) as Hhi.
  { apply Qle_shift_div_r; [exact Hqt | lra]. }
  set (q := inject_Z v / inject_Z t) in *. clearbody q. split; lra.
Qed.

Lemma tenths_in_range (v t n : Z) :
  (0 < t)%Z -> (0 <= v <= t)%Z ->
  let X := inject_Z (Z.abs v) / inject_Z t * 100 in
  10 * (X * (1 - eps) * (1 - eps)) - (1 # 2) < inject_Z n ->
  inject_Z n <= 10 * (X * (1 + eps) * (1 + eps)) + (1 # 2) ->
  (0 <= n <= 1000)%Z.
Proof.
  intros Ht Hv X Hlo Hhi. unfold X in *. clear X.
  rewrite Z.abs_eq in Hlo, Hhi by lia.
  pose proof (share_bounds v t Ht Hv) as [Xl Xh].
  set (X := inject_Z v / inject_Z t * 100) in *. clearbody X. unfold eps in *.
  assert (inject_Z (-1) < inject_Z n < inject_Z 1001) as [L U].
  { change (inject_Z (-1)) with (-1). change (inject_Z 1001) with 1001. split; lra. }
  rewrite <- Zlt_Qlt in L, U. lia.
Qed.

(** X17: on a chart of non-negative counts with a positive safe total, every
    slice's tooltip shows a percentage from 0.0 to 100.0, without a minus
    sign. *)
Theorem slice_percentage_between_0_and_100 (lbl : string) (v : Z) (data : list Z) :
  Forall (fun n => (0 <= n)%Z) data -> In v data ->
  (0 < sumZ data < 2 ^ 53)%Z ->
  exists f,
    tooltipPercentage (mkContext lbl v data) = Some (PctFixed f) /\
    negative f = false /\ (0 <= tenths f <= 1000)%Z.
Proof.
  intros Hdata Hin [Hpos Hsafe].
  pose proof (member_le_sum data v Hdata Hin) as Hv.
  pose proof (safeCounts_nonneg data Hdata Hsafe) as Hcounts.
  rewrite tooltipPercentage_positive by assumption. cbn [parsed dataset].
  destruct (percentage_fixed v (sumZ data)) as (n & -> & Hlo & Hhi);
    [unfold safe; lia | exact Hpos | unfold safe; lia |].
  eexists. split; [reflexivity |]. cbn [negative tenths]. split.
  - destruct (Z.ltb_spec v 0); [lia | reflexivity].
  - exact (tenths_in_range v (sumZ data) n Hpos Hv Hlo Hhi).
Qed.

Lemma slice_percentage_between_0_and_100_witness :
  exists f,
    tooltipPercentage (mkContext "Moderate Risk" 15 [1; 15; 0]%Z) = Some (PctFixed f) /\
    negative f = false /\ (0 <= tenths f <= 1000)%Z.
Proof.
  apply (slice_percentage_between_0_and_100 "Moderate Risk" 15 [1; 15; 0]%Z).
  - repeat constructor; lia.
  - right. left. reflexivity.
  - cbn. lia.
Defined.

Lemma label_or_empty (lbl : string) : ToString (js_or (JStr lbl) (JStr "")) = lbl.
Proof.
  unfold js_or. cbn [truthy].
  destruct (String.eqb_spec lbl "") as [-> | _]; reflexivity.
Qed.

(** The slice that holds the whole total shows exactly 100.0. *)
Lemma whole_total_is_100 (t : Z) :
  (0 < t)%Z -> safe t ->
  toFixed1 (SFmul prec emax (SFdiv prec emax (ofZ t) (ofZ t)) (ofZ 100))
    = Some (mkFixed1 false 1000).
Proof.
  intros Ht St.
  destruct (percentage_fixed t t St Ht St) as (n & -> & Hlo & Hhi).
  cbn zeta in Hlo, Hhi. rewrite Z.abs_eq in Hlo, Hhi by lia.
  pose proof (inject_Z_pos t Ht) as HT.
  assert (inject_Z t / inject_Z t * 100 == 100) as E by (field; lra).
  rewrite E in Hlo, Hhi. unfold eps in *.
  assert (inject_Z 999 < inject_Z n < inject_Z 1001) as [L U].
  { change (inject_Z 999) with 999. change (inject_Z 1001) with 1001. split; lra. }
  rewrite <- Zlt_Qlt in L, U.
  assert (n = 1000%Z) as -> by lia.
  destruct (Z.ltb_spec t 0); [lia | reflexivity].
Qed.

Lemma empty_slice_is_0 (t : Z) :
  (0 < t)%Z -> safe t ->
  toFixed1 (SFmul prec emax (SFdiv prec emax (ofZ 0) (ofZ t)) (ofZ 100))
    = Some (mkFixed1 false 0).
Proof.
  intros Ht St. destruct (ofZ_finite t ltac:(lia) St) as (m & e & -> & _). reflexivity.
Qed.

Lemma safe_isSafeInteger (n : Z) : safe n -> isSafeInteger n = true.
Proof.
  intros [Hlo Hhi]. unfold isSafeInteger.
  apply andb_true_iff. split; apply Z.ltb_lt; assumption.
Qed.

(** X19: the wording of the label at the ends of the range, for a dataset of
    integer counts whose running sums are safe integers.  With a positive
    total, the slice that holds the whole total reads "100.0%" and an empty
    slice reads "0.0%"; with a total of 0 or below (all counts 0, or corrupt
    negative counts) the slice of any safe count reads "0%", without a
    decimal. *)
Theorem tooltip_label_at_the_extremes (lbl : string) (v : Z) (data : list Z) :
  safeCounts data -> safe v ->
  ((0 < sumZ data)%Z ->
   tooltipLabel (mkContext lbl (sumZ data) data) =
     Some (lbl +:+ ": " +:+ Z_to_string (sumZ data) +:+ " patients (100.0%)") /\
   tooltipLabel (mkContext lbl 0 data) = Some (lbl +:+ ": 0 patients (0.0%)")) /\
  ((sumZ data <= 0)%Z ->
   tooltipLabel (mkContext lbl v data) =
     Some (lbl +:+ ": " +:+ Z_to_string v +:+ " patients (0%)")).
Proof.
  intros Hsafe Sv. pose proof (safeCounts_total data Hsafe) as St. split.
  - intros Hpos. unfold tooltipLabel.
    rewrite !tooltipPercentage_positive by assumption.
    cbn [parsed dataset label]. rewrite label_or_empty.
    rewrite whole_total_is_100, empty_slice_is_0 by assumption.
    rewrite (safe_isSafeInteger _ St).
    split; reflexivity.
  - intros Hle. unfold tooltipLabel.
    rewrite tooltipPercentage_not_positive by assumption.
    cbn [parsed label]. now rewrite label_or_empty, (safe_isSafeInteger _ Sv).
Qed.

Lemma tooltip_label_at_the_extremes_witness :
  tooltipLabel (mkContext "High Risk" 7 [0; 0; 7]%Z) = Some "High Risk: 7 patients (100.0%)" /\
  tooltipLabel (mkContext "Low Risk" 2 [2; -5; 1]%Z) = Some "Low Risk: 2 patients (0%)".
Proof.
  split.
  - apply (proj1 (proj1 (tooltip_label_at_the_extremes "High Risk" 0 [0; 0; 7]%Z
                           (safeCounts_three 0 0 7 ltac:(cbn; lia) ltac:(cbn; lia)
                              ltac:(cbn; lia))
                           ltac:(unfold safe; cbn; lia))
                        ltac:(cbn; lia))).
  - apply (proj2 (tooltip_label_at_the_extremes "Low Risk" 2 [2; -5; 1]%Z
                    (safeCounts_three 2 (-5) 1 ltac:(cbn; lia) ltac:(cbn; lia)
                       ltac:(cbn; lia))
                    ltac:(unfold safe; cbn; lia))).
    cbn. lia.
Defined.

End TooltipInGeneral.

(** ** Falsy values, page load, the refresh loop *)

Section LoadInGeneral.
Import Charts Load.

Lemma js_or_fallsBackTo (o : gmap string jsval) (k : string) (dflt : jsval) :
  fallsBackTo o k dflt (js_or (default JUndefined (o !! k)) dflt).
Proof. intros v -> Hv. unfold js_or. cbn. now rewrite Hv. Qed.

(** X20: [||] defaults more than missing keys.  A key that is present with a
    falsy value ([null], [false], an empty string, [undefined], 0) is drawn
    as 0 in the doughnut, and falsy [labels] or [counts] are replaced by the
    weekday labels and the seven zeros. *)
Theorem falsy_values_fall_back_to_defaults (o : gmap string jsval) (p : page) :
  (is_Some (getElementById p "riskDistributionChart") ->
   exists low moderate high,
     initializeRiskDistributionChart (JObj o) p =
       Done (newChart
               (mkChart "riskDistributionChart" "doughnut"
                  (JArr [JStr "Low Risk"; JStr "Moderate Risk"; JStr "High Risk"])
                  (JArr [low; moderate; high])) p) /\
     fallsBackTo o "low_risk" (JNum 0) low /\
     fallsBackTo o "moderate_risk" (JNum 0) moderate /\
     fallsBackTo o "high_risk" (JNum 0) high) /\
  (is_Some (getElementById p "assessmentTrendsChart") ->
   exists labels counts,
     initializeAssessmentTrendsChart (JObj o) p =
       Done (newChart (mkChart "assessmentTrendsChart" "line" labels counts) p) /\
     fallsBackTo o "labels" defaultLabels labels /\
     fallsBackTo o "counts" defaultCounts counts).
Proof.
  split; intros [ctx Hctx].
  - exists (js_or (default JUndefined (o !! "low_risk")) (JNum 0)),
           (js_or (default JUndefined (o !! "moderate_risk")) (JNum 0)),
           (js_or (default JUndefined (o !! "high_risk")) (JNum 0)).
    split; [| auto using js_or_fallsBackTo].
    unfold initializeRiskDistributionChart.
    rewrite Hctx, !getProp_object. reflexivity.
  - exists (js_or (default JUndefined (o !! "labels")) defaultLabels),
           (js_or (default JUndefined (o !! "counts")) defaultCounts).
    split; [| auto using js_or_fallsBackTo].
    unfold initializeAssessmentTrendsChart.
    rewrite Hctx, !getProp_object. reflexivity.
Qed.

Lemma falsy_values_fall_back_to_defaults_witness :
  initializeRiskDistributionChart (JObj falsyCounts) canvasPage =
    Done (newChart
            (mkChart "riskDistributionChart" "doughnut"
               (JArr [JStr "Low Risk"; JStr "Moderate Risk"; JStr "High Risk"])
               (JArr [JNum 0; JNum 0; JNum 0])) canvasPage).
Proof.
  destruct (proj1 (falsy_values_fall_back_to_defaults falsyCounts canvasPage))
    as (low & moderate & high & Hrun & Hlow & Hmoderate & Hhigh).
  - exists blank. reflexivity.
  - rewrite Hrun, (Hlow JNull eq_refl eq_refl), (Hmoderate (JBool false) eq_refl eq_refl),
      (Hhigh (JStr "") eq_refl eq_refl).
    reflexivity.
Defined.

End LoadInGeneral.

Section PageLoad.
Import Charts Load.

Lemma forEachInput_page (inputs : list element) (i : nat) (p : page) :
  Search.forEachInput inputs i p =
    mkPage (byId p) (bySelector p) (charts p) (pending p)
           (listeners p ++ map searchListener (seq i (length inputs)))
           (console p) (href p).
Proof.
  revert i p. induction inputs as [| input inputs IH]; intros i p;
    cbn [Search.forEachInput length seq map].
  - rewrite app_nil_r. symmetry. apply page_eta.
  - rewrite IH. unfold addEventListener.
    cbn [byId bySelector charts pending listeners console href].
    now rewrite <- app_assoc.
Qed.

(** What [addInteractiveFeatures] adds to a page. *)
Lemma addInteractiveFeatures_fields (q : page) :
  let q' := addInteractiveFeatures q in
  byId q' = byId q /\ charts q' = charts q /\ console q' = console q /\ href q' = href q /\
  pending q' = pending q ++ [(300000, RefreshDashboardData)] /\
  listeners q' =
    listeners q ++ map cardListener (seq 0 (length (querySelectorAll q ".kpi-card")))
                ++ map searchListener (seq 0 (length (querySelectorAll q "[data-search]"))).
Proof.
  cbn zeta. unfold addInteractiveFeatures, Search.addSearchFunctionality.
  rewrite forEachInput_page, addKPICardInteractions_wired.
  unfold setInterval, setTimeout, querySelectorAll.
  cbn [byId bySelector charts pending listeners console href].
  destruct (bySelector q !! ".kpi-card") as [cards |] eqn:Hcards.
  - unfold wired. cbn [byId bySelector charts pending listeners console href].
    rewrite lookup_insert_ne by done. cbn [default from_option id].
    rewrite <- app_assoc. repeat split.
  - cbn [byId bySelector charts pending listeners console href default from_option length seq
           map app].
    repeat split.
Qed.

(** X21: without chart data the dashboard stays static.  When the [chartData]
    element is missing, or its text does not parse, page load only writes one
    console line: no chart is drawn, no click or search listener is
    registered and the refresh timer is never started. *)
Theorem load_without_chart_data_sets_nothing_up
    (JSON_parse : string -> completion jsval) (p : page) :
  (getElementById p "chartData" = None \/
   exists chartDataElement e,
     getElementById p "chartData" = Some chartDataElement /\
     JSON_parse (textContent chartDataElement) = Throw e) ->
  exists p' line,
    onDOMContentLoaded JSON_parse p = Done p' /\
    console p' = console p ++ [line] /\
    charts p' = charts p /\ listeners p' = listeners p /\ pending p' = pending p /\
    bySelector p' = bySelector p /\ href p' = href p.
Proof.
  unfold onDOMContentLoaded.
  intros [-> | (el & e & -> & ->)]; eexists; eexists; (split; [reflexivity |]);
    cbn; repeat split.
Qed.

Lemma load_without_chart_data_sets_nothing_up_witness :
  exists p' line,
    onDOMContentLoaded sampleParse (servedPage "{oops") = Done p' /\
    console p' = console (servedPage "{oops") ++ [line] /\
    charts p' = [] /\ listeners p' = [] /\ pending p' = [].
Proof.
  destruct (load_without_chart_data_sets_nothing_up sampleParse (servedPage "{oops"))
    as (p' & line & Hrun & Hconsole & Hcharts & Hlisteners & Hpending & _).
  - right. exists (mkElement "{oops" "" "" ""), SyntaxError. split; reflexivity.
  - exists p', line. repeat split; assumption.
Defined.

(** X22: a full page load.  With chart data that parses to an object holding
    both sections as objects, and both canvases on the page, load draws the
    doughnut and then the line chart, starts one refresh timer of 300000 ms,
    registers one click listener per KPI card and one debounced (300 ms)
    input listener per search box, writes nothing to the console and stays on
    the page. *)
Theorem load_sets_up_the_dashboard
    (JSON_parse : string -> completion jsval) (p : page) (chartDataElement : element)
    (chartData risk trends : gmap string jsval) :
  getElementById p "chartData" = Some chartDataElement ->
  JSON_parse (textContent chartDataElement) = Normal (JObj chartData) ->
  chartData !! "riskDistribution" = Some (JObj risk) ->
  chartData !! "assessmentTrends" = Some (JObj trends) ->
  is_Some (getElementById p "riskDistributionChart") ->
  is_Some (getElementById p "assessmentTrendsChart") ->
  exists doughnut line p',
    onDOMContentLoaded JSON_parse p = Done p' /\
    charts p' = charts p ++ [doughnut; line] /\
    (canvas doughnut = "riskDistributionChart" /\ chartType doughnut = "doughnut") /\
    (canvas line = "assessmentTrendsChart" /\ chartType line = "line") /\
    pending p' = pending p ++ [(300000, RefreshDashboardData)] /\
    listeners p' =
      listeners p ++ map cardListener (seq 0 (length (querySelectorAll p ".kpi-card")))
                  ++ map searchListener (seq 0 (length (querySelectorAll p "[data-search]"))) /\
    console p' = console p /\ href p' = href p.
Proof.
  intros Hel Hparse Hrisk Htrends [ctx1 Hctx1] [ctx2 Hctx2].
  unfold onDOMContentLoaded.
  rewrite Hel, Hparse, !getProp_object, Hrisk, Htrends.
  cbn [eval default from_option id].
  unfold initializeRiskDistributionChart. rewrite Hctx1, !getProp_object.
  cbn [bind eval andThen].
  unfold initializeAssessmentTrendsChart.
  change (getElementById (newChart ?c p) "assessmentTrendsChart")
    with (getElementById p "assessmentTrendsChart").
  rewrite Hctx2, !getProp_object. cbn [bind eval andThen].
  eexists. eexists. eexists. split; [reflexivity |].
  match goal with
  | |- context [addInteractiveFeatures ?q] =>
      destruct (addInteractiveFeatures_fields q) as (_ & H2 & H3 & H4 & H5 & H6)
  end.
  rewrite H2, H3, H4, H5, H6.
  unfold newChart, querySelectorAll.
  cbn [byId bySelector charts pending listeners console href canvas chartType].
  rewrite <- app_assoc. repeat split.
Qed.

Lemma load_sets_up_the_dashboard_witness :
  exists doughnut line p',
    onDOMContentLoaded sampleParse (servedPage "full") = Done p' /\
    charts p' = [doughnut; line] /\
    pending p' = [(300000, RefreshDashboardData)] /\
    length (listeners p') = 5%nat.
Proof.
  destruct (load_sets_up_the_dashboard sampleParse (servedPage "full")
              (mkElement "full" "" "" "") _ equalThirds onlyCounts
              eq_refl eq_refl eq_refl eq_refl
              (ex_intro _ blank eq_refl) (ex_intro _ blank eq_refl))
    as (doughnut & line & p' & Hrun & Hcharts & _ & _ & Hpending & Hlisteners & _).
  exists doughnut, line, p'. split; [exact Hrun |].
  split; [exact Hcharts |]. split; [exact Hpending |].
  rewrite Hlisteners. reflexivity.
Defined.

(** X23: a missing section stops the load half way.  When the parsed chart data
    has no [riskDistribution] and the doughnut's canvas is present, the
    listener throws a TypeError with the page untouched; when only
    [assessmentTrends] is missing, it throws after the doughnut has been
    drawn.  Either way no listener is registered and no refresh timer is
    started. *)
Theorem load_aborts_on_missing_section
    (JSON_parse : string -> completion jsval) (p : page) (chartDataElement : element)
    (chartData : gmap string jsval) :
  getElementById p "chartData" = Some chartDataElement ->
  JSON_parse (textContent chartDataElement) = Normal (JObj chartData) ->
  (is_Some (getElementById p "riskDistributionChart") ->
   chartData !! "riskDistribution" = None ->
   onDOMContentLoaded JSON_parse p = Threw TypeError p) /\
  (is_Some (getElementById p "riskDistributionChart") ->
   is_Some (getElementById p "assessmentTrendsChart") ->
   forall risk, chartData !! "riskDistribution" = Some (JObj risk) ->
   chartData !! "assessmentTrends" = None ->
   exists doughnut p',
     onDOMContentLoaded JSON_parse p = Threw TypeError p' /\
     charts p' = charts p ++ [doughnut] /\ canvas doughnut = "riskDistributionChart" /\
     listeners p' = listeners p /\ pending p' = pending p).
Proof.
  intros Hel Hparse. split.
  - intros Hctx Hmissing.
    now apply (load_throws_without_risk_section JSON_parse p chartDataElement chartData).
  - intros [ctx1 Hctx1] Hctx2 risk Hrisk Hmissing.
    unfold onDOMContentLoaded.
    rewrite Hel, Hparse, !getProp_object, Hrisk, Hmissing.
    cbn [eval default from_option id].
    unfold initializeRiskDistributionChart. rewrite Hctx1, !getProp_object.
    cbn [bind eval andThen].
    rewrite trends_chart_throws by (assumption || now left).
    cbn [andThen]. eexists. eexists. split; [reflexivity |].
    cbn. repeat split.
Qed.

Lemma load_aborts_on_missing_section_witness :
  exists doughnut p',
    onDOMContentLoaded sampleParse (servedPage "half") = Threw TypeError p' /\
    charts p' = [doughnut] /\ listeners p' = [] /\ pending p' = [].
Proof.
  destruct (proj2 (load_aborts_on_missing_section sampleParse (servedPage "half")
                     (mkElement "half" "" "" "") _ eq_refl eq_refl)
              (ex_intro _ blank eq_refl) (ex_intro _ blank eq_refl)
              equalThirds eq_refl eq_refl)
    as (doughnut & p' & Hrun & Hcharts & _ & Hlisteners & Hpending).
  exists doughnut, p'. repeat split; assumption.
Defined.

(** X24: the refresh loop neither stops, retries nor backs off.  When the
    refresh timer fires, whatever the fetch gives, the run ends normally and
    the timer is still scheduled at its place with its period; after a failed
    attempt the timers are exactly as before. *)
Theorem refresh_timer_keeps_its_period
    (net : Refresh.fetchResult) (p : page) (i : nat) (period : Z) :
  pending p !! i = Some (period, RefreshDashboardData) ->
  exists p',
    Timers.fireTimer i net p = Done p' /\
    pending p' !! i = Some (period, RefreshDashboardData) /\
    (failedAttempt net -> pending p' = pending p).
Proof.
  intros Htimer. unfold Timers.fireTimer. rewrite Htimer.
  cbn [Timers.repeats Timers.runCallback].
  destruct (refresh_outcome net p)
    as (p1 & lines & Hrun & (_ & _ & _ & _ & _ & _ & new & Hpending & _) & _).
  rewrite Hrun. eexists. split; [reflexivity |]. cbn [pending]. split.
  - rewrite Hpending. apply lookup_app_l_Some. exact Htimer.
  - intros Hfailed. apply (f_equal pageOf) in Hrun. apply (f_equal pending) in Hrun.
    destruct Hfailed as [-> | [[json ->] | [e ->]]]; cbn in Hrun; now rewrite <- Hrun.
Qed.

Lemma refresh_timer_keeps_its_period_witness :
  exists p',
    Timers.fireTimer 0 Refresh.FetchRejected (addInteractiveFeatures kpiPage) = Done p' /\
    pending p' !! 0%nat = Some (300000, RefreshDashboardData).
Proof.
  destruct (refresh_timer_keeps_its_period Refresh.FetchRejected
              (addInteractiveFeatures kpiPage) 0 300000 eq_refl)
    as (p' & Hrun & Hkept & _).
  exists p'. split; assumption.
Defined.

End PageLoad.
